(** * amlpp.conveyor.Conveyor: a shallow embedding and its verified properties

    The embedding follows [src/amlpp/conveyor/conveyor.py] method by method.
    Every call that leaves the [Conveyor] class (a stage method, an estimator
    method, pandas, optuna, the progress bar, ...) is a [call] answered by the
    environment; the methods of the class are programs of a small monad that
    threads the environment's state, propagates exceptions and records every
    call together with its answer. *)

From Stdlib Require Import List String Ascii ZArith Lia Bool Arith QArith.
From stdpp Require Import base gmap strings.
Import ListNotations.

Local Open Scope string_scope.
Local Open Scope list_scope.

(* String concatenation computes on literals. *)
#[local] Arguments String.append !_ _ / : simpl nomatch.

(** ** Python values common to all methods *)

(** A raised exception: its class name and [str(e)].  The model covers the
    instances of [Exception], which is what both [except Exception] and a bare
    [except:] catch. *)
Record exn : Type := Exn { exn_class : string; exn_msg : string }.

(** What a call or a method produces: a value, or a raised exception. *)
Inductive outcome (A : Type) : Type :=
| Ok (a : A)
| Raise (e : exn).
Arguments Ok {A} a.
Arguments Raise {A} e.

(** The kinds of Python objects the class handles; the class never looks
    inside any of them. *)
Class PyObjects : Type := {
  XR : Type;   (* feature tables (pd.DataFrame) *)
  YR : Type;   (* targets (pd.DataFrame or pd.Series) *)
  BR : Type;   (* stage objects (blocks) *)
  ER : Type;   (* estimator / model objects *)
  PR : Type;   (* prediction arrays *)
  FR : Type;   (* metric callables *)
  V : Type;    (* values returned by metrics and by study.best_value *)
  PB : Type;   (* progress bars *)
  ST : Type;   (* optuna studies *)
  OB : Type;   (* optuna objectives *)
  FAM : Type;  (* model classes of the catalogs *)
  SP : Type;   (* search spaces of the catalogs *)
  PV : Type    (* values stored in parameter dicts *)
}.

Section Calls.
Context {PO : PyObjects}.

(** [self.blocks] and [self.estimator] ([None] until one is given). *)
Record Conveyor : Type := mkConveyor {
  blocks : list BR;
  estimator : option ER
}.

(** [params_columns] of [fit_lgbm_model]. *)
Record params_columns : Type := mkParamsColumns {
  feature_name : list string;
  early_stopping_rounds : Z;
  verbose : bool;
  categorical_feature : list string
}.

(** The calls that leave the class. *)
Inductive call : Type :=
(* pandas *)
| Copy_X (X : XR)                                   (* X.copy() *)
| Copy_Y (Y : YR)                                   (* Y.copy() *)
| Y_empty (Y : YR)                                  (* Y.empty *)
| Columns (X : XR)                                  (* X.columns *)
(* stages *)
| Dir_target_transform (block : BR)                 (* 'target_transform' in dir(block) *)
| Block_fit (block : BR) (X : XR) (Y : YR)          (* block.fit(X, Y) *)
| Block_transform (block : BR) (X : XR)             (* block.transform(X) *)
| Block_target_transform (block : BR) (Y : YR)      (* block.target_transform(Y) *)
(* estimators and models *)
| Est_fit (est : ER) (X : XR) (Y : YR)
    (eval_set : option (XR * YR)) (kw : option params_columns)   (* est.fit(X, Y, ...) *)
| Est_predict (est : ER) (X : XR)                   (* est.predict(X) *)
| Construct (cls : FAM) (kw : gmap string PV)       (* cls( **params) *)
(* metrics *)
| Eval_name (name : string)                         (* eval(name) *)
| Metric_call (func : FR) (y : YR) (result : PR)    (* func(y, result) *)
(* progress bars *)
| ProgressBar (total : nat)                         (* ProgressBar(total) *)
| ProgressFitModel (total : PV)                     (* ProgressFitModel(total) *)
| Pbar_set_postfix (pbar : PB) (key value : string) (* pbar.set_postfix(key, value) *)
| Pbar_update (pbar : PB)                           (* pbar.update() *)
(* optuna *)
| Create_study                                      (* optuna.create_study(direction='maximize') *)
| SklearnOptimizer (X : XR) (Y : YR) (X_test : XR) (Y_test : YR)
    (rating_func : FR) (pb : PB) (model : FAM) (space : SP)
| LGBMOptimizer (X : XR) (Y : YR) (X_test : XR) (Y_test : YR)
    (rating_func : FR) (pb : PB) (model : FAM) (space : SP) (kw : params_columns)
| Study_optimize (study : ST) (objective : OB) (kw : gmap string PV)
| Best_params (study : ST)                          (* study.best_params *)
| Best_value (study : ST)                           (* study.best_value *)
(* the rest of the world *)
| Train_test_split (X : XR) (Y : YR)                (* test_size = 0.1, random_state = 42 *)
| Sleep (seconds : Z)                               (* time.sleep(seconds) *)
| Print (args : list string)                        (* print( *args) *)
| Now_strftime (format : string)                    (* datetime.now().strftime(format) *)
| Pickle_dump (file : string) (self : Conveyor).    (* with open(file, 'wb') as f: pickle.dump(self, f) *)

(** The type of the answer to each call. *)
Definition ret (c : call) : Type :=
  match c with
  | Copy_X _ => XR
  | Copy_Y _ => YR
  | Y_empty _ => bool
  | Columns _ => list string
  | Dir_target_transform _ => bool
  | Block_fit _ _ _ => BR
  | Block_transform _ _ => XR
  | Block_target_transform _ _ => YR
  | Est_fit _ _ _ _ _ => ER
  | Est_predict _ _ => PR
  | Construct _ _ => ER
  | Eval_name _ => FR
  | Metric_call _ _ _ => V
  | ProgressBar _ => PB
  | ProgressFitModel _ => PB
  | Pbar_set_postfix _ _ _ => unit
  | Pbar_update _ => unit
  | Create_study => ST
  | SklearnOptimizer _ _ _ _ _ _ _ _ => OB
  | LGBMOptimizer _ _ _ _ _ _ _ _ _ => OB
  | Study_optimize _ _ _ => unit
  | Best_params _ => gmap string PV
  | Best_value _ => V
  | Train_test_split _ _ => (XR * XR * YR * YR)%type
  | Sleep _ => unit
  | Print _ => unit
  | Now_strftime _ => string
  | Pickle_dump _ _ => unit
  end.

(** One line of the record of a run: a call and the answer it got. *)
Record entry : Type := Entry { e_call : call; e_ans : outcome (ret e_call) }.

End Calls.

(** The environment the class runs in: a state [W], the answer to every call
    (which may change the state and may raise), and the attributes and
    operators of foreign objects that the class reads. *)
Class Runtime {PO : PyObjects} : Type := {
  W : Type;
  handle : forall c : call, W -> outcome (ret c) * W;
  pd_DataFrame : YR;                      (* the default [Y] of [transform]: pd.DataFrame() *)
  block_class_name : BR -> string;        (* block.__class__.__name__ *)
  est_class_name : ER -> string;          (* estimator.__class__.__name__ *)
  est_repr : ER -> string;                (* format(estimator) *)
  metric_name : FR -> outcome string;     (* func.__name__: an AttributeError for a
                                             callable that has none *)
  family_name : FAM -> string;            (* model.__name__ *)
  format_value : V -> string;             (* format(value) in an f-string *)
  v_zero : V;                             (* the int 0 *)
  v_gt : V -> V -> bool;                  (* a > b *)
  pv_int : Z -> PV;
  pv_bool : bool -> PV;
  pv_times_len : PV -> nat -> outcome PV; (* value * len(...) *)
  str_params : gmap string PV -> string;  (* str(dict) *)
  sklearn_models : list (FAM * SP);       (* the catalog dict, in iteration order *)
  lightgbm_models : FAM * SP              (* lightgbm_models[0], lightgbm_models[1] *)
}.

(** ** The monad of the methods *)

Section Monad.
Context {PO : PyObjects} {RT : Runtime}.

(** A method body: from the environment's state to its outcome, the new
    state and the calls it made, oldest first. *)
Definition M (A : Type) : Type := W -> outcome A * W * list entry.

Definition ret_ {A} (a : A) : M A := fun w => (Ok a, w, []).

Definition raise {A} (e : exn) : M A := fun w => (Raise e, w, []).

Definition bind {A B} (m : M A) (k : A -> M B) : M B :=
  fun w =>
    match m w with
    | (Ok a, w1, t1) => let '(r, w2, t2) := k a w1 in (r, w2, t1 ++ t2)
    | (Raise e, w1, t1) => (Raise e, w1, t1)
    end.

(** A call: ask the environment and record the call with its answer. *)
Definition do (c : call) : M (ret c) :=
  fun w => let (r, w1) := handle c w in (r, w1, [Entry c r]).

(** [try: m except: h e] *)
Definition try_except {A} (m : M A) (h : exn -> M A) : M A :=
  fun w =>
    match m w with
    | (Ok a, w1, t1) => (Ok a, w1, t1)
    | (Raise e, w1, t1) => let '(r, w2, t2) := h e w1 in (r, w2, t1 ++ t2)
    end.

End Monad.

Declare Scope py_scope.
Delimit Scope py_scope with py.
Notation "x <- m ;; k" := (bind m (fun x => k))
  (at level 100, m at next level, right associativity) : py_scope.
Notation "'let2' ( x , y ) <- m ;; k" := (bind m (fun xy => let '(x, y) := xy in k))
  (at level 100, x name, y name, m at next level, right associativity) : py_scope.
Notation "m ;;; k" := (bind m (fun _ => k))
  (at level 100, right associativity) : py_scope.
Local Open Scope py_scope.

(** The result, final state and record of a run. *)
Definition result_of {A S T} (r : A * S * T) : A := fst (fst r).
Definition world_of {A S T} (r : A * S * T) : S := snd (fst r).
Definition trace_of {A S T} (r : A * S * T) : T := snd r.

(** ** Python string operations used by the class *)

(** The one-character string "\n". *)
Definition nl : string := String (ascii_of_nat 10) EmptyString.

(** [s * n] *)
Fixpoint str_repeat (s : string) (n : nat) : string :=
  match n with
  | O => EmptyString
  | S n' => s +:+ str_repeat s n'
  end.

(** [s.replace(c, by)] for a one-character [c]. *)
Fixpoint str_replace_char (c : ascii) (by_ : string) (s : string) : string :=
  match s with
  | EmptyString => EmptyString
  | String a s' =>
      if Ascii.eqb a c then by_ +:+ str_replace_char c by_ s'
      else String a (str_replace_char c by_ s')
  end.

(** [s[:-1]] *)
Fixpoint str_drop_last (s : string) : string :=
  match s with
  | EmptyString => EmptyString
  | String a EmptyString => EmptyString
  | String a s' => String a (str_drop_last s')
  end.

(** [s[1:-1]] *)
Definition str_slice_1_m1 (s : string) : string :=
  match s with
  | EmptyString => EmptyString
  | String _ s' => str_drop_last s'
  end.

(** [len(s)]: the number of characters of [s].  A Python [str] is held
    here as the bytes of its UTF-8 encoding, in which the bytes 10xxxxxx
    (128 to 191) continue a character and every other byte begins one. *)
Definition utf8_continuation (c : ascii) : bool :=
  Nat.leb 128 (nat_of_ascii c) && Nat.ltb (nat_of_ascii c) 192.

Fixpoint len (s : string) : nat :=
  match s with
  | EmptyString => 0
  | String c s' => (if utf8_continuation c then 0 else 1) + len s'
  end.

(** ** The methods of [Conveyor] *)

Section Methods.
Context {PO : PyObjects} {RT : Runtime}.

(** [None.attr] *)
Definition NoneType_has_no (attr : string) : exn :=
  Exn "AttributeError" ("'NoneType' object has no attribute '" +:+ attr +:+ "'").

(** [int(b)] *)
Definition int_of_bool (b : bool) : nat := if b then 1 else 0.

(** The outcome of [m] as a value: the exception, if any, is held rather
    than propagated.  Used for [try] blocks whose local variables are read
    after the [except]. *)
Definition reify {A} (m : M A) : M (outcome A) :=
  fun w => let '(r, w1, t1) := m w in (Ok r, w1, t1).

(** A pure computation that may raise. *)
Definition lift {A} (r : outcome A) : M A :=
  match r with
  | Ok a => ret_ a
  | Raise e => raise e
  end.

(** [_transform(self, block, X, Y)], lines 75-82. *)
Definition _transform (self : Conveyor) (block : BR) (X : XR) (Y : YR) : M (XR * YR) :=
  X <- do (Block_transform block X) ;;
  empty <- do (Y_empty Y) ;;
  if negb empty then
    declared <- do (Dir_target_transform block) ;;
    if declared then
      Y <- do (Block_target_transform block Y) ;;
      ret_ (X, Y)
    else ret_ (X, Y)
  else ret_ (X, Y).

(** The loop of [transform], lines 71-72. *)
Fixpoint transform_loop (self : Conveyor) (bs : list BR) (X_ : XR) (Y_ : YR) : M (XR * YR) :=
  match bs with
  | [] => ret_ (X_, Y_)
  | block :: bs' =>
      let2 (X_, Y_) <- _transform self block X_ Y_ ;;
      transform_loop self bs' X_ Y_
  end.

(** [transform(self, X, Y)], lines 67-73; the default of [Y] is
    [pd_DataFrame]. *)
Definition transform (self : Conveyor) (X : XR) (Y : YR) : M (XR * YR) :=
  X_ <- do (Copy_X X) ;;
  Y_ <- do (Copy_Y Y) ;;
  transform_loop self (blocks self) X_ Y_.

(** The loop of [fit_transform], lines 55-58. *)
Fixpoint fit_transform_loop (self : Conveyor) (pbar : PB) (bs : list BR)
    (X_ : XR) (Y_ : YR) : M (XR * YR) :=
  match bs with
  | [] => ret_ (X_, Y_)
  | block :: bs' =>
      do (Pbar_set_postfix pbar "transform" (block_class_name block)) ;;;
      fitted <- do (Block_fit block X_ Y_) ;;
      let2 (X_, Y_) <- _transform self fitted X_ Y_ ;;
      do (Pbar_update pbar) ;;;
      fit_transform_loop self pbar bs' X_ Y_
  end.

(** [self.estimator.__class__.__name__] *)
Definition estimator_class_name (self : Conveyor) : string :=
  match estimator self with
  | None => "NoneType"
  | Some est => est_class_name est
  end.

(** [fit_transform(self, X, Y, estimator)], lines 51-64. *)
Definition fit_transform (self : Conveyor) (X : XR) (Y : YR) (estimator_ : bool)
    : M (XR * YR) :=
  X_ <- do (Copy_X X) ;;
  Y_ <- do (Copy_Y Y) ;;
  pbar <- do (ProgressBar (length (blocks self) + int_of_bool estimator_)) ;;
  let2 (X_, Y_) <- fit_transform_loop self pbar (blocks self) X_ Y_ ;;
  if estimator_ then
    do (Pbar_set_postfix pbar "transform" (estimator_class_name self)) ;;;
    match estimator self with
    | None => raise (NoneType_has_no "fit")
    | Some est =>
        do (Est_fit est X_ Y_ None None) ;;;
        do (Pbar_update pbar) ;;;
        ret_ (X_, Y_)
    end
  else ret_ (X_, Y_).

(** [fit(self, X, Y)], lines 48-49. *)
Definition fit (self : Conveyor) (X : XR) (Y : YR) : M unit :=
  fit_transform self X Y true ;;;
  ret_ tt.

(** [predict(self, X)], lines 85-86.  Python evaluates
    [self.estimator.predict] before the argument. *)
Definition predict (self : Conveyor) (X : XR) : M PR :=
  match estimator self with
  | None => raise (NoneType_has_no "predict")
  | Some est =>
      X0 <- do (Copy_X X) ;;
      let2 (X_, Y_) <- transform self X0 pd_DataFrame ;;
      do (Est_predict est X_)
  end.

(** [_get_score(self, func, y, result)], lines 115-119.  An f-string
    evaluates its fields from left to right: [func.__name__] is read before
    [func] is called, and is read again by the handler, outside the
    [try]. *)
Definition _get_score (self : Conveyor) (func : FR) (y : YR) (result : PR) : M string :=
  try_except
    (name <- lift (metric_name func) ;;
     value <- do (Metric_call func y result) ;;
     ret_ ("function - " +:+ name +:+ " = " +:+ format_value value +:+ nl))
    (fun e =>
     name <- lift (metric_name func) ;;
     ret_ ("function - " +:+ name +:+ " = ERROR: " +:+ exn_msg e +:+ nl)).

(** The first loop of [score], lines 105-106. *)
Fixpoint score_sklearn_loop (self : Conveyor) (sklearn_function : list string)
    (Y_ : YR) (result : PR) (score : string) : M string :=
  match sklearn_function with
  | [] => ret_ score
  | func :: rest =>
      f <- do (Eval_name func) ;;
      line <- _get_score self f Y_ result ;;
      score_sklearn_loop self rest Y_ result (score +:+ line)
  end.

(** The second loop of [score], lines 107-108. *)
Fixpoint score_precision_loop (self : Conveyor) (precision_function : list FR)
    (Y_ : YR) (result : PR) (score : string) : M string :=
  match precision_function with
  | [] => ret_ score
  | func :: rest =>
      line <- _get_score self func Y_ result ;;
      score_precision_loop self rest Y_ result (score +:+ line)
  end.

(** The default of [sklearn_function]. *)
Definition default_sklearn_function : list string :=
  ["r2_score"; "roc_auc_score"; "accuracy_score"; "explained_variance_score"].

(** Lines 101-102 of [score]: transform, then predict. *)
Definition score_predict (self : Conveyor) (X : XR) (Y : YR) : M (YR * PR) :=
  X0 <- do (Copy_X X) ;;
  Y0 <- do (Copy_Y Y) ;;
  let2 (X_, Y_) <- transform self X0 Y0 ;;
  match estimator self with
  | None => raise (NoneType_has_no "predict")
  | Some est =>
      result <- do (Est_predict est X_) ;;
      ret_ (Y_, result)
  end.

(** [score(self, X, Y, sklearn_function, precision_function, _return)], lines
    89-113: [Some (score, result, Y_)] when [_return], else the report is
    printed and [None] returned. *)
Definition score (self : Conveyor) (X : XR) (Y : YR)
    (sklearn_function : list string) (precision_function : list FR)
    (_return : bool) : M (option (string * PR * YR)) :=
  let2 (Y_, result) <- score_predict self X Y ;;
  score <- score_sklearn_loop self sklearn_function Y_ result "" ;;
  score <- score_precision_loop self precision_function Y_ result score ;;
  if _return then ret_ (Some (score, result, Y_))
  else do (Print [score]) ;;; ret_ None.

End Methods.

(** ** Model search: [fit_model] and its two tracks *)

Section Search.
Context {PO : PyObjects} {RT : Runtime}.

(** The value under the key "model" of a [best_model] dict: the builtin
    [object] (the placeholder of line 202) or a class of a catalog. *)
Inductive model_slot : Type :=
| Builtin_object
| Model_class (cls : FAM).

(** The [best_model] dicts: keys "model", "params", "best_value". *)
Record best_model_dict : Type := mkBest {
  bm_model : model_slot;
  bm_params : gmap string PV;
  bm_best_value : V
}.

(** [model['model'].__name__] *)
Definition model_slot_name (m : model_slot) : string :=
  match m with
  | Builtin_object => "object"
  | Model_class cls => family_name cls
  end.

(** [{"n_trials":100, "n_jobs":-1, 'show_progress_bar':False}] *)
Definition default_params : gmap string PV :=
  <["n_trials" := pv_int 100]>
    (<["n_jobs" := pv_int (-1)]>
      (<["show_progress_bar" := pv_bool false]> ∅)).

(** [{**default_params, **params}]: the keys of [params] win. *)
Definition merge_params (params : gmap string PV) : gmap string PV :=
  params ∪ default_params.

(** [params[key]] *)
Definition getitem (params : gmap string PV) (key : string) : outcome PV :=
  match params !! key with
  | Some v => Ok v
  | None => Raise (Exn "KeyError" ("'" +:+ key +:+ "'"))
  end.

(** [_repr_dict_model(self, model)], lines 245-248. *)
Definition _repr_dict_model (self : Conveyor) (model : best_model_dict) : M unit :=
  let params := str_slice_1_m1 (str_params (bm_params model)) in
  let params := str_replace_char "'" "" (str_replace_char ":" " =" params) in
  do (Print [model_slot_name (bm_model model) +:+ "(" +:+ params +:+ ")" +:+ nl
             +:+ "best_value = " +:+ format_value (bm_best_value model)]).

(** The body of the loop of [fit_sklearn_model], lines 207-214, for one
    entry of the catalog; its value is [best_model] after the iteration. *)
Definition sklearn_family_step (X : XR) (Y : YR) (X_test : XR) (Y_test : YR)
    (rating_func : FR) (params : gmap string PV) (pb : PB)
    (family : FAM * SP) (best_model : best_model_dict) : M best_model_dict :=
  let (model, space) := family in
  do (Pbar_set_postfix pb "model" (family_name model)) ;;;
  study <- do Create_study ;;
  objective <- do (SklearnOptimizer X Y X_test Y_test rating_func pb model space) ;;
  do (Study_optimize study objective params) ;;;
  best_params <- do (Best_params study) ;;
  best_value <- do (Best_value study) ;;
  let currrent_model := mkBest (Model_class model) best_params best_value in
  best_value' <- do (Best_value study) ;;
  if v_gt best_value' (bm_best_value best_model) then ret_ currrent_model
  else ret_ best_model.

(** The [for] loop of lines 206-214 alone: an exception raised by an
    iteration is propagated. *)
Fixpoint sklearn_for_loop (X : XR) (Y : YR) (X_test : XR) (Y_test : YR)
    (rating_func : FR) (params : gmap string PV) (pb : PB)
    (catalog : list (FAM * SP)) (best_model : best_model_dict) : M best_model_dict :=
  match catalog with
  | [] => ret_ best_model
  | family :: rest =>
      best_model <- sklearn_family_step X Y X_test Y_test rating_func params pb
                      family best_model ;;
      sklearn_for_loop X Y X_test Y_test rating_func params pb rest best_model
  end.

(** The [for] loop of lines 206-214 inside the [try] of line 204 with its
    [except: pass]: an exception raised by an iteration ends the loop, and
    [best_model] keeps the value it had when the exception was raised. *)
Fixpoint sklearn_search_loop (X : XR) (Y : YR) (X_test : XR) (Y_test : YR)
    (rating_func : FR) (params : gmap string PV) (pb : PB)
    (catalog : list (FAM * SP)) (best_model : best_model_dict) : M best_model_dict :=
  match catalog with
  | [] => ret_ best_model
  | family :: rest =>
      r <- reify (sklearn_family_step X Y X_test Y_test rating_func params pb
                    family best_model) ;;
      match r with
      | Ok best_model =>
          sklearn_search_loop X Y X_test Y_test rating_func params pb rest best_model
      | Raise _ => ret_ best_model
      end
  end.

(** The whole [try ... except: pass] statement, lines 204-216; its value is
    [best_model] after the statement. *)
Definition sklearn_search (X : XR) (Y : YR) (X_test : XR) (Y_test : YR)
    (rating_func : FR) (params : gmap string PV)
    (best_model : best_model_dict) : M best_model_dict :=
  r <- reify (n_trials <- lift (getitem params "n_trials") ;;
              total <- lift (pv_times_len n_trials (length sklearn_models)) ;;
              do (ProgressFitModel total)) ;;
  match r with
  | Ok pb =>
      sklearn_search_loop X Y X_test Y_test rating_func params pb sklearn_models best_model
  | Raise _ => ret_ best_model
  end.

(** [best_model['model']( **best_model['params']).fit(X, Y)], line 218. *)
Definition refit_best (best_model : best_model_dict) (X : XR) (Y : YR) : M ER :=
  match bm_model best_model with
  | Builtin_object =>
      if decide (size (bm_params best_model) = 0)
      then raise (Exn "AttributeError" "'object' object has no attribute 'fit'")
      else raise (Exn "TypeError" "object() takes no arguments")
  | Model_class cls =>
      model <- do (Construct cls (bm_params best_model)) ;;
      do (Est_fit model X Y None None)
  end.

(** [fit_sklearn_model(self, X, Y, X_test, Y_test, rating_func, params)],
    lines 198-221. *)
Definition fit_sklearn_model (self : Conveyor) (X : XR) (Y : YR) (X_test : XR)
    (Y_test : YR) (rating_func : FR) (params : gmap string PV) : M (ER * PR) :=
  let params := merge_params params in
  let best_model := mkBest Builtin_object ∅ v_zero in
  best_model <- sklearn_search X Y X_test Y_test rating_func params best_model ;;
  model <- refit_best best_model X Y ;;
  result <- do (Est_predict model X_test) ;;
  _repr_dict_model self best_model ;;;
  ret_ ((model, result) : ER * PR).

(** [col in names] on strings. *)
Definition str_in (col : string) (names : list string) : bool :=
  existsb (String.eqb col) names.

(** [fit_lgbm_model(self, X, Y, X_test, Y_test, rating_func, params,
    categorical_columns)], lines 223-243. *)
Definition fit_lgbm_model (self : Conveyor) (X : XR) (Y : YR) (X_test : XR)
    (Y_test : YR) (rating_func : FR) (params : gmap string PV)
    (categorical_columns : list string) : M (ER * PR) :=
  let params := merge_params params in
  columns <- do (Columns X) ;;
  let params_columns :=
    mkParamsColumns columns 300 false
      (List.filter (fun col => str_in col columns) categorical_columns) in
  n_trials <- lift (getitem params "n_trials") ;;
  pb <- do (ProgressFitModel n_trials) ;;
  do (Pbar_set_postfix pb "model" "LGBMORegressor") ;;;
  study <- do Create_study ;;
  objective <- do (LGBMOptimizer X Y X_test Y_test rating_func pb
                     (fst lightgbm_models) (snd lightgbm_models) params_columns) ;;
  do (Study_optimize study objective params) ;;;
  best_params <- do (Best_params study) ;;
  model <- do (Construct (fst lightgbm_models) best_params) ;;
  model <- do (Est_fit model X Y (Some (X_test, Y_test)) (Some params_columns)) ;;
  result <- do (Est_predict model X_test) ;;
  best_params <- do (Best_params study) ;;
  best_value <- do (Best_value study) ;;
  let best_model := mkBest (Model_class (fst lightgbm_models)) best_params best_value in
  _repr_dict_model self best_model ;;;
  ret_ ((model, result) : ER * PR).

(** Lines 174-179 of [fit_model]: the training and the validation data that
    the two tracks are given, as [(X_train, Y_train, X_test, Y_test)].  The
    target list of line 179 is [X_test, X_test, Y_test, Y_test]: each of the
    two names is bound twice, and the second binding stays. *)
Definition fit_model_data (self : Conveyor) (X : XR) (Y : YR)
    (X_test : option XR) (Y_test : option YR) : M (XR * YR * XR * YR) :=
  let2 (X_train, Y_train) <- fit_transform self X Y false ;;
  match X_test, Y_test with
  | Some X_test, Some Y_test =>
      let2 (X_test, Y_test) <- transform self X_test Y_test ;;
      ret_ (X_train, Y_train, X_test, Y_test)
  | _, _ =>
      parts <- do (Train_test_split X_train Y_train) ;;
      let '(part1, part2, part3, part4) := parts in
      let X_test := part1 in
      let X_test := part2 in
      let Y_test := part3 in
      let Y_test := part4 in
      ret_ (X_train, Y_train, X_test, Y_test)
  end.

(** Lines 181-190 of [fit_model]: the two tracks, each followed by the
    rating of its predictions, as [(lgb_model, lgb_score, tpot_model,
    tpot_score)]. *)
Definition fit_model_tracks (self : Conveyor) (X_train : XR) (Y_train : YR)
    (X_test : XR) (Y_test : YR) (rating_func : FR)
    (optuna_params : gmap string PV) (categorical_columns : list string)
    : M (ER * V * ER * V) :=
  let2 (lgb_model, result) <-
    fit_lgbm_model self X_train Y_train X_test Y_test rating_func optuna_params
      categorical_columns ;;
  lgb_score <- do (Metric_call rating_func Y_test result) ;;
  do (Sleep 1) ;;;
  let2 (tpot_model, result) <-
    fit_sklearn_model self X_train Y_train X_test Y_test rating_func optuna_params ;;
  tpot_score <- do (Metric_call rating_func Y_test result) ;;
  ret_ ((lgb_model, lgb_score, tpot_model, tpot_score) : ER * V * ER * V).

(** Line 192: the assignment to [self.estimator]. *)
Definition select_estimator (self : Conveyor) (lgb_model : ER) (lgb_score : V)
    (tpot_model : ER) (tpot_score : V) : Conveyor :=
  mkConveyor (blocks self)
    (Some (if v_gt tpot_score lgb_score then tpot_model else lgb_model)).

(** [format(self.estimator)] *)
Definition estimator_repr (self : Conveyor) : string :=
  match estimator self with
  | None => "None"
  | Some est => est_repr est
  end.

(** Lines 193-196 of [fit_model]: the report and the pickle file. *)
Definition fit_model_save (self : Conveyor) : M unit :=
  do (Print [str_repeat "*" 100; nl +:+ "Best model = " +:+ estimator_repr self]) ;;;
  stamp <- do (Now_strftime "%Y_%m_%d_m%M") ;;
  do (Pickle_dump ("model_" +:+ stamp) self).

(** [fit_model(self, X, Y, X_test, Y_test, rating_func, optuna_params,
    categorical_columns)], lines 168-196.  The value is [self] after the
    assignment of line 192 together with the outcome of the lines after it;
    an exception raised before line 192 leaves [self] as it was and is
    propagated. *)
Definition fit_model (self : Conveyor) (X : XR) (Y : YR)
    (X_test : option XR) (Y_test : option YR) (rating_func : string)
    (optuna_params : gmap string PV) (categorical_columns : list string)
    : M (Conveyor * outcome unit) :=
  rating_func <- do (Eval_name rating_func) ;;
  data <- fit_model_data self X Y X_test Y_test ;;
  let '(X_train, Y_train, X_test, Y_test) := data in
  found <- fit_model_tracks self X_train Y_train X_test Y_test rating_func
             optuna_params categorical_columns ;;
  let '(lgb_model, lgb_score, tpot_model, tpot_score) := found in
  let self := select_estimator self lgb_model lgb_score tpot_model tpot_score in
  saved <- reify (fit_model_save self) ;;
  ret_ (self, saved).

End Search.

(** ** A concrete environment with tables as values

    Tables and targets are lists of integers and are never changed in
    place; stage objects have a class (fixed) and one integer of state. *)

Module Demo.

(** The classes of the stage objects.
    - [Center]: [fit] stores the first value of [X] in the object and
      returns the object; [transform] subtracts the stored value.
    - [Clone_center]: [fit] returns a new fitted [Center] object and leaves
      the object itself as it was; [transform] as for [Center].
    - [Negate_target]: [fit] returns the object; [transform] subtracts the
      stored value (never set, so 0); [target_transform] negates. *)
Inductive stage_kind : Type := Center | Clone_center | Negate_target.

(** The metrics: four functions of sklearn, and
    [functools.partial(r2_score)], a callable that has no [__name__]. *)
Inductive metric : Type :=
| r2_score | roc_auc_score | accuracy_score | explained_variance_score
| partial_r2_score.

(** Model classes; an instance is identified with its class. *)
Inductive family : Type := Ridge | Broken | Forest | Tied | LGBMRegressor.

#[export] Instance objects : PyObjects := {|
  XR := list Z;
  YR := list Z;
  BR := stage_kind * nat;
  ER := family;
  PR := list Z;
  FR := metric;
  V := Q;
  PB := unit;
  ST := nat;
  OB := family;
  FAM := family;
  SP := unit;
  PV := Z
|}.

Record world : Type := mkWorld {
  offsets : gmap nat Z;            (* the state of each stage object *)
  next_stage : nat;                (* the next free object id *)
  studies : gmap nat family;       (* the studies that completed, with what they optimized *)
  next_study : nat;
  output : list string             (* what was printed *)
}.

Definition offset_of (w : world) (i : nat) : Z := default 0%Z (offsets w !! i).

(** Every prediction of a model, in hundredths; also the best value that a
    study of its class reports. *)
Definition quality (m : family) : Z :=
  match m with
  | Ridge => 50
  | Broken => 0
  | Forest => 83
  | Tied => 81
  | LGBMRegressor => 81
  end.

Definition resolve (name : string) : outcome metric :=
  if String.eqb name "r2_score" then Ok r2_score
  else if String.eqb name "roc_auc_score" then Ok roc_auc_score
  else if String.eqb name "accuracy_score" then Ok accuracy_score
  else if String.eqb name "explained_variance_score" then Ok explained_variance_score
  else Raise (Exn "NameError" ("name '" +:+ name +:+ "' is not defined")).

Fixpoint agreements (y result : list Z) : Z :=
  match y, result with
  | a :: y', b :: r' => ((if Z.eqb a b then 1 else 0) + agreements y' r')%Z
  | _, _ => 0%Z
  end.

Definition apply_metric (f : metric) (y result : list Z) : outcome Q :=
  match f with
  | r2_score | partial_r2_score => Ok (hd 0%Z result # 100)
  | explained_variance_score => Ok (hd 0%Z result # 100)
  | accuracy_score => Ok (agreements y result # Pos.of_nat (length y))
  | roc_auc_score => Raise (Exn "ValueError" "continuous format is not supported")
  end.

Definition no_trials : exn := Exn "ValueError" "No trials are completed yet.".

Definition answer (c : call) : world -> outcome (ret c) * world :=
  match c as c0 return world -> outcome (ret c0) * world with
  | Copy_X X => fun w => (Ok X, w)
  | Copy_Y Y => fun w => (Ok Y, w)
  | Y_empty Y => fun w => (Ok (match Y with [] => true | _ => false end), w)
  | Columns _ => fun w => (Ok ["x"], w)
  | Dir_target_transform b => fun w =>
      (Ok (match fst b with Negate_target => true | _ => false end), w)
  | Block_fit b X Y => fun w =>
      match fst b with
      | Center =>
          (Ok b, mkWorld (<[snd b := hd 0%Z X]> (offsets w)) (next_stage w)
                   (studies w) (next_study w) (output w))
      | Clone_center =>
          (Ok (Center, next_stage w),
           mkWorld (<[next_stage w := hd 0%Z X]> (offsets w)) (S (next_stage w))
             (studies w) (next_study w) (output w))
      | Negate_target => (Ok b, w)
      end
  | Block_transform b X => fun w =>
      (Ok (map (fun x => (x - offset_of w (snd b))%Z) X), w)
  | Block_target_transform b Y => fun w =>
      match fst b with
      | Negate_target => (Ok (map Z.opp Y), w)
      | _ => (Raise (Exn "AttributeError" "object has no attribute 'target_transform'"), w)
      end
  | Est_fit est _ _ _ _ => fun w => (Ok est, w)
  | Est_predict est X => fun w => (Ok (map (fun _ => quality est) X), w)
  | Construct cls _ => fun w => (Ok cls, w)
  | Eval_name name => fun w => (resolve name, w)
  | Metric_call f y result => fun w => (apply_metric f y result, w)
  | ProgressBar _ => fun w => (Ok tt, w)
  | ProgressFitModel _ => fun w => (Ok tt, w)
  | Pbar_set_postfix _ _ _ => fun w => (Ok tt, w)
  | Pbar_update _ => fun w => (Ok tt, w)
  | Create_study => fun w =>
      (Ok (next_study w),
       mkWorld (offsets w) (next_stage w) (studies w) (S (next_study w)) (output w))
  | SklearnOptimizer _ _ _ _ _ _ model _ => fun w => (Ok model, w)
  | LGBMOptimizer _ _ _ _ _ _ model _ _ => fun w => (Ok model, w)
  | Study_optimize study objective _ => fun w =>
      match objective with
      | Broken => (Raise (Exn "ValueError" "Input contains NaN"), w)
      | _ =>
          (Ok tt, mkWorld (offsets w) (next_stage w)
                    (<[study := objective]> (studies w)) (next_study w) (output w))
      end
  | Best_params study => fun w =>
      match studies w !! study with
      | Some _ => (Ok ∅, w)
      | None => (Raise no_trials, w)
      end
  | Best_value study => fun w =>
      match studies w !! study with
      | Some m => (Ok (quality m # 100), w)
      | None => (Raise no_trials, w)
      end
  | Train_test_split X Y => fun w =>
      let n := length X in
      let n_test := (n + 9) / 10 in
      let n_train := n - n_test in
      if Nat.eqb n_train 0
      then (Raise (Exn "ValueError" "the resulting train set will be empty"), w)
      else (Ok (firstn n_train X, skipn n_train X, firstn n_train Y, skipn n_train Y), w)
  | Sleep _ => fun w => (Ok tt, w)
  | Print args => fun w =>
      (Ok tt, mkWorld (offsets w) (next_stage w) (studies w) (next_study w)
                (output w ++ args))
  | Now_strftime _ => fun w => (Ok "2021_06_01_m30", w)
  | Pickle_dump _ _ => fun w => (Ok tt, w)
  end.

Definition kind_name (k : stage_kind) : string :=
  match k with
  | Center => "Center"
  | Clone_center => "CloneCenter"
  | Negate_target => "NegateTarget"
  end.

Definition name_of_metric (f : metric) : outcome string :=
  match f with
  | r2_score => Ok "r2_score"
  | roc_auc_score => Ok "roc_auc_score"
  | accuracy_score => Ok "accuracy_score"
  | explained_variance_score => Ok "explained_variance_score"
  | partial_r2_score =>
      Raise (Exn "AttributeError"
               "'functools.partial' object has no attribute '__name__'")
  end.

Definition name_of_family (m : family) : string :=
  match m with
  | Ridge => "Ridge"
  | Broken => "Broken"
  | Forest => "RandomForestRegressor"
  | Tied => "Tied"
  | LGBMRegressor => "LGBMRegressor"
  end.

(** Decimal digits of a natural number, with [fuel] bounding their count. *)
Fixpoint digits (fuel n : nat) (acc : string) : string :=
  match fuel with
  | O => acc
  | S fuel' =>
      let acc' := String (ascii_of_nat (48 + n mod 10)) acc in
      if Nat.eqb (n / 10) 0 then acc' else digits fuel' (n / 10) acc'
  end.

Definition show_Z (z : Z) : string :=
  let n := Z.to_nat (Z.abs z) in
  (if Z.ltb z 0 then "-" else "") +:+ digits (S n) n "".

(** A rational, to two decimals (rounded down). *)
Definition show_Q (q : Q) : string :=
  let h := Z.to_nat (Z.abs (Qnum q) * 100 / Zpos (Qden q)) in
  (if Z.ltb (Qnum q) 0 then "-" else "")
  +:+ digits (S h) (h / 100) "" +:+ "."
  +:+ digits 1 (h / 10 mod 10) "" +:+ digits 1 (h mod 10) "".

(** The environment, for a given catalog of the generic-estimator track. *)
Definition runtime (catalog : list (family * unit)) : Runtime := {|
  W := world;
  handle := answer;
  pd_DataFrame := [];
  block_class_name := fun b => kind_name (fst b);
  est_class_name := name_of_family;
  est_repr := fun m => name_of_family m +:+ "()";
  metric_name := name_of_metric;
  family_name := name_of_family;
  format_value := show_Q;
  v_zero := 0%Q;
  v_gt := fun a b => negb (Qle_bool a b);
  pv_int := fun z => z;
  pv_bool := fun b => if b then 1%Z else 0%Z;
  pv_times_len := fun v n => Ok (v * Z.of_nat n)%Z;
  str_params := fun _ => "{}";
  sklearn_models := catalog;
  lightgbm_models := (LGBMRegressor, tt)
|}.

Definition w0 : world := mkWorld ∅ 100 ∅ 0 [].

(** A pipeline of two stages, and one whose only stage returns a new
    object from [fit]. *)
Definition pipeline : Conveyor := mkConveyor [(Center, 0); (Negate_target, 1)] (Some Ridge).
Definition clone_pipeline : Conveyor := mkConveyor [(Clone_center, 0)] None.

(** Ten rows of one feature, and their labels. *)
Definition X10 : list Z := [3; 5; 8; 1; 2; 13; 4; 15; 6; 7]%Z.
Definition Y10 : list Z := [1; 0; 1; 1; 0; 1; 0; 0; 1; 1]%Z.

(** [pipeline.fit_transform(X10, Y10)]. *)
Definition X10_ : list Z := [0; 2; 5; -2; -1; 10; 1; 12; 3; 4]%Z.
Definition Y10_ : list Z := [-1; 0; -1; -1; 0; -1; 0; 0; -1; -1]%Z.

(** The state of a stage object: its class and its stored value; and what
    the methods compute from it. *)
Definition state_of (w : world) (b : stage_kind * nat) : stage_kind * Z :=
  (fst b, offset_of w (snd b)).

Definition transform_of (s : stage_kind * Z) (X : list Z) : outcome (list Z) :=
  Ok (map (fun x => (x - snd s)%Z) X).

Definition target_transform_of (s : stage_kind * Z) (Y : list Z) : outcome (list Z) :=
  match fst s with
  | Negate_target => Ok (map Z.opp Y)
  | _ => Raise (Exn "AttributeError" "object has no attribute 'target_transform'")
  end.

Definition dir_of (s : stage_kind * Z) : bool :=
  match fst s with
  | Negate_target => true
  | _ => false
  end.

Definition empty_of (Y : list Z) : bool :=
  match Y with
  | [] => true
  | _ => false
  end.

End Demo.

(** ** Reading the record of a run *)

Section Records.
Context {PO : PyObjects}.

(** The calls of a record, without their answers. *)
Definition calls (t : list entry) : list call := map e_call t.

(** A stage's [fit]. *)
Definition is_stage_fit (c : call) : bool :=
  match c with
  | Block_fit _ _ _ => true
  | _ => false
  end.

(** A stage's [target_transform], or the [dir] that looks for it. *)
Definition is_target_call (c : call) : bool :=
  match c with
  | Block_target_transform _ _ => true
  | Dir_target_transform _ => true
  | _ => false
  end.

(** The calls that [transform] may make. *)
Definition transform_call (c : call) : bool :=
  match c with
  | Copy_X _ | Copy_Y _ | Y_empty _ | Dir_target_transform _
  | Block_transform _ _ | Block_target_transform _ _ => true
  | _ => false
  end.

(** The calls that [predict] may make. *)
Definition predict_call (c : call) : bool :=
  match c with
  | Est_predict _ _ => true
  | _ => transform_call c
  end.

(** The stage whose [transform] an entry calls. *)
Definition transformed (e : entry) : option BR :=
  match e_call e with
  | Block_transform b _ => Some b
  | _ => None
  end.

(** The stage whose [target_transform] an entry calls. *)
Definition target_transformed (e : entry) : option BR :=
  match e_call e with
  | Block_target_transform b _ => Some b
  | _ => None
  end.

(** The stage whose [fit] an entry calls. *)
Definition fitted (e : entry) : option BR :=
  match e_call e with
  | Block_fit b _ _ => Some b
  | _ => None
  end.

(** The stage that an entry finds to declare [target_transform]. *)
Definition declared (e : entry) : option BR :=
  match e with
  | Entry c a =>
      match c return outcome (ret c) -> option BR with
      | Dir_target_transform b =>
          fun a => match a with Ok true => Some b | _ => None end
      | _ => fun _ => None
      end a
  end.

(** An entry that asks [dir(block)]. *)
Definition asks_dir (e : entry) : bool :=
  match e_call e with
  | Dir_target_transform _ => true
  | _ => false
  end.

(** An entry in which [Y.empty] is [False]. *)
Definition finds_target (e : entry) : bool :=
  match e with
  | Entry c a =>
      match c return outcome (ret c) -> bool with
      | Y_empty _ => fun a => match a with Ok false => true | _ => false end
      | _ => fun _ => false
      end a
  end.

(** A call of a metric. *)
Definition is_rating (c : call) : bool :=
  match c with
  | Metric_call _ _ _ => true
  | _ => false
  end.

Definition not_rating (c : call) : bool := negb (is_rating c).

(** The metric, its two arguments and its answer, for an entry that calls a
    metric. *)
Definition rating (e : entry) : option (FR * YR * PR * outcome V) :=
  match e with
  | Entry c a =>
      match c return outcome (ret c) -> option (FR * YR * PR * outcome V) with
      | Metric_call f y result => fun a => Some (f, y, result, a)
      | _ => fun _ => None
      end a
  end.

Definition rating_metric (r : FR * YR * PR * outcome V) : FR := fst (fst (fst r)).
Definition rating_target (r : FR * YR * PR * outcome V) : YR := snd (fst (fst r)).
Definition rating_predictions (r : FR * YR * PR * outcome V) : PR := snd (fst r).

(** The model class that a call hands to an optimizer of the
    generic-estimator track, and the data that a call hands to an optimizer
    of either track. *)
Definition optimized (c : call) : option FAM :=
  match c with
  | SklearnOptimizer _ _ _ _ _ _ model _ => Some model
  | _ => None
  end.

Definition optimizer_data (c : call) : option (XR * YR * XR * YR) :=
  match c with
  | SklearnOptimizer X Y X_test Y_test _ _ _ _ => Some (X, Y, X_test, Y_test)
  | LGBMOptimizer X Y X_test Y_test _ _ _ _ _ => Some (X, Y, X_test, Y_test)
  | _ => None
  end.

(** An entry that reports progress: [pbar.update()]. *)
Definition reports_progress (e : entry) : bool :=
  match e_call e with
  | Pbar_update _ => true
  | _ => false
  end.

End Records.

(** ** Reading a score report *)

(** A string begins with [pat]. *)
Fixpoint starts_with (pat s : string) : bool :=
  match pat, s with
  | EmptyString, _ => true
  | String _ _, EmptyString => false
  | String a pat', String b s' => Ascii.eqb a b && starts_with pat' s'
  end.

(** [pat in s] *)
Fixpoint contains (pat s : string) : bool :=
  starts_with pat s ||
  match s with
  | EmptyString => false
  | String _ s' => contains pat s'
  end.

(** The character [c] occurs in [s]. *)
Fixpoint has_char (c : ascii) (s : string) : bool :=
  match s with
  | EmptyString => false
  | String a s' => Ascii.eqb a c || has_char c s'
  end.

(** [s] has no line break. *)
Definition single_line (s : string) : Prop := has_char (ascii_of_nat 10) s = false.

(** [s.splitlines()], for the line break "\n". *)
Fixpoint split_lines (s : string) : list string :=
  match s with
  | EmptyString => []
  | String c s' =>
      if Ascii.eqb c (ascii_of_nat 10) then EmptyString :: split_lines s'
      else match split_lines s' with
           | [] => [String c EmptyString]
           | l :: ls => String c l :: ls
           end
  end.

(** The lines of a returned string (none when the call raised). *)
Definition lines_of (r : outcome string) : list string :=
  match r with
  | Ok s => split_lines s
  | Raise _ => []
  end.

(** The lines of a report that say ERROR, and the others. *)
Definition error_lines (report : string) : list string :=
  List.filter (contains "ERROR") (split_lines report).

Definition value_lines (report : string) : list string :=
  List.filter (fun l => negb (contains "ERROR" l)) (split_lines report).

Section ReportLines.
Context {PO : PyObjects} {RT : Runtime}.

(** The line of a report for a metric called [name] whose call had the
    outcome [a]. *)
Definition report_line (name : string) (a : outcome V) : string :=
  match a with
  | Ok value => "function - " +:+ name +:+ " = " +:+ format_value value +:+ nl
  | Raise e => "function - " +:+ name +:+ " = ERROR: " +:+ exn_msg e +:+ nl
  end.

(** [func.__name__] can be read. *)
Definition has_name (f : FR) : Prop := exists name, metric_name f = Ok name.

(** The name of a function that has one. *)
Definition metric_label (f : FR) : string :=
  match metric_name f with
  | Ok name => name
  | Raise _ => EmptyString
  end.

(** The report for a list of metric calls (as [rating] reads them) of
    functions that have a name. *)
Fixpoint report_of (rs : list (FR * YR * PR * outcome V)) : string :=
  match rs with
  | [] => EmptyString
  | (f, _, _, a) :: rs' => report_line (metric_label f) a +:+ report_of rs'
  end.

(** The callable that an entry resolves a name to. *)
Definition resolved (e : entry) : option FR :=
  match e with
  | Entry c a =>
      match c return outcome (ret c) -> option FR with
      | Eval_name _ => fun a => match a with Ok f => Some f | Raise _ => None end
      | _ => fun _ => None
      end a
  end.

(** The metric calls [rs] were all made on [(Y_, result)]. *)
Definition rated_on (Y_ : YR) (result : PR) (rs : list (FR * YR * PR * outcome V)) : Prop :=
  Forall (fun r => rating_target r = Y_ /\ rating_predictions r = result) rs.

End ReportLines.

(** ** Tables as objects: who is handed what *)

Section Frames.
Context {PO : PyObjects}.

(** A table object: a feature table or a target. *)
Definition frame : Type := (XR + YR)%type.

(** The calls made by [fit_transform], [transform] and [predict]. *)
Definition chain_call (c : call) : bool :=
  match c with
  | Copy_X _ | Copy_Y _ | Y_empty _ | Dir_target_transform _
  | Block_fit _ _ _ | Block_transform _ _ | Block_target_transform _ _
  | Est_fit _ _ _ None _ | Est_predict _ _
  | ProgressBar _ | Pbar_set_postfix _ _ _ | Pbar_update _ => true
  | _ => false
  end.

(** The calls that only read the tables they are handed. *)
Definition read_only (c : call) : bool :=
  match c with
  | Copy_X _ | Copy_Y _ | Y_empty _ => true
  | _ => false
  end.

(** The table objects that a call of the chain hands over. *)
Definition frame_args (c : call) : list frame :=
  match c with
  | Copy_X X => [inl X]
  | Copy_Y Y => [inr Y]
  | Y_empty Y => [inr Y]
  | Block_fit _ X Y => [inl X; inr Y]
  | Block_transform _ X => [inl X]
  | Block_target_transform _ Y => [inr Y]
  | Est_fit _ X Y _ _ => [inl X; inr Y]
  | Est_predict _ X => [inl X]
  | _ => []
  end.

(** The table objects that a call of the chain gets back. *)
Definition frame_rets (c : call) : ret c -> list frame :=
  match c return ret c -> list frame with
  | Copy_X _ => fun X => [inl X]
  | Copy_Y _ => fun Y => [inr Y]
  | Block_transform _ _ => fun X => [inl X]
  | Block_target_transform _ _ => fun Y => [inr Y]
  | _ => fun _ => []
  end.

(** What [fit_transform] does between two reports of progress. *)
Inductive milestone : Type :=
| Stage_fitted (block : BR)
| Estimator_fitted (est : ER)
| Progress_reported.

Definition milestone_of (e : entry) : option milestone :=
  match e_call e with
  | Block_fit b _ _ => Some (Stage_fitted b)
  | Est_fit est _ _ _ _ => Some (Estimator_fitted est)
  | Pbar_update _ => Some Progress_reported
  | _ => None
  end.

(** The progress bar that an entry creates, with its total. *)
Definition progress_total (e : entry) : option nat :=
  match e_call e with
  | ProgressBar total => Some total
  | _ => None
  end.

(** The target that an entry copies. *)
Definition copied_target (e : entry) : option YR :=
  match e_call e with
  | Copy_Y Y => Some Y
  | _ => None
  end.

(** The calls of the loop of [transform] when no target is at hand. *)
Definition stage_features_call (c : call) : bool :=
  match c with
  | Y_empty _ | Block_transform _ _ => true
  | _ => false
  end.

(** The calls of [predict] when no target is at hand. *)
Definition features_call (c : call) : bool :=
  match c with
  | Copy_X _ | Copy_Y _ | Y_empty _ | Block_transform _ _ | Est_predict _ _ => true
  | _ => false
  end.

(** Every feature table handed over in the record is the table at hand:
    [X] at first, then the answer of the last [copy] or [transform]. *)
Fixpoint features_flow (X : XR) (t : list entry) : Prop :=
  match t with
  | [] => True
  | Entry c a :: t' =>
      match c return outcome (ret c) -> Prop with
      | Copy_X X0 => fun a =>
          X0 = X /\ match a with Ok X1 => features_flow X1 t' | Raise _ => True end
      | Block_transform _ X0 => fun a =>
          X0 = X /\ match a with Ok X1 => features_flow X1 t' | Raise _ => True end
      | Est_predict _ X0 => fun _ => X0 = X /\ features_flow X t'
      | _ => fun _ => features_flow X t'
      end a
  end.

(** The feature table at hand after the record [t], [X] being at hand
    before it. *)
Fixpoint at_hand (X : XR) (t : list entry) : XR :=
  match t with
  | [] => X
  | Entry c a :: t' =>
      match c return outcome (ret c) -> XR with
      | Copy_X _ => fun a =>
          match a with Ok X1 => at_hand X1 t' | Raise _ => at_hand X t' end
      | Block_transform _ _ => fun a =>
          match a with Ok X1 => at_hand X1 t' | Raise _ => at_hand X t' end
      | _ => fun _ => at_hand X t'
      end a
  end.

End Frames.

(** ** The protocol of the stage chain *)

Section Protocol.
Context {PO : PyObjects} {RT : Runtime}.

(** Where the loop of [transform] stands. *)
Inductive chain_phase : Type :=
| Next_stage                 (* the [transform] of the next stage is due *)
| Ask_empty (b : BR)         (* [b.transform] returned: [Y.empty] is due *)
| Ask_dir (b : BR)           (* [Y.empty] was [False]: [dir(b)] is due *)
| Apply_target (b : BR).     (* [dir(b)] has [target_transform]: it is due *)

(** [t] is the record of a pass over the stages [todo] that stands in
    [phase] with the tables [X] and [Y] at hand and ends with the outcome
    [r].  Stage by stage, in order: the stage's [transform] is called on the
    features at hand, and what it returns is at hand from then on;
    [Y.empty] is asked of the target at hand; if it is not empty, [dir] is
    asked of the stage; if [dir] finds [target_transform], it is called on
    the stage with the target at hand, and what it returns is at hand from
    then on.  No other call is made; a call that raises is the last one, and
    what it raises is the outcome; otherwise the outcome is the tables at
    hand after the last stage. *)
Fixpoint chain_protocol (todo : list BR) (phase : chain_phase) (X : XR) (Y : YR)
    (r : outcome (XR * YR)) (t : list entry) : Prop :=
  match t with
  | [] => todo = [] /\ phase = Next_stage /\ r = Ok (X, Y)
  | Entry c a :: t' =>
      match c return outcome (ret c) -> Prop with
      | Block_transform b X0 => fun a =>
          match phase, todo with
          | Next_stage, b0 :: todo' =>
              b = b0 /\ X0 = X /\
              match a with
              | Ok X1 => chain_protocol todo' (Ask_empty b) X1 Y r t'
              | Raise e => t' = [] /\ r = Raise e
              end
          | _, _ => False
          end
      | Y_empty Y0 => fun a =>
          match phase with
          | Ask_empty b =>
              Y0 = Y /\
              match a with
              | Ok true => chain_protocol todo Next_stage X Y r t'
              | Ok false => chain_protocol todo (Ask_dir b) X Y r t'
              | Raise e => t' = [] /\ r = Raise e
              end
          | _ => False
          end
      | Dir_target_transform b' => fun a =>
          match phase with
          | Ask_dir b =>
              b' = b /\
              match a with
              | Ok true => chain_protocol todo (Apply_target b) X Y r t'
              | Ok false => chain_protocol todo Next_stage X Y r t'
              | Raise e => t' = [] /\ r = Raise e
              end
          | _ => False
          end
      | Block_target_transform b' Y0 => fun a =>
          match phase with
          | Apply_target b =>
              b' = b /\ Y0 = Y /\
              match a with
              | Ok Y1 => chain_protocol todo Next_stage X Y1 r t'
              | Raise e => t' = [] /\ r = Raise e
              end
          | _ => False
          end
      | _ => fun _ => False
      end a
  end.

(** [t] is the record of a [transform(X, Y)] over the stages [bs] that ends
    with the outcome [r]: [X.copy()], then [Y.copy()], then a pass over the
    stages with the two copies at hand. *)
Definition transform_protocol (bs : list BR) (X : XR) (Y : YR)
    (r : outcome (XR * YR)) (t : list entry) : Prop :=
  match t with
  | [] => False
  | Entry c a :: t1 =>
      match c return outcome (ret c) -> Prop with
      | Copy_X X0 => fun a =>
          X0 = X /\
          match a with
          | Raise e => t1 = [] /\ r = Raise e
          | Ok X_ =>
              match t1 with
              | [] => False
              | Entry c2 a2 :: t2 =>
                  match c2 return outcome (ret c2) -> Prop with
                  | Copy_Y Y0 => fun a2 =>
                      Y0 = Y /\
                      match a2 with
                      | Raise e => t2 = [] /\ r = Raise e
                      | Ok Y_ => chain_protocol bs Next_stage X_ Y_ r t2
                      end
                  | _ => fun _ => False
                  end a2
              end
          end
      | _ => fun _ => False
      end a
  end.

(** [t] is the record of a [predict(X)] on a Conveyor with the estimator
    [est] that ends with the outcome [r]: [X.copy()], then a [transform] of
    the copy with the default target, then the estimator's [predict] on the
    features that [transform] returned. *)
Definition predict_protocol (bs : list BR) (est : ER) (X : XR)
    (r : outcome PR) (t : list entry) : Prop :=
  match t with
  | [] => False
  | Entry c a :: t1 =>
      match c return outcome (ret c) -> Prop with
      | Copy_X X0 => fun a =>
          X0 = X /\
          match a with
          | Raise e => t1 = [] /\ r = Raise e
          | Ok X1 =>
              exists t2 r2 rest,
                t1 = t2 ++ rest /\
                transform_protocol bs X1 pd_DataFrame r2 t2 /\
                match r2 with
                | Raise e => rest = [] /\ r = Raise e
                | Ok (X_, _) => rest = [Entry (Est_predict est X_) r]
                end
          end
      | _ => fun _ => False
      end a
  end.

End Protocol.

(** ** Tables as objects: what the environment is assumed to respect *)

Section TableStore.
Context {PO : PyObjects} {RT : Runtime}.

(** The content of the table objects that exist in a state ([None] for an
    object that does not exist), and whether a content is empty. *)
Context {C : Type} (cell : W -> frame -> option C) (is_empty : C -> bool).

(** A call of the chain changes no existing table other than those it is
    handed: the stages and the estimator keep no reference to a table
    beyond the call. *)
Definition footprint_respected : Prop :=
  forall c w l,
    chain_call c = true -> cell w l <> None -> ~ In l (frame_args c) ->
    cell (snd (handle c w)) l = cell w l.

(** [copy] and [Y.empty] change no existing table. *)
Definition reads_respected : Prop :=
  forall c w l,
    read_only c = true -> cell w l <> None ->
    cell (snd (handle c w)) l = cell w l.

(** The table a call gives back is one it was handed or a new one; [copy]
    gives back a new one. *)
Definition returns_respected : Prop :=
  forall c w r l,
    chain_call c = true -> fst (handle c w) = Ok r -> In l (frame_rets c r) ->
    (read_only c = false /\ In l (frame_args c)) \/ cell w l = None.

(** The copy of a target has the content of the target. *)
Definition copy_respected : Prop :=
  forall Y w Y',
    fst (handle (Copy_Y Y) w) = Ok Y' ->
    cell (snd (handle (Copy_Y Y) w)) (inr Y') = cell w (inr Y).

(** [Y.empty] tells whether the content of [Y] is empty. *)
Definition empty_respected : Prop :=
  forall Y w c0,
    cell w (inr Y) = Some c0 -> fst (handle (Y_empty Y) w) = Ok (is_empty c0).

(** The target [Y] exists and is empty. *)
Definition empty_at (w : W) (Y : YR) : Prop :=
  exists c0, cell w (inr Y) = Some c0 /\ is_empty c0 = true.

End TableStore.

(** ** Tables as values: what the stages are assumed to respect *)

Section StageStates.
Context {PO : PyObjects} {RT : Runtime}.

(** The state of a stage object, and what its methods compute from it. *)
Context {S : Type} (state_of : W -> BR -> S).
Context (transform_of : S -> XR -> outcome XR).
Context (target_transform_of : S -> YR -> outcome YR).
Context (dir_of : S -> bool).
Context (empty_of : YR -> bool).

(** Tables are values: a copy is the table, and nothing changes. *)
Definition tables_are_values : Prop :=
  (forall X w, handle (Copy_X X) w = (Ok X, w)) /\
  (forall Y w, handle (Copy_Y Y) w = (Ok Y, w)) /\
  (forall Y w, handle (Y_empty Y) w = (Ok (empty_of Y), w)).

(** [transform], [target_transform] and the declaration of the latter are
    functions of the state of the stage, and change nothing. *)
Definition pure_stage (b : BR) : Prop :=
  (forall X w, handle (Block_transform b X) w = (transform_of (state_of w b) X, w)) /\
  (forall Y w,
     handle (Block_target_transform b Y) w = (target_transform_of (state_of w b) Y, w)) /\
  (forall w, handle (Dir_target_transform b) w = (Ok (dir_of (state_of w b)), w)).

(** [fit] returns the stage itself and changes the state of no other stage
    of [bs]. *)
Definition fits_in_place (bs : list BR) (b : BR) : Prop :=
  forall X Y w b' w',
    handle (Block_fit b X Y) w = (Ok b', w') ->
    b' = b /\ forall b0, In b0 bs -> b0 <> b -> state_of w' b0 = state_of w b0.

(** The progress bar and the estimator. *)
Definition progress_or_estimator (c : call) : bool :=
  match c with
  | ProgressBar _ | Pbar_set_postfix _ _ _ | Pbar_update _ | Est_fit _ _ _ _ _ => true
  | _ => false
  end.

(** The progress bar and the estimator change the state of no stage of
    [bs]. *)
Definition bystanders (bs : list BR) : Prop :=
  forall c w b,
    progress_or_estimator c = true -> In b bs ->
    state_of (snd (handle c w)) b = state_of w b.

End StageStates.

(** ** A concrete environment with tables as objects

    Tables and targets are objects of a store, named by their index; the
    stages change the tables they are handed in place. *)

Module Shelf.

#[export] Instance objects : PyObjects := {|
  XR := nat;
  YR := nat;
  BR := nat;
  ER := unit;
  PR := list Z;
  FR := unit;
  V := unit;
  PB := unit;
  ST := unit;
  OB := unit;
  FAM := unit;
  SP := unit;
  PV := unit
|}.

Record store : Type := mkStore {
  features : list (list Z);   (* the feature tables, by index *)
  targets : list (list Z)     (* the targets, by index *)
}.

Definition no_such_object : exn := Exn "ReferenceError" "no such object".
Definition not_modelled : exn := Exn "NotImplementedError" "".

(** Stage [b] adds [b] to every feature in place and returns the table it
    was handed; it negates targets in place, and declares [target_transform]
    when [b] is even.  The estimator predicts the features. *)
Definition answer (c : call) : store -> outcome (ret c) * store :=
  match c as c0 return store -> outcome (ret c0) * store with
  | Copy_X X => fun w =>
      match features w !! X with
      | Some content =>
          (Ok (length (features w)), mkStore (features w ++ [content]) (targets w))
      | None => (Raise no_such_object, w)
      end
  | Copy_Y Y => fun w =>
      match targets w !! Y with
      | Some content =>
          (Ok (length (targets w)), mkStore (features w) (targets w ++ [content]))
      | None => (Raise no_such_object, w)
      end
  | Y_empty Y => fun w =>
      match targets w !! Y with
      | Some content => (Ok (match content with [] => true | _ => false end), w)
      | None => (Raise no_such_object, w)
      end
  | Dir_target_transform b => fun w => (Ok (Nat.even b), w)
  | Block_fit b _ _ => fun w => (Ok b, w)
  | Block_transform b X => fun w =>
      match features w !! X with
      | Some content =>
          (Ok X, mkStore (<[X := map (Z.add (Z.of_nat b)) content]> (features w))
                   (targets w))
      | None => (Raise no_such_object, w)
      end
  | Block_target_transform b Y => fun w =>
      match targets w !! Y with
      | Some content =>
          (Ok Y, mkStore (features w) (<[Y := map Z.opp content]> (targets w)))
      | None => (Raise no_such_object, w)
      end
  | Est_fit est _ _ _ _ => fun w => (Ok est, w)
  | Est_predict _ X => fun w =>
      match features w !! X with
      | Some content => (Ok content, w)
      | None => (Raise no_such_object, w)
      end
  | ProgressBar _ => fun w => (Ok tt, w)
  | Pbar_set_postfix _ _ _ => fun w => (Ok tt, w)
  | Pbar_update _ => fun w => (Ok tt, w)
  | _ => fun w => (Raise not_modelled, w)
  end.

#[export] Instance runtime : Runtime := {|
  W := store;
  handle := answer;
  pd_DataFrame := 0;
  block_class_name := fun _ => "Shift";
  est_class_name := fun _ => "Echo";
  est_repr := fun _ => "Echo()";
  metric_name := fun _ => Ok "metric";
  family_name := fun _ => "Echo";
  format_value := fun _ => "None";
  v_zero := tt;
  v_gt := fun _ _ => false;
  pv_int := fun _ => tt;
  pv_bool := fun _ => tt;
  pv_times_len := fun _ _ => Ok tt;
  str_params := fun _ => "{}";
  sklearn_models := [];
  lightgbm_models := (tt, tt)
|}.

(** The content of a table object. *)
Definition cell (w : store) (l : frame) : option (list Z) :=
  match l with
  | inl X => features w !! X
  | inr Y => targets w !! Y
  end.

Definition is_empty (content : list Z) : bool :=
  match content with
  | [] => true
  | _ => false
  end.

(** The caller's feature table is object 0; target 0 is the empty default
    of [transform] and target 1 the caller's target. *)
Definition w0 : store := mkStore [[3; 5; 8]%Z] [[]; [1; 0; 1]%Z].

Definition pipeline : Conveyor := mkConveyor [1; 2] (Some tt).

End Shelf.

(** ** The printed form of a Conveyor: [__repr__] *)

Section Printed.
Context {PO : PyObjects}.

(** [self.__class__.__name__], [repr(block)] and [repr(estimator)]. *)
Variable class_name : string.
Variable repr_block : BR -> string.
Variable repr_est : ER -> string.

(** [repr(self.estimator)] *)
Definition repr_estimator (self : Conveyor) : string :=
  match estimator self with
  | None => "None"
  | Some est => repr_est est
  end.

(** The loop of [__repr__], lines 42-43. *)
Fixpoint __repr__loop (indent : string) (bs : list BR) (_repr : string) : string :=
  match bs with
  | [] => _repr
  | block :: bs' =>
      __repr__loop indent bs' (_repr +:+ indent +:+ repr_block block +:+ ", " +:+ nl)
  end.

(** [__repr__(self)], lines 39-45. *)
Definition __repr__ (self : Conveyor) : string :=
  let _repr := class_name +:+ "= (" +:+ nl in
  let indent := str_repeat " " (len _repr - 1) in
  let _repr := __repr__loop indent (blocks self) _repr in
  _repr +:+ indent +:+ "estimator = " +:+ repr_estimator self +:+ nl +:+ indent +:+ " )".

End Printed.

(** ** Reading the record of a run: outcomes and hand-overs *)

Section Outcomes.
Context {PO : PyObjects}.

(** An entry whose call returned. *)
Definition answered (e : entry) : bool :=
  match e_ans e with
  | Ok _ => true
  | Raise _ => false
  end.

(** A run without a handler: every call of the record returned, but for the
    last one when the run raised, and the run raised what that call
    raised. *)
Definition ends_at_failure {A S} (r : outcome A * S * list entry) : Prop :=
  match result_of r with
  | Ok _ => Forall (fun e => answered e = true) (trace_of r)
  | Raise e =>
      exists t0 c,
        trace_of r = t0 ++ [Entry c (Raise e)] /\
        Forall (fun e => answered e = true) t0
  end.

(** The estimator that an entry fits, with all it is handed. *)
Definition trained (e : entry)
    : option (ER * XR * YR * option (XR * YR) * option params_columns) :=
  match e_call e with
  | Est_fit est X Y eval_set kw => Some (est, X, Y, eval_set, kw)
  | _ => None
  end.

(** The estimator that an entry asks to predict, and on what. *)
Definition predicted (e : entry) : option (ER * XR) :=
  match e_call e with
  | Est_predict est X => Some (est, X)
  | _ => None
  end.

(** The model class that an entry instantiates. *)
Definition constructed (e : entry) : option FAM :=
  match e_call e with
  | Construct cls _ => Some cls
  | _ => None
  end.

(** The name that an entry hands to [eval]. *)
Definition evaluated (e : entry) : option string :=
  match e_call e with
  | Eval_name name => Some name
  | _ => None
  end.

(** What an entry prints. *)
Definition printed (e : entry) : option (list string) :=
  match e_call e with
  | Print args => Some args
  | _ => None
  end.

(** The file that an entry writes, and the Conveyor it pickles into it. *)
Definition pickled (e : entry) : option (string * Conveyor) :=
  match e_call e with
  | Pickle_dump file self => Some (file, self)
  | _ => None
  end.

(** The seconds that an entry sleeps. *)
Definition slept (e : entry) : option Z :=
  match e_call e with
  | Sleep seconds => Some seconds
  | _ => None
  end.

(** The time stamp that an entry reads. *)
Definition stamped (e : entry) : option string :=
  match e with
  | Entry c a =>
      match c return outcome (ret c) -> option string with
      | Now_strftime _ => fun a => match a with Ok s => Some s | Raise _ => None end
      | _ => fun _ => None
      end a
  end.

(** The [params_columns] that a call hands over. *)
Definition handed_columns (c : call) : option params_columns :=
  match c with
  | LGBMOptimizer _ _ _ _ _ _ _ _ kw => Some kw
  | Est_fit _ _ _ _ (Some kw) => Some kw
  | _ => None
  end.

(** The keyword arguments that a call hands to [study.optimize]. *)
Definition optimize_kw (c : call) : option (gmap string PV) :=
  match c with
  | Study_optimize _ _ kw => Some kw
  | _ => None
  end.

(** The total of the progress bar of a search that a call creates. *)
Definition bar_total (c : call) : option PV :=
  match c with
  | ProgressFitModel total => Some total
  | _ => None
  end.

(** The best value that an entry reads from a study. *)
Definition value_read (e : entry) : option V :=
  match e with
  | Entry c a =>
      match c return outcome (ret c) -> option V with
      | Best_value _ => fun a => match a with Ok v => Some v | Raise _ => None end
      | _ => fun _ => None
      end a
  end.

(** The calls of the search of [fit_sklearn_model]: optuna and the progress
    bar. *)
Definition optuna_call (c : call) : bool :=
  match c with
  | ProgressFitModel _ | Pbar_set_postfix _ _ _ | Create_study
  | SklearnOptimizer _ _ _ _ _ _ _ _ | Study_optimize _ _ _
  | Best_params _ | Best_value _ => true
  | _ => false
  end.

(** The calls of the tree-ensemble track. *)
Definition lgbm_call (c : call) : bool :=
  match c with
  | Columns _ | ProgressFitModel _ | Pbar_set_postfix _ _ _ | Create_study
  | LGBMOptimizer _ _ _ _ _ _ _ _ _ | Study_optimize _ _ _
  | Best_params _ | Best_value _ | Construct _ _ | Est_fit _ _ _ _ _
  | Est_predict _ _ | Print _ => true
  | _ => false
  end.

(** The calls that print nothing. *)
Definition silent_call (c : call) : bool :=
  match c with
  | Print _ => false
  | _ => true
  end.

(** The calls that neither sleep, nor read the clock, nor write a file. *)
Definition search_call (c : call) : bool :=
  match c with
  | Sleep _ | Now_strftime _ | Pickle_dump _ _ => false
  | _ => true
  end.

(** The tables and the fitted stage at hand in [fit_transform]: every call
    of the record is handed the tables at hand ([X] and [Y] at first, then
    the answer of the last [copy], [transform] or [target_transform]), and
    every method called on a stage is called on the object that the last
    [fit] returned. *)
Fixpoint coupled (X : XR) (Y : YR) (stage : option BR) (t : list entry) : Prop :=
  match t with
  | [] => True
  | Entry c a :: t' =>
      match c return outcome (ret c) -> Prop with
      | Copy_X X0 => fun a =>
          X0 = X /\ match a with Ok X1 => coupled X1 Y stage t' | Raise _ => True end
      | Copy_Y Y0 => fun a =>
          Y0 = Y /\ match a with Ok Y1 => coupled X Y1 stage t' | Raise _ => True end
      | Y_empty Y0 => fun _ => Y0 = Y /\ coupled X Y stage t'
      | Block_fit _ X0 Y0 => fun a =>
          X0 = X /\ Y0 = Y /\
          match a with Ok fitted => coupled X Y (Some fitted) t' | Raise _ => True end
      | Dir_target_transform b => fun _ => Some b = stage /\ coupled X Y stage t'
      | Block_transform b X0 => fun a =>
          Some b = stage /\ X0 = X /\
          match a with Ok X1 => coupled X1 Y stage t' | Raise _ => True end
      | Block_target_transform b Y0 => fun a =>
          Some b = stage /\ Y0 = Y /\
          match a with Ok Y1 => coupled X Y1 stage t' | Raise _ => True end
      | Est_fit _ X0 Y0 _ _ => fun _ => X0 = X /\ Y0 = Y /\ coupled X Y stage t'
      | _ => fun _ => coupled X Y stage t'
      end a
  end.

(** The tables and the fitted stage at hand after the record [t]. *)
Fixpoint hand_after (X : XR) (Y : YR) (stage : option BR) (t : list entry)
    : XR * YR * option BR :=
  match t with
  | [] => (X, Y, stage)
  | Entry c a :: t' =>
      match c return outcome (ret c) -> XR * YR * option BR with
      | Copy_X _ => fun a =>
          match a with Ok X1 => hand_after X1 Y stage t' | Raise _ => hand_after X Y stage t' end
      | Copy_Y _ => fun a =>
          match a with Ok Y1 => hand_after X Y1 stage t' | Raise _ => hand_after X Y stage t' end
      | Block_fit _ _ _ => fun a =>
          match a with
          | Ok fitted => hand_after X Y (Some fitted) t'
          | Raise _ => hand_after X Y stage t'
          end
      | Block_transform _ _ => fun a =>
          match a with Ok X1 => hand_after X1 Y stage t' | Raise _ => hand_after X Y stage t' end
      | Block_target_transform _ _ => fun a =>
          match a with Ok Y1 => hand_after X Y1 stage t' | Raise _ => hand_after X Y stage t' end
      | _ => fun _ => hand_after X Y stage t'
      end a
  end.

End Outcomes.

(** ** What the caller's parameters and the defaults make *)

Section Merged.
Context {PO : PyObjects} {RT : Runtime}.

(** [kw] has the caller's value for the caller's keys and the default for
    the others. *)
Definition caller_wins (params kw : gmap string PV) : Prop :=
  forall key,
    kw !! key = match params !! key with
                | Some v => Some v
                | None => default_params !! key
                end.

(** The caller's [n_trials], or the default. *)
Definition merged_n_trials (params : gmap string PV) : PV :=
  match params !! "n_trials" with
  | Some v => v
  | None => pv_int 100
  end.

End Merged.

(** ** What the search may assume of the best values *)

Section BestValues.
Context {PO : PyObjects} {RT : Runtime}.

(** [>] on the best values is a strict weak order. *)
Definition gt_asymmetric : Prop :=
  forall a b : V, v_gt a b = true -> v_gt b a = false.

Definition gt_negatively_transitive : Prop :=
  forall a b c : V, v_gt a c = true -> v_gt a b = true \/ v_gt b c = true.

(** Reading [study.best_value] again, with nothing in between, gives the
    same value. *)
Definition best_value_stable : Prop :=
  forall study w v w1 v' w2,
    handle (Best_value study) w = (Ok v, w1) ->
    handle (Best_value study) w1 = (Ok v', w2) ->
    v' = v.

End BestValues.

(** ** A concrete environment in which no model is better than the mean

    The environment of [Demo], but for the best value of a study, which is
    the negative of the quality of the class it optimized. *)

Module Sour.

Definition answer (c : call) : Demo.world -> outcome (ret c) * Demo.world :=
  match c as c0 return Demo.world -> outcome (ret c0) * Demo.world with
  | Best_value study => fun w =>
      match Demo.studies w !! study with
      | Some m => (Ok (- Demo.quality m # 100), w)
      | None => (Raise Demo.no_trials, w)
      end
  | c0 => Demo.answer c0
  end.

Definition runtime (catalog : list (Demo.family * unit)) : Runtime := {|
  W := Demo.world;
  handle := answer;
  pd_DataFrame := [];
  block_class_name := fun b => Demo.kind_name (fst b);
  est_class_name := Demo.name_of_family;
  est_repr := fun m => Demo.name_of_family m +:+ "()";
  metric_name := Demo.name_of_metric;
  family_name := Demo.name_of_family;
  format_value := Demo.show_Q;
  v_zero := 0%Q;
  v_gt := fun a b => negb (Qle_bool a b);
  pv_int := fun z => z;
  pv_bool := fun b => if b then 1%Z else 0%Z;
  pv_times_len := fun v n => Ok (v * Z.of_nat n)%Z;
  str_params := fun _ => "{}";
  sklearn_models := catalog;
  lightgbm_models := (Demo.LGBMRegressor, tt)
|}.

End Sour.

(** * Properties *)

(** ** The monad *)

Section MonadFacts.
Context {PO : PyObjects} {RT : Runtime}.

Lemma bind_Ok {A B} (m : M A) (k : A -> M B) w a w1 t1 :
  m w = (Ok a, w1, t1) ->
  bind m k w = (result_of (k a w1), world_of (k a w1), t1 ++ trace_of (k a w1)).
Proof.
  intros H. unfold bind. rewrite H.
  destruct (k a w1) as [[r w2] t2]. reflexivity.
Qed.

Lemma bind_Raise {A B} (m : M A) (k : A -> M B) w e w1 t1 :
  m w = (Raise e, w1, t1) -> bind m k w = (Raise e, w1, t1).
Proof. intros H. unfold bind. rewrite H. reflexivity. Qed.

Lemma bind_inv {A B} (m : M A) (k : A -> M B) w r w' t :
  bind m k w = (r, w', t) ->
  (exists a w1 t1 t2,
      m w = (Ok a, w1, t1) /\ k a w1 = (r, w', t2) /\ t = t1 ++ t2) \/
  (exists e, m w = (Raise e, w', t) /\ r = Raise e).
Proof.
  unfold bind. destruct (m w) as [[[a | e] w1] t1].
  - destruct (k a w1) as [[r2 w2] t2] eqn:Hk. intros [= <- <- <-].
    left. exists a, w1, t1, t2. auto.
  - intros [= <- <- <-]. right. exists e. auto.
Qed.

Lemma bind_inv_Ok {A B} (m : M A) (k : A -> M B) w b w' t :
  bind m k w = (Ok b, w', t) ->
  exists a w1 t1 t2,
    m w = (Ok a, w1, t1) /\ k a w1 = (Ok b, w', t2) /\ t = t1 ++ t2.
Proof.
  intros H. apply bind_inv in H as [H | (e & _ & He)]; [exact H | discriminate He].
Qed.

Lemma do_inv c w r w' t :
  do c w = (r, w', t) -> handle c w = (r, w') /\ t = [Entry c r].
Proof.
  unfold do. destruct (handle c w) as [r1 w1]. intros [= <- <- <-]. auto.
Qed.

Lemma bind_do_Ok {B} c (k : ret c -> M B) w a :
  fst (handle c w) = Ok a ->
  bind (do c) k w
  = (result_of (k a (snd (handle c w))), world_of (k a (snd (handle c w))),
     Entry c (Ok a) :: trace_of (k a (snd (handle c w)))).
Proof.
  intros H. unfold bind, do. destruct (handle c w) as [r w1]. cbn in *. subst r.
  destruct (k a w1) as [[r2 w2] t2]. reflexivity.
Qed.

Lemma bind_do_Raise {B} c (k : ret c -> M B) w e :
  fst (handle c w) = Raise e ->
  bind (do c) k w = (Raise e, snd (handle c w), [Entry c (Raise e)]).
Proof.
  intros H. unfold bind, do. destruct (handle c w) as [r w1]. cbn in *. subst r.
  reflexivity.
Qed.

Lemma ret_inv {A} (a : A) w r w' t :
  ret_ a w = (r, w', t) -> r = Ok a /\ w' = w /\ t = [].
Proof. unfold ret_. intros [= <- <- <-]. auto. Qed.

Lemma run_eta {A} (m : M A) w :
  m w = (result_of (m w), world_of (m w), trace_of (m w)).
Proof. destruct (m w) as [[r w1] t1]. reflexivity. Qed.

(** Every call of [m], in every state, satisfies [P]. *)
Definition only (P : call -> bool) {A} (m : M A) : Prop :=
  forall w, Forall (fun e => P (e_call e) = true) (trace_of (m w)).

Lemma only_ret P {A} (a : A) : only P (ret_ a).
Proof. intros w. constructor. Qed.

Lemma only_raise P {A} e : only P (@raise _ _ A e).
Proof. intros w. constructor. Qed.

Lemma only_do P c : P c = true -> only P (do c).
Proof.
  intros H w. unfold do. destruct (handle c w) as [r w1]. cbn.
  constructor; [exact H | constructor].
Qed.

Lemma only_bind P {A B} (m : M A) (k : A -> M B) :
  only P m -> (forall a, only P (k a)) -> only P (bind m k).
Proof.
  intros Hm Hk w. unfold bind. specialize (Hm w).
  destruct (m w) as [[[a | e] w1] t1]; cbn in *.
  - specialize (Hk a w1). destruct (k a w1) as [[r w2] t2]. cbn in *.
    apply Forall_app; split; assumption.
  - assumption.
Qed.

Lemma only_try P {A} (m : M A) (h : exn -> M A) :
  only P m -> (forall e, only P (h e)) -> only P (try_except m h).
Proof.
  intros Hm Hh w. unfold try_except. specialize (Hm w).
  destruct (m w) as [[[a | e] w1] t1]; cbn in *.
  - assumption.
  - specialize (Hh e w1). destruct (h e w1) as [[r w2] t2]. cbn in *.
    apply Forall_app; split; assumption.
Qed.

Lemma only_reify P {A} (m : M A) : only P m -> only P (reify m).
Proof.
  intros Hm w. unfold reify. specialize (Hm w).
  destruct (m w) as [[r w1] t1]. exact Hm.
Qed.

Lemma only_lift P {A} (r : outcome A) : only P (lift r).
Proof. destruct r; [apply only_ret | apply only_raise]. Qed.

Lemma reify_inv {A} (m : M A) w r w' t :
  reify m w = (r, w', t) -> exists r0, r = Ok r0 /\ m w = (r0, w', t).
Proof.
  unfold reify. destruct (m w) as [[r0 w1] t1]. intros [= <- <- <-].
  exists r0. auto.
Qed.

End MonadFacts.

Ltac only_calls :=
  repeat match goal with
  | |- only _ (bind _ _) => apply only_bind; [| intros]
  | |- only _ (try_except _ _) => apply only_try; [| intros]
  | |- only ?P (do ?c) => apply (only_do P c); reflexivity
  | |- only _ (reify _) => apply only_reify
  | |- only _ (lift _) => apply only_lift
  | |- only _ (ret_ _) => apply only_ret
  | |- only _ (raise _) => apply only_raise
  | |- only _ (if ?b then _ else _) => destruct b
  | |- only _ (let '(_, _) := ?p in _) => destruct p
  | |- only _ (match ?o with Some _ => _ | None => _ end) => destruct o
  | |- only _ (match ?o with Ok _ => _ | Raise _ => _ end) => destruct o
  end.

(** Take one call of the run in the goal: the two cases of its answer. *)
Ltac answer_call :=
  match goal with
  | |- context [handle ?c ?w] =>
      let a := fresh "a" in
      let e := fresh "e" in
      let w1 := fresh "w" in
      destruct (handle c w) as [[a | e] w1]; cbn
  end.

(** ** The stage chain: [transform], [fit_transform], [predict] *)

Section Chain.
Context {PO : PyObjects} {RT : Runtime}.

Lemma _transform_only self b X Y : only transform_call (_transform self b X Y).
Proof. unfold _transform. only_calls. Qed.

Lemma transform_loop_only self bs :
  forall X Y, only transform_call (transform_loop self bs X Y).
Proof.
  induction bs as [| b bs IH]; intros X Y; cbn [transform_loop].
  - apply only_ret.
  - apply only_bind; [apply _transform_only |].
    intros [X1 Y1]. apply IH.
Qed.

Lemma transform_only self X Y : only transform_call (transform self X Y).
Proof.
  unfold transform. only_calls. apply transform_loop_only.
Qed.

Lemma predict_only self X : only predict_call (predict self X).
Proof.
  unfold predict. destruct (estimator self) as [est |]; [| apply only_raise].
  apply only_bind; [only_calls |]. intros X0.
  apply only_bind.
  - intros w. eapply List.Forall_impl; [| apply transform_only].
    cbn. intros e He. unfold predict_call. rewrite He.
    destruct (e_call e); reflexivity.
  - intros [X_ Y_]. only_calls.
Qed.

(** What one stage contributes to the record of [transform]: a call of its
    [transform]; a call of its [target_transform] exactly when [dir] finds
    it; and a [dir] exactly when the target is found not empty. *)
Lemma _transform_record self b X Y w :
  let t := trace_of (_transform self b X Y w) in
  omap transformed t = [b] /\
  omap target_transformed t = omap declared t /\
  length (List.filter asks_dir t) = length (List.filter finds_target t).
Proof.
  unfold _transform, bind, do, ret_.
  answer_call; [| repeat split].
  answer_call; [| repeat split].
  destruct a0; cbn; [repeat split |].
  answer_call; [| repeat split].
  destruct a0; cbn; [| repeat split].
  answer_call; repeat split.
Qed.

Lemma transform_loop_record self bs :
  forall X Y w,
    let r := transform_loop self bs X Y w in
    omap transformed (trace_of r) `prefix_of` bs /\
    (forall xy, result_of r = Ok xy -> omap transformed (trace_of r) = bs) /\
    omap target_transformed (trace_of r) = omap declared (trace_of r) /\
    length (List.filter asks_dir (trace_of r))
      = length (List.filter finds_target (trace_of r)).
Proof.
  induction bs as [| b bs IH]; intros X Y w; cbn [transform_loop].
  - cbn. repeat split; try reflexivity.
  - pose proof (_transform_record self b X Y w) as (Hb & Htt & Hdir).
    unfold bind.
    destruct (_transform self b X Y w) as [[[[X1 Y1] | e] w1] t1]; cbn in *.
    + specialize (IH X1 Y1 w1).
      destruct (transform_loop self bs X1 Y1 w1) as [[r w2] t2]; cbn in *.
      destruct IH as (IH1 & IH2 & IH3 & IH4).
      rewrite !omap_app, !List.filter_app, !length_app, Hb, Htt, Hdir, IH3, IH4.
      repeat split.
      * cbn. apply prefix_cons. exact IH1.
      * intros xy Hr. cbn. f_equal. eapply IH2. exact Hr.
    + rewrite Hb. repeat split; try assumption.
      * exists bs. reflexivity.
      * intros xy Hxy. discriminate Hxy.
Qed.

(** [transform] calls no stage's [fit]. *)
Lemma transform_calls_not_fitted t :
  Forall (fun e => transform_call (e_call e) = true) t -> omap fitted t = [].
Proof.
  induction 1 as [| e t He _ IHt]; [reflexivity |].
  cbn. unfold fitted at 1. destruct (e_call e); try discriminate He; exact IHt.
Qed.

(** The stages whose [fit] is called by [fit_transform], in order. *)
Lemma fit_transform_loop_order self pbar bs :
  forall X Y w xy w' t,
    fit_transform_loop self pbar bs X Y w = (Ok xy, w', t) ->
    omap fitted t = bs.
Proof.
  induction bs as [| b bs IH]; intros X Y w xy w' t; cbn [fit_transform_loop].
  - intros H. apply ret_inv in H as (_ & _ & ->). reflexivity.
  - intros H.
    apply bind_inv_Ok in H as (u & w1 & t1 & t1' & H1 & H & ->).
    apply do_inv in H1 as (_ & ->).
    apply bind_inv_Ok in H as (b' & w2 & t2 & t2' & H2 & H & ->).
    apply do_inv in H2 as (_ & ->).
    apply bind_inv_Ok in H as ([X1 Y1] & w3 & t3 & t3' & H3 & H & ->).
    apply bind_inv_Ok in H as (u' & w4 & t4 & t4' & H4 & H & ->).
    apply do_inv in H4 as (_ & ->).
    apply IH in H.
    pose proof (_transform_only self b' X Y w2) as Hcalls.
    rewrite H3 in Hcalls. cbn in Hcalls.
    apply transform_calls_not_fitted in Hcalls.
    cbn. rewrite omap_app, Hcalls. cbn. f_equal. exact H.
Qed.

(** One stage of the pass, followed by the rest of the record. *)
Lemma _transform_protocol self b X Y w r w' t todo r' t' :
  _transform self b X Y w = (r, w', t) ->
  (forall X1 Y1, r = Ok (X1, Y1) -> chain_protocol todo Next_stage X1 Y1 r' t') ->
  (forall e, r = Raise e -> t' = [] /\ r' = Raise e) ->
  chain_protocol (b :: todo) Next_stage X Y r' (t ++ t').
Proof.
  unfold _transform. intros H Hok Hraise.
  apply bind_inv in H as [(X1 & w1 & t1 & t1' & H1 & H & ->) | (e & H1 & ->)];
    apply do_inv in H1 as (_ & ->).
  2: { destruct (Hraise e eq_refl) as [-> ->]. cbn. repeat split. }
  apply bind_inv in H as [(empty & w2 & t2 & t2' & H2 & H & ->) | (e & H2 & ->)];
    apply do_inv in H2 as (_ & ->).
  2: { destruct (Hraise e eq_refl) as [-> ->]. cbn. repeat split. }
  destruct empty; cbn [negb] in H.
  { apply ret_inv in H as (-> & _ & ->). cbn. repeat split. apply Hok. reflexivity. }
  apply bind_inv in H as [(declared & w3 & t3 & t3' & H3 & H & ->) | (e & H3 & ->)];
    apply do_inv in H3 as (_ & ->).
  2: { destruct (Hraise e eq_refl) as [-> ->]. cbn. repeat split. }
  destruct declared.
  2: { apply ret_inv in H as (-> & _ & ->). cbn. repeat split. apply Hok. reflexivity. }
  apply bind_inv in H as [(Y1 & w4 & t4 & t4' & H4 & H & ->) | (e & H4 & ->)];
    apply do_inv in H4 as (_ & ->).
  2: { destruct (Hraise e eq_refl) as [-> ->]. cbn. repeat split. }
  apply ret_inv in H as (-> & _ & ->). cbn. repeat split. apply Hok. reflexivity.
Qed.

(** The loop of [transform] follows the protocol of the stage chain. *)
Lemma transform_loop_protocol self bs :
  forall X Y w r w' t,
    transform_loop self bs X Y w = (r, w', t) ->
    chain_protocol bs Next_stage X Y r t.
Proof.
  induction bs as [| b bs IH]; intros X Y w r w' t H; cbn [transform_loop] in H.
  - apply ret_inv in H as (-> & _ & ->). cbn. repeat split.
  - apply bind_inv in H as [([X1 Y1] & w1 & t1 & t2 & H1 & H & ->) | (e & H1 & ->)].
    + apply (_transform_protocol _ _ _ _ _ _ _ _ _ _ _ H1).
      * intros X2 Y2 [= <- <-]. eapply IH. exact H.
      * discriminate.
    + rewrite <- (app_nil_r t).
      apply (_transform_protocol _ _ _ _ _ _ _ _ _ _ _ H1).
      * discriminate.
      * intros e0 [= <-]. split; reflexivity.
Qed.

(** [transform] follows its protocol. *)
Lemma transform_follows_protocol self X Y w r w' t :
  transform self X Y w = (r, w', t) -> transform_protocol (blocks self) X Y r t.
Proof.
  unfold transform. intros H.
  apply bind_inv in H as [(X_ & w1 & t1 & t1' & H1 & H & ->) | (e & H1 & ->)];
    apply do_inv in H1 as (_ & ->); [| cbn; repeat split].
  apply bind_inv in H as [(Y_ & w2 & t2 & t2' & H2 & H & ->) | (e & H2 & ->)];
    apply do_inv in H2 as (_ & ->); [| cbn; repeat split].
  cbn. split; [reflexivity |]. split; [reflexivity |].
  eapply transform_loop_protocol. exact H.
Qed.

(** A [predict] that returned went through every stage. *)
Lemma predict_completed self X w p w' t :
  predict self X w = (Ok p, w', t) -> omap transformed t = blocks self.
Proof.
  unfold predict. destruct (estimator self) as [est |]; [| discriminate].
  intros H.
  apply bind_inv_Ok in H as (X1 & w1 & t1 & t1' & H1 & H & ->).
  apply do_inv in H1 as (_ & ->).
  apply bind_inv_Ok in H as ([X_ Y_] & w2 & t2 & t2' & H2 & H & ->).
  apply (do_inv (Est_predict est X_)) in H as (_ & ->).
  unfold transform in H2.
  apply bind_inv_Ok in H2 as (X2 & w3 & t3 & t3' & H3 & H2 & ->).
  apply do_inv in H3 as (_ & ->).
  apply bind_inv_Ok in H2 as (Y2 & w4 & t4 & t4' & H4 & H2 & ->).
  apply do_inv in H4 as (_ & ->).
  pose proof (transform_loop_record self (blocks self) X2 Y2 w4) as (_ & Hall & _).
  cbn zeta in Hall. rewrite H2 in Hall. specialize (Hall (X_, Y_) eq_refl).
  cbn in Hall. cbn. rewrite omap_app, Hall. cbn. apply app_nil_r.
Qed.

(** [predict] follows its protocol. *)
Lemma predict_follows_protocol self est X w r w' t :
  estimator self = Some est ->
  predict self X w = (r, w', t) -> predict_protocol (blocks self) est X r t.
Proof.
  unfold predict. intros -> H.
  apply bind_inv in H as [(X1 & w1 & t1 & t1' & H1 & H & ->) | (e & H1 & ->)];
    apply do_inv in H1 as (_ & ->); [| cbn; repeat split].
  cbn. split; [reflexivity |].
  apply bind_inv in H as [([X_ Y_] & w2 & t2 & t2' & H2 & H & ->) | (e & H2 & ->)].
  - apply (do_inv (Est_predict est X_)) in H as (_ & ->).
    exists t2, (Ok (X_, Y_)), [Entry (Est_predict est X_) r].
    split; [reflexivity |].
    split; [eapply transform_follows_protocol; exact H2 | reflexivity].
  - exists t1', (Raise e), [].
    split; [symmetry; apply app_nil_r |].
    split; [eapply transform_follows_protocol; exact H2 | split; reflexivity].
Qed.

End Chain.

(** C6. Whatever the stages and the environment do, [transform] makes no
    call other than [copy], [Y.empty], [dir(block)], a stage's [transform]
    and a stage's [target_transform]; in particular it calls no stage's
    [fit].  It calls [transform] on the stages of [self.blocks] in their
    order (on all of them when it returns), the order in which a completed
    [fit_transform] calls their [fit].  It calls [target_transform] on
    exactly the stages that [dir] finds to declare it, and asks [dir]
    exactly when the target at hand is found not empty.  [predict], which
    delegates to [transform], adds only the estimator's [predict] and so
    calls no stage's [fit] either.  The record of [transform] follows the
    protocol of the stage chain: after the two copies, stage by stage, the
    stage's [transform] on the features at hand, [Y.empty] on the target at
    hand, [dir] of the stage when the target is not empty, and the stage's
    [target_transform] on the target at hand when [dir] finds it, what each
    returns being at hand afterwards and the tables at hand after the last
    stage being returned; the record of [predict] is a copy, such a
    [transform] of the copy with the default target, and the estimator's
    [predict] on the features it returned. *)
Theorem transform_never_refits `{RT : Runtime} (self : Conveyor) (X : XR) (Y : YR) (w : W) :
  let t := trace_of (transform self X Y w) in
  Forall (fun e => transform_call (e_call e) = true) t /\
  Forall (fun e => is_stage_fit (e_call e) = false) t /\
  omap transformed t `prefix_of` blocks self /\
  (forall xy, result_of (transform self X Y w) = Ok xy ->
     omap transformed t = blocks self) /\
  (forall estimator_ w0 xy w1 t0,
     fit_transform self X Y estimator_ w0 = (Ok xy, w1, t0) ->
     omap fitted t0 = blocks self) /\
  omap target_transformed t = omap declared t /\
  length (List.filter asks_dir t) = length (List.filter finds_target t) /\
  Forall (fun e => predict_call (e_call e) = true) (trace_of (predict self X w)) /\
  Forall (fun e => is_stage_fit (e_call e) = false) (trace_of (predict self X w)) /\
  transform_protocol (blocks self) X Y (result_of (transform self X Y w)) t /\
  (forall est,
     estimator self = Some est ->
     predict_protocol (blocks self) est X (result_of (predict self X w))
       (trace_of (predict self X w))).
Proof.
  cbn zeta.
  assert (Hproto : transform_protocol (blocks self) X Y
                     (result_of (transform self X Y w))
                     (trace_of (transform self X Y w))).
  { eapply transform_follows_protocol. apply run_eta. }
  assert (Hpredict : forall est,
            estimator self = Some est ->
            predict_protocol (blocks self) est X (result_of (predict self X w))
              (trace_of (predict self X w))).
  { intros est Hest. eapply predict_follows_protocol; [exact Hest | apply run_eta]. }
  assert (Hrec :
    omap transformed (trace_of (transform self X Y w)) `prefix_of` blocks self /\
    (forall xy, result_of (transform self X Y w) = Ok xy ->
       omap transformed (trace_of (transform self X Y w)) = blocks self) /\
    omap target_transformed (trace_of (transform self X Y w))
      = omap declared (trace_of (transform self X Y w)) /\
    length (List.filter asks_dir (trace_of (transform self X Y w)))
      = length (List.filter finds_target (trace_of (transform self X Y w)))).
  { unfold transform, bind, do.
    destruct (handle (Copy_X X) w) as [[X_ | e] w1]; cbn;
      [| repeat split; [apply prefix_nil | discriminate]].
    destruct (handle (Copy_Y Y) w1) as [[Y_ | e] w2]; cbn;
      [| repeat split; [apply prefix_nil | discriminate]].
    pose proof (transform_loop_record self (blocks self) X_ Y_ w2) as Hloop.
    cbn zeta in Hloop.
    destruct (transform_loop self (blocks self) X_ Y_ w2) as [[r w3] t3].
    exact Hloop. }
  destruct Hrec as (Hpre & Hall & Htt & Hdir).
  repeat split; try assumption.
  - apply transform_only.
  - eapply List.Forall_impl; [| apply transform_only].
    cbn. intros e He. destruct (e_call e); try discriminate He; reflexivity.
  - intros estimator_ w0 xy w1 t0 H. unfold fit_transform in H.
    apply bind_inv_Ok in H as (X_ & wa & ta & ta' & Ha & H & ->).
    apply do_inv in Ha as (_ & ->).
    apply bind_inv_Ok in H as (Y_ & wb & tb & tb' & Hb & H & ->).
    apply do_inv in Hb as (_ & ->).
    apply bind_inv_Ok in H as (pbar & wc & tc & tc' & Hc & H & ->).
    apply do_inv in Hc as (_ & ->).
    apply bind_inv_Ok in H as ([X1 Y1] & wd & td & td' & Hd & H & ->).
    apply fit_transform_loop_order in Hd.
    cbn. rewrite omap_app, Hd.
    assert (Hrest : omap fitted td' = []).
    { destruct estimator_.
      - apply bind_inv_Ok in H as (u & we & te & te' & He & H & ->).
        apply do_inv in He as (_ & ->).
        destruct (estimator self) as [est |]; [| discriminate H].
        apply bind_inv_Ok in H as (u1 & wf & tf & tf' & Hf & H & ->).
        apply do_inv in Hf as (_ & ->).
        apply bind_inv_Ok in H as (u2 & wg & tg & tg' & Hg & H & ->).
        apply do_inv in Hg as (_ & ->).
        apply ret_inv in H as (_ & _ & ->). reflexivity.
      - apply ret_inv in H as (_ & _ & ->). reflexivity. }
    rewrite Hrest. apply app_nil_r.
  - apply predict_only.
  - eapply List.Forall_impl; [| apply predict_only].
    cbn. intros e He. destruct (e_call e); try discriminate He; reflexivity.
Qed.

(** ** The champion: [fit_model] *)

Section Champion.
Context {PO : PyObjects} {RT : Runtime}.

Lemma _repr_dict_model_only self model : only not_rating (_repr_dict_model self model).
Proof. unfold _repr_dict_model. only_calls. Qed.

Lemma fit_lgbm_model_only self X Y X_test Y_test rating_func params cats :
  only not_rating (fit_lgbm_model self X Y X_test Y_test rating_func params cats).
Proof. unfold fit_lgbm_model. only_calls. apply _repr_dict_model_only. Qed.

Lemma sklearn_family_step_only X Y X_test Y_test rating_func params pb family best :
  only not_rating
    (sklearn_family_step X Y X_test Y_test rating_func params pb family best).
Proof. unfold sklearn_family_step. destruct family. only_calls. Qed.

Lemma sklearn_search_loop_only X Y X_test Y_test rating_func params pb catalog :
  forall best,
    only not_rating
      (sklearn_search_loop X Y X_test Y_test rating_func params pb catalog best).
Proof.
  induction catalog as [| family rest IH]; intros best; cbn [sklearn_search_loop].
  - apply only_ret.
  - apply only_bind; [apply only_reify, sklearn_family_step_only |].
    intros [best' | e]; [apply IH | apply only_ret].
Qed.

Lemma fit_sklearn_model_only self X Y X_test Y_test rating_func params :
  only not_rating (fit_sklearn_model self X Y X_test Y_test rating_func params).
Proof.
  unfold fit_sklearn_model, sklearn_search, refit_best.
  only_calls; try apply sklearn_search_loop_only; try apply _repr_dict_model_only.
  all: destruct (bm_model _); only_calls.
  all: destruct (decide _); only_calls.
Qed.

Lemma no_ratings t :
  Forall (fun e => not_rating (e_call e) = true) t -> omap rating t = [].
Proof.
  induction 1 as [| [c a] t He _ IHt]; [reflexivity |].
  cbn in *. destruct c; try discriminate He; exact IHt.
Qed.

(** The two tracks are rated by the same function on the same targets, and
    nothing else is rated. *)
Lemma fit_model_tracks_ratings self X_train Y_train X_test Y_test rating_func
    optuna_params cats w lgb_model lgb_score tpot_model tpot_score w' t :
  fit_model_tracks self X_train Y_train X_test Y_test rating_func optuna_params cats w
    = (Ok (lgb_model, lgb_score, tpot_model, tpot_score), w', t) ->
  exists result_lgb result_tpot,
    omap rating t = [(rating_func, Y_test, result_lgb, Ok lgb_score);
                     (rating_func, Y_test, result_tpot, Ok tpot_score)].
Proof.
  unfold fit_model_tracks. intros H.
  apply bind_inv_Ok in H as ([m1 r1] & w1 & t1 & t1' & H1 & H & ->).
  apply bind_inv_Ok in H as (s1 & w2 & t2 & t2' & H2 & H & ->).
  apply do_inv in H2 as (_ & ->).
  apply bind_inv_Ok in H as (u & w3 & t3 & t3' & H3 & H & ->).
  apply do_inv in H3 as (_ & ->).
  apply bind_inv_Ok in H as ([m2 r2] & w4 & t4 & t4' & H4 & H & ->).
  apply bind_inv_Ok in H as (s2 & w5 & t5 & t5' & H5 & H & ->).
  apply do_inv in H5 as (_ & ->).
  apply ret_inv in H as (H & _ & ->). injection H as <- <- <- <-.
  exists r1, r2.
  pose proof (fit_lgbm_model_only self X_train Y_train X_test Y_test rating_func
                optuna_params cats w) as Hl.
  rewrite H1 in Hl. cbn in Hl. apply no_ratings in Hl.
  pose proof (fit_sklearn_model_only self X_train Y_train X_test Y_test rating_func
                optuna_params w3) as Hs.
  rewrite H4 in Hs. cbn in Hs. apply no_ratings in Hs.
  rewrite !omap_app, Hl, Hs. reflexivity.
Qed.

End Champion.

(** C1. When [fit_model] gets as far as line 192, the two tracks having
    returned [lgb_model] and [tpot_model] and their predictions having
    been rated [lgb_score] and [tpot_score] by the same function on the same
    validation targets, the estimator of the Conveyor is [tpot_model] when
    [tpot_score > lgb_score] and [lgb_model] otherwise (a tie included); the
    two models being different objects, it is [tpot_model] if and only if
    [tpot_score > lgb_score]. *)
Theorem fit_model_keeps_strictly_better `{RT : Runtime} (self : Conveyor)
    (X : XR) (Y : YR) (X_test : option XR) (Y_test : option YR)
    (rating_func : string) (optuna_params : gmap string PV)
    (categorical_columns : list string) (w : W)
    (self' : Conveyor) (saved : outcome unit) :
  result_of (fit_model self X Y X_test Y_test rating_func optuna_params
               categorical_columns w) = Ok (self', saved) ->
  exists func X_train Y_train X_val Y_val w1 w2 t2
         lgb_model lgb_score tpot_model tpot_score result_lgb result_tpot,
    fit_model_tracks self X_train Y_train X_val Y_val func optuna_params
      categorical_columns w1
      = (Ok (lgb_model, lgb_score, tpot_model, tpot_score), w2, t2) /\
    omap rating t2 = [(func, Y_val, result_lgb, Ok lgb_score);
                      (func, Y_val, result_tpot, Ok tpot_score)] /\
    blocks self' = blocks self /\
    estimator self'
      = Some (if v_gt tpot_score lgb_score then tpot_model else lgb_model) /\
    (v_gt tpot_score lgb_score = true -> estimator self' = Some tpot_model) /\
    (v_gt tpot_score lgb_score = false -> estimator self' = Some lgb_model) /\
    (tpot_model <> lgb_model ->
       (estimator self' = Some tpot_model <-> v_gt tpot_score lgb_score = true)).
Proof.
  intros H.
  rewrite (run_eta (fit_model _ _ _ _ _ _ _ _) w) in H. cbn in H.
  destruct (fit_model self X Y X_test Y_test rating_func optuna_params
              categorical_columns w) as [[r w'] t] eqn:Hrun.
  cbn in H. subst r. unfold fit_model in Hrun.
  apply bind_inv_Ok in Hrun as (func & w0 & t0 & t0' & H0 & Hrun & ->).
  apply bind_inv_Ok in Hrun as ([[[X_train Y_train] X_val] Y_val] & w1 & t1 & t1' & H1 & Hrun & ->).
  apply bind_inv_Ok in Hrun as ([[[lgb_model lgb_score] tpot_model] tpot_score] & w2 & t2 & t2' & H2 & Hrun & ->).
  apply bind_inv_Ok in Hrun as (saved' & w3 & t3 & t3' & H3 & Hrun & ->).
  apply ret_inv in Hrun as (Hrun & _ & _).
  injection Hrun as Hself Hsaved. subst self' saved.
  destruct (fit_model_tracks_ratings _ _ _ _ _ _ _ _ _ _ _ _ _ _ _ H2)
    as (result_lgb & result_tpot & Hratings).
  exists func, X_train, Y_train, X_val, Y_val, w1, w2, t2,
    lgb_model, lgb_score, tpot_model, tpot_score, result_lgb, result_tpot.
  repeat split; try assumption; try reflexivity; cbn.
  - intros ->. reflexivity.
  - intros ->. reflexivity.
  - destruct (v_gt tpot_score lgb_score); [reflexivity |].
    intros [= Heq]. congruence.
  - intros ->. reflexivity.
Qed.

(** ** Strings *)

Lemma str_app_assoc (a b c : string) : (a +:+ b) +:+ c = a +:+ (b +:+ c).
Proof. induction a as [| x a IH]; cbn; [reflexivity | now rewrite IH]. Qed.

Lemma str_app_empty_r (a : string) : a +:+ "" = a.
Proof. induction a as [| x a IH]; cbn; [reflexivity | now rewrite IH]. Qed.

Lemma has_char_app c (a b : string) :
  has_char c (a +:+ b) = has_char c a || has_char c b.
Proof.
  induction a as [| x a IH]; cbn; [reflexivity |].
  rewrite IH. apply orb_assoc.
Qed.

(** A line without line break, followed by a line break, is the first
    line. *)
Lemma split_lines_first (l rest : string) :
  single_line l -> split_lines (l +:+ nl +:+ rest) = l :: split_lines rest.
Proof.
  unfold single_line, nl.
  induction l as [| x l IH]; cbn; intros H.
  - reflexivity.
  - apply orb_false_iff in H as [Hx Hl]. specialize (IH Hl). cbn in IH.
    rewrite Hx, IH. reflexivity.
Qed.

Lemma starts_with_self (pat rest : string) : starts_with pat (pat +:+ rest) = true.
Proof.
  induction pat as [| x pat IH]; cbn; [reflexivity |].
  rewrite Ascii.eqb_refl. exact IH.
Qed.

Lemma contains_middle (pat a b : string) : contains pat (a +:+ pat +:+ b) = true.
Proof.
  induction a as [| x a IH]; cbn.
  - destruct pat as [| p pat]; [destruct b; reflexivity |].
    cbn. rewrite Ascii.eqb_refl, starts_with_self. reflexivity.
  - rewrite IH. apply orb_true_r.
Qed.

(** A pattern without the character [c] does not begin across a [c]. *)
Lemma starts_with_sep (c : ascii) (pat s rest : string) :
  has_char c pat = false ->
  starts_with pat s = false -> starts_with pat (s +:+ String c rest) = false.
Proof.
  revert s. induction pat as [| p pat IH]; intros s Hc H; [discriminate H |].
  cbn in Hc. apply orb_false_iff in Hc as [Hp Hc].
  destruct s as [| x s]; cbn in *.
  - rewrite Hp. reflexivity.
  - destruct (Ascii.eqb p x); cbn in *; [apply IH; assumption | reflexivity].
Qed.

Lemma contains_sep (c : ascii) (pat a rest : string) :
  has_char c pat = false ->
  contains pat a = false -> contains pat (String c rest) = false ->
  contains pat (a +:+ String c rest) = false.
Proof.
  intros Hc Ha Hrest. induction a as [| x a IH].
  - exact Hrest.
  - cbn [append contains] in *.
    apply orb_false_iff in Ha as [Hx Ha].
    apply orb_false_iff. split; [| apply IH; exact Ha].
    apply (starts_with_sep c pat (String x a) rest Hc Hx).
Qed.

(** ** The score report: [score] and [_get_score] *)

Section Report.
Context {PO : PyObjects} {RT : Runtime}.

Lemma metric_label_named f name : metric_name f = Ok name -> metric_label f = name.
Proof. unfold metric_label. intros ->. reflexivity. Qed.

(** For a function that has a name, [_get_score] calls the metric once and
    returns the line for the outcome of that call, whatever the outcome. *)
Lemma _get_score_run self f y result w :
  has_name f ->
  _get_score self f y result w
  = (Ok (report_line (metric_label f) (fst (handle (Metric_call f y result) w))),
     snd (handle (Metric_call f y result) w),
     [Entry (Metric_call f y result) (fst (handle (Metric_call f y result) w))]).
Proof.
  intros [name Hname]. rewrite (metric_label_named _ _ Hname).
  unfold _get_score, try_except, bind, do, ret_. rewrite Hname. cbn.
  destruct (handle (Metric_call f y result) w) as [[v | e] w1]; reflexivity.
Qed.

(** For a callable whose name cannot be read, [_get_score] raises what the
    reading raises, and does not call it. *)
Lemma _get_score_nameless self f y result w e :
  metric_name f = Raise e -> _get_score self f y result w = (Raise e, w, []).
Proof.
  intros Hname. unfold _get_score, try_except, bind, raise. rewrite Hname.
  reflexivity.
Qed.

Lemma report_of_app rs1 rs2 : report_of (rs1 ++ rs2) = report_of rs1 +:+ report_of rs2.
Proof.
  induction rs1 as [| [[[f y] r] a] rs1 IH]; cbn [report_of app]; [reflexivity |].
  rewrite IH. symmetry. apply str_app_assoc.
Qed.

Lemma score_sklearn_loop_run self names Y_ result :
  (forall name, In name names ->
     forall w, exists f, fst (handle (Eval_name name) w) = Ok f /\ has_name f) ->
  forall score w, exists w' t,
    score_sklearn_loop self names Y_ result score w
      = (Ok (score +:+ report_of (omap rating t)), w', t) /\
    map rating_metric (omap rating t) = omap resolved t /\
    length (omap resolved t) = length names /\
    rated_on Y_ result (omap rating t).
Proof.
  induction names as [| name names IH]; intros Hres score w; cbn [score_sklearn_loop].
  - exists w, []. cbn. rewrite str_app_empty_r.
    split; [reflexivity | split; [reflexivity | split; [reflexivity | constructor]]].
  - destruct (Hres name (or_introl eq_refl) w) as (f & Hf & Hnamed).
    destruct (IH (fun n Hn => Hres n (or_intror Hn))
                (score +:+ report_line (metric_label f)
                   (fst (handle (Metric_call f Y_ result)
                           (snd (handle (Eval_name name) w)))))
                (snd (handle (Metric_call f Y_ result)
                        (snd (handle (Eval_name name) w)))))
      as (w' & t & Hrun & Hmet & Hlen & Hon).
    exists w', (Entry (Eval_name name) (Ok f)
                :: Entry (Metric_call f Y_ result)
                     (fst (handle (Metric_call f Y_ result)
                             (snd (handle (Eval_name name) w)))) :: t).
    rewrite (bind_do_Ok _ _ _ _ Hf).
    rewrite (bind_Ok _ _ _ _ _ _ (_get_score_run _ _ _ _ _ Hnamed)), Hrun. cbn.
    split; [| split; [| split]].
    + rewrite str_app_assoc. reflexivity.
    + f_equal. exact Hmet.
    + f_equal. exact Hlen.
    + constructor; [split; reflexivity | exact Hon].
Qed.

Lemma score_precision_loop_run self fns Y_ result :
  Forall has_name fns ->
  forall score w, exists w' t,
    score_precision_loop self fns Y_ result score w
      = (Ok (score +:+ report_of (omap rating t)), w', t) /\
    map rating_metric (omap rating t) = fns /\
    omap resolved t = [] /\
    rated_on Y_ result (omap rating t).
Proof.
  induction 1 as [| f fns Hnamed _ IH]; intros score w; cbn [score_precision_loop].
  - exists w, []. cbn. rewrite str_app_empty_r.
    split; [reflexivity | split; [reflexivity | split; [reflexivity | constructor]]].
  - destruct (IH (score +:+ report_line (metric_label f)
                    (fst (handle (Metric_call f Y_ result) w)))
                (snd (handle (Metric_call f Y_ result) w)))
      as (w' & t & Hrun & Hmet & Hres & Hon).
    exists w', (Entry (Metric_call f Y_ result)
                  (fst (handle (Metric_call f Y_ result) w)) :: t).
    rewrite (bind_Ok _ _ _ _ _ _ (_get_score_run _ _ _ _ _ Hnamed)), Hrun. cbn.
    split; [| split; [| split]].
    + rewrite str_app_assoc. reflexivity.
    + f_equal. exact Hmet.
    + exact Hres.
    + constructor; [split; reflexivity | exact Hon].
Qed.

(** The two lines of a report with one metric that returns and one that
    raises. *)
Lemma value_line_clean name value :
  contains "ERROR" name = false -> contains "ERROR" (format_value value) = false ->
  contains "ERROR" ("function - " +:+ name +:+ " = " +:+ format_value value) = false.
Proof.
  intros Hn Hv.
  replace ("function - " +:+ name +:+ " = " +:+ format_value value)
    with ("function -" +:+ String " " (name +:+ String " " ("=" +:+ String " " (format_value value))))
    by reflexivity.
  apply contains_sep; [reflexivity | reflexivity |].
  cbn [contains starts_with Ascii.eqb Bool.eqb andb orb].
  apply contains_sep; [reflexivity | exact Hn |].
  cbn [contains starts_with Ascii.eqb Bool.eqb andb orb append].
  cbn [contains starts_with Ascii.eqb Bool.eqb andb orb].
  exact Hv.
Qed.

Lemma error_line_marked name msg :
  contains "ERROR" ("function - " +:+ name +:+ " = ERROR: " +:+ msg) = true.
Proof.
  replace ("function - " +:+ name +:+ " = ERROR: " +:+ msg)
    with (("function - " +:+ name +:+ " = ") +:+ "ERROR" +:+ (": " +:+ msg))
    by (rewrite !str_app_assoc; reflexivity).
  apply contains_middle.
Qed.

Lemma value_line_single name value :
  single_line name -> single_line (format_value value) ->
  single_line ("function - " +:+ name +:+ " = " +:+ format_value value).
Proof.
  unfold single_line. intros Hn Hv.
  rewrite !has_char_app, Hn, Hv. reflexivity.
Qed.

Lemma error_line_single name msg :
  single_line name -> single_line msg ->
  single_line ("function - " +:+ name +:+ " = ERROR: " +:+ msg).
Proof.
  unfold single_line. intros Hn Hm.
  rewrite !has_char_app, Hn, Hm. reflexivity.
Qed.

End Report.

(** For a list of functions in which a callable whose name cannot be read
    comes after functions that have one, the second loop of [score] calls
    the functions before it and raises what the reading raised. *)
Lemma score_precision_loop_nameless `{RT : Runtime} self pre f post Y_ result e :
  Forall has_name pre -> metric_name f = Raise e ->
  forall score w, exists w' t,
    score_precision_loop self (pre ++ f :: post) Y_ result score w = (Raise e, w', t) /\
    map rating_metric (omap rating t) = pre /\
    omap resolved t = [] /\
    rated_on Y_ result (omap rating t).
Proof.
  intros Hpre Hname.
  induction Hpre as [| g pre Hnamed _ IH]; intros score w;
    cbn [score_precision_loop app].
  - rewrite (bind_Raise _ _ _ _ _ _ (_get_score_nameless self f Y_ result w e Hname)).
    exists w, []. split; [reflexivity |].
    split; [reflexivity | split; [reflexivity | constructor]].
  - destruct (IH (score +:+ report_line (metric_label g)
                    (fst (handle (Metric_call g Y_ result) w)))
                (snd (handle (Metric_call g Y_ result) w)))
      as (w' & t & Hrun & Hmet & Hres & Hon).
    exists w', (Entry (Metric_call g Y_ result)
                  (fst (handle (Metric_call g Y_ result) w)) :: t).
    rewrite (bind_Ok _ _ _ _ _ _ (_get_score_run _ _ _ _ _ Hnamed)), Hrun. cbn.
    split; [reflexivity |]. split; [f_equal; exact Hmet |].
    split; [exact Hres |]. constructor; [split; reflexivity | exact Hon].
Qed.

(** C2. Let the transformation and the prediction of [score] succeed and
    every name of [sklearn_function] resolve to a function that has a name.
    When every function of [precision_function] has a name too, [score]
    returns: it calls every metric once, in order (the resolved names, then
    [precision_function]), each on the transformed target and the
    predictions, and the report is the concatenation of one line per call, a
    value line when the call returned and an ERROR line when it raised; no
    outcome of a metric makes [score] raise.  With one metric that returns
    and one that raises (their names, the value and the message being free
    of line breaks, and the name and the value not spelling ERROR), the
    report has two lines, exactly one of them an ERROR line and the other
    the value line.  But a callable of [precision_function] whose
    [__name__] cannot be read is not isolated: [score] raises what the
    reading raised, having called the metrics before it and none after
    it. *)
Theorem score_isolates_metrics `{RT : Runtime} (self : Conveyor) (X : XR) (Y : YR)
    (sklearn_function : list string) (precision_function : list FR)
    (w : W) (Y_ : YR) (result : PR) (w1 : W) (t1 : list entry) :
  score_predict self X Y w = (Ok (Y_, result), w1, t1) ->
  (forall name, In name sklearn_function ->
     forall w', exists f, fst (handle (Eval_name name) w') = Ok f /\ has_name f) ->
  (Forall has_name precision_function ->
   exists w2 t2,
     let rs := omap rating t2 in
     let report := report_of rs in
     score self X Y sklearn_function precision_function true w
       = (Ok (Some (report, result, Y_)), w2, t1 ++ t2) /\
     result_of (score self X Y sklearn_function precision_function false w)
       = match fst (handle (Print [report]) w2) with
         | Ok _ => Ok None
         | Raise e => Raise e
         end /\
     map rating_metric rs = omap resolved t2 ++ precision_function /\
     length (omap resolved t2) = length sklearn_function /\
     length rs = length sklearn_function + length precision_function /\
     rated_on Y_ result rs /\
     forall f1 f2 y1 r1 y2 r2 value e,
       rs = [(f1, y1, r1, Ok value); (f2, y2, r2, Raise e)] \/
       rs = [(f2, y2, r2, Raise e); (f1, y1, r1, Ok value)] ->
       single_line (metric_label f1) -> single_line (format_value value) ->
       single_line (metric_label f2) -> single_line (exn_msg e) ->
       contains "ERROR" (metric_label f1) = false ->
       contains "ERROR" (format_value value) = false ->
       length (split_lines report) = 2 /\
       error_lines report
         = ["function - " +:+ metric_label f2 +:+ " = ERROR: " +:+ exn_msg e] /\
       value_lines report
         = ["function - " +:+ metric_label f1 +:+ " = " +:+ format_value value]) /\
  (forall pre f post e,
     precision_function = pre ++ f :: post ->
     Forall has_name pre ->
     metric_name f = Raise e ->
     exists w2 t2,
       (forall _return,
          score self X Y sklearn_function precision_function _return w
          = (Raise e, w2, t1 ++ t2)) /\
       map rating_metric (omap rating t2) = omap resolved t2 ++ pre /\
       length (omap resolved t2) = length sklearn_function /\
       rated_on Y_ result (omap rating t2)).
Proof.
  intros Hpre Hres.
  destruct (score_sklearn_loop_run self sklearn_function Y_ result Hres "" w1)
    as (wa & ta & Ha & Hmeta & Hlena & Hona).
  split.
  2: { intros pre f post e -> Hnamed Hname.
       destruct (score_precision_loop_nameless self pre f post Y_ result e Hnamed
                   Hname ("" +:+ report_of (omap rating ta)) wa)
         as (wb & tb & Hb & Hmetb & Hresb & Honb).
       exists wb, (ta ++ tb).
       split; [| split; [| split]].
       - intros _return. unfold score.
         rewrite (bind_Ok _ _ _ _ _ _ Hpre). cbn.
         rewrite (bind_Ok _ _ _ _ _ _ Ha). cbn.
         rewrite (bind_Raise _ _ _ _ _ _ Hb). reflexivity.
       - rewrite !omap_app, map_app, Hmeta, Hmetb, Hresb, app_nil_r. reflexivity.
       - rewrite omap_app, Hresb, app_nil_r. exact Hlena.
       - unfold rated_on. rewrite omap_app. apply Forall_app. split; assumption. }
  intros Hnames.
  destruct (score_precision_loop_run self precision_function Y_ result Hnames
              ("" +:+ report_of (omap rating ta)) wa)
    as (wb & tb & Hb & Hmetb & Hresb & Honb).
  exists wb, (ta ++ tb). cbn zeta.
  assert (Hrep : ("" +:+ report_of (omap rating ta)) +:+ report_of (omap rating tb)
                 = report_of (omap rating (ta ++ tb))).
  { rewrite omap_app, report_of_app. reflexivity. }
  rewrite Hrep in Hb.
  assert (Hmet : map rating_metric (omap rating (ta ++ tb))
                 = omap resolved (ta ++ tb) ++ precision_function).
  { rewrite !omap_app, map_app, Hmeta, Hmetb, Hresb, app_nil_r. reflexivity. }
  assert (Hlen : length (omap resolved (ta ++ tb)) = length sklearn_function).
  { rewrite omap_app, Hresb, app_nil_r. exact Hlena. }
  split; [| split; [| split; [| split; [| split; [| split]]]]].
  - unfold score.
    rewrite (bind_Ok _ _ _ _ _ _ Hpre). cbn.
    rewrite (bind_Ok _ _ _ _ _ _ Ha). cbn.
    rewrite (bind_Ok _ _ _ _ _ _ Hb). cbn.
    rewrite app_nil_r. reflexivity.
  - unfold score.
    rewrite (bind_Ok _ _ _ _ _ _ Hpre). cbn.
    rewrite (bind_Ok _ _ _ _ _ _ Ha). cbn.
    rewrite (bind_Ok _ _ _ _ _ _ Hb). cbn.
    unfold bind, do.
    destruct (handle (Print [report_of (omap rating (ta ++ tb))]) wb) as [[u | e] wc];
      reflexivity.
  - exact Hmet.
  - exact Hlen.
  - rewrite <- (length_map rating_metric), Hmet, length_app, Hlen. reflexivity.
  - unfold rated_on. rewrite omap_app. apply Forall_app. split; assumption.
  - intros f1 f2 y1 r1 y2 r2 value e Hrs Hn1 Hv Hn2 Hm Hc1 Hcv.
    pose proof (value_line_single _ _ Hn1 Hv) as Hsv.
    pose proof (error_line_single _ _ Hn2 Hm) as Hse.
    pose proof (value_line_clean _ _ Hc1 Hcv) as Hclean.
    pose proof (error_line_marked (metric_label f2) (exn_msg e)) as Hmark.
    assert (Hnl : forall a b c d : string,
              a +:+ b +:+ c +:+ d +:+ nl = (a +:+ b +:+ c +:+ d) +:+ nl +:+ "").
    { intros a b c d. rewrite !str_app_assoc, str_app_empty_r. reflexivity. }
    unfold error_lines, value_lines.
    destruct Hrs as [-> | ->]; cbn [report_of report_line].
    + rewrite str_app_empty_r, (Hnl "function - "), str_app_assoc.
      rewrite (split_lines_first _ _ Hsv).
      change (nl +:+ "") with nl.
      rewrite (Hnl "function - "), (split_lines_first _ _ Hse).
      cbn [split_lines List.filter length]. rewrite Hclean, Hmark. cbn.
      repeat split.
    + rewrite str_app_empty_r, (Hnl "function - "), str_app_assoc.
      rewrite (split_lines_first _ _ Hse).
      change (nl +:+ "") with nl.
      rewrite (Hnl "function - "), (split_lines_first _ _ Hsv).
      cbn [split_lines List.filter length]. rewrite Hclean, Hmark. cbn.
      repeat split.
Qed.

(** C9 (as amended). For a function whose name [func.__name__] can be
    read, [_get_score] calls the metric once and returns one line, ended by
    a line break: "function - name = value" when the call returns and
    "function - name = ERROR: message" when it raises; the line begins with
    the label "function - ", which the claim leaves out. *)
Theorem get_score_line `{RT : Runtime} (self : Conveyor) (func : FR) (y : YR)
    (result : PR) (w : W) (name : string) :
  metric_name func = Ok name ->
  result_of (_get_score self func y result w)
  = Ok (match fst (handle (Metric_call func y result) w) with
        | Ok value => "function - " +:+ name +:+ " = " +:+ format_value value +:+ nl
        | Raise e => "function - " +:+ name +:+ " = ERROR: " +:+ exn_msg e +:+ nl
        end) /\
  calls (trace_of (_get_score self func y result w)) = [Metric_call func y result] /\
  (forall value,
     fst (handle (Metric_call func y result) w) = Ok value ->
     single_line name -> single_line (format_value value) ->
     lines_of (result_of (_get_score self func y result w))
     = ["function - " +:+ name +:+ " = " +:+ format_value value]) /\
  (forall e,
     fst (handle (Metric_call func y result) w) = Raise e ->
     single_line name -> single_line (exn_msg e) ->
     lines_of (result_of (_get_score self func y result w))
     = ["function - " +:+ name +:+ " = ERROR: " +:+ exn_msg e]).
Proof.
  intros Hname.
  assert (Hnl : forall a b c d : string,
            a +:+ b +:+ c +:+ d +:+ nl = (a +:+ b +:+ c +:+ d) +:+ nl +:+ "").
  { intros a b c d. rewrite !str_app_assoc, str_app_empty_r. reflexivity. }
  rewrite (_get_score_run self func y result w (ex_intro _ name Hname)).
  rewrite (metric_label_named _ _ Hname).
  cbn [result_of trace_of fst snd calls map e_call].
  split; [reflexivity | split; [reflexivity | split]].
  - intros value Hv Hn Hs. rewrite Hv. cbn [report_line lines_of].
    rewrite (Hnl "function - "), (split_lines_first _ _ (value_line_single _ _ Hn Hs)).
    reflexivity.
  - intros e He Hn Hs. rewrite He. cbn [report_line lines_of].
    rewrite (Hnl "function - "), (split_lines_first _ _ (error_line_single _ _ Hn Hs)).
    reflexivity.
Qed.

(** ** The generic-estimator track: [fit_sklearn_model] *)

Section Track.
Context {PO : PyObjects} {RT : Runtime}.

(** An iteration leaves [best_model] as it was or replaces it by the
    current class, and replaces it only on a strictly greater value. *)
Lemma sklearn_family_step_keeps X Y X_test Y_test rating_func params pb family
    best w best' w' t :
  sklearn_family_step X Y X_test Y_test rating_func params pb family best w
    = (Ok best', w', t) ->
  exists study value wv,
    handle (Best_value study) wv = (Ok value, w') /\
    ((v_gt value (bm_best_value best) = false /\ best' = best) \/
     (v_gt value (bm_best_value best) = true /\
      bm_model best' = Model_class (fst family))).
Proof.
  unfold sklearn_family_step. destruct family as [model space]. intros H.
  apply bind_inv_Ok in H as (u1 & w1 & t1 & t1' & H1 & H & ->).
  apply bind_inv_Ok in H as (study & w2 & t2 & t2' & H2 & H & ->).
  apply bind_inv_Ok in H as (ob & w3 & t3 & t3' & H3 & H & ->).
  apply bind_inv_Ok in H as (u4 & w4 & t4 & t4' & H4 & H & ->).
  apply bind_inv_Ok in H as (bp & w5 & t5 & t5' & H5 & H & ->).
  apply bind_inv_Ok in H as (bv & w6 & t6 & t6' & H6 & H & ->).
  apply bind_inv_Ok in H as (bv' & w7 & t7 & t7' & H7 & H & ->).
  apply do_inv in H7 as (H7 & _).
  exists study, bv', w6.
  destruct (v_gt bv' (bm_best_value best)) eqn:Hgt;
    apply ret_inv in H as (H & -> & _); injection H as ->.
  - split; [exact H7 | right; split; reflexivity].
  - split; [exact H7 | left; split; reflexivity].
Qed.

(** When no iteration raises, the [try] changes nothing. *)
Lemma sklearn_search_loop_no_failure X Y X_test Y_test rating_func params pb catalog :
  forall best w best' w' t,
    sklearn_for_loop X Y X_test Y_test rating_func params pb catalog best w
      = (Ok best', w', t) ->
    sklearn_search_loop X Y X_test Y_test rating_func params pb catalog best w
      = (Ok best', w', t).
Proof.
  induction catalog as [| family rest IH]; intros best w best' w' t;
    cbn [sklearn_for_loop sklearn_search_loop].
  - intros H. exact H.
  - intros H.
    apply bind_inv_Ok in H as (b1 & w1 & t1 & t1' & H1 & H & ->).
    apply IH in H.
    unfold bind, reify. rewrite H1, H. reflexivity.
Qed.




(** The placeholder cannot be fitted. *)
Lemma refit_placeholder X Y w :
  refit_best (mkBest Builtin_object ∅ v_zero) X Y w
  = (Raise (Exn "AttributeError" "'object' object has no attribute 'fit'"), w, []).
Proof. reflexivity. Qed.

(** When the search leaves [best_model] at its placeholder,
    [fit_sklearn_model] raises. *)
Lemma fit_sklearn_model_placeholder self X Y X_test Y_test rating_func params w w' t :
  sklearn_search X Y X_test Y_test rating_func (merge_params params)
    (mkBest Builtin_object ∅ v_zero) w
    = (Ok (mkBest Builtin_object ∅ v_zero), w', t) ->
  fit_sklearn_model self X Y X_test Y_test rating_func params w
  = (Raise (Exn "AttributeError" "'object' object has no attribute 'fit'"), w', t).
Proof.
  intros H. unfold fit_sklearn_model.
  rewrite (bind_Ok _ _ _ _ _ _ H).
  rewrite (bind_Raise _ _ _ _ _ _ (refit_placeholder X Y w')).
  cbn. rewrite app_nil_r. reflexivity.
Qed.

(** When every family of the catalog raises whenever it is optimized,
    [fit_sklearn_model] raises. *)
Lemma fit_sklearn_model_all_fail self X Y X_test Y_test rating_func params w :
  (forall family pb best w1,
     In family sklearn_models ->
     exists e,
       result_of (sklearn_family_step X Y X_test Y_test rating_func
                    (merge_params params) pb family best w1) = Raise e) ->
  result_of (fit_sklearn_model self X Y X_test Y_test rating_func params w)
  = Raise (Exn "AttributeError" "'object' object has no attribute 'fit'").
Proof.
  intros Hfail.
  assert (Hsearch :
    result_of (sklearn_search X Y X_test Y_test rating_func (merge_params params)
                 (mkBest Builtin_object ∅ v_zero) w)
    = Ok (mkBest Builtin_object ∅ v_zero)).
  { unfold sklearn_search, bind at 1, reify.
    destruct (bind (lift (getitem (merge_params params) "n_trials")) _ w)
      as [[[pb | e] w1] t1]; cbn; [| reflexivity].
    destruct sklearn_models as [| family rest] eqn:Hcat; cbn; [reflexivity |].
    destruct (Hfail family pb (mkBest Builtin_object ∅ v_zero) w1
                (or_introl eq_refl)) as [e He].
    unfold bind, reify.
    destruct (sklearn_family_step X Y X_test Y_test rating_func (merge_params params)
                pb family (mkBest Builtin_object ∅ v_zero) w1) as [[r w2] t2].
    cbn in He. subst r. reflexivity. }
  pose proof (run_eta (sklearn_search X Y X_test Y_test rating_func
                         (merge_params params) (mkBest Builtin_object ∅ v_zero)) w) as Hrun.
  rewrite Hsearch in Hrun.
  rewrite (fit_sklearn_model_placeholder self _ _ _ _ _ _ _ _ _ Hrun). reflexivity.
Qed.

(** Without a test set, the tracks are given, as training data, the very
    tables that were handed to [train_test_split], and as validation data
    its second and fourth parts. *)
Lemma fit_model_data_split self X Y X_test Y_test w X_train Y_train X_val Y_val w' t :
  X_test = None \/ Y_test = None ->
  fit_model_data self X Y X_test Y_test w
    = (Ok (X_train, Y_train, X_val, Y_val), w', t) ->
  exists w1 part1 part3,
    handle (Train_test_split X_train Y_train) w1
      = (Ok (part1, X_val, part3, Y_val), w') /\
    exists t1, t = t1 ++ [Entry (Train_test_split X_train Y_train)
                            (Ok (part1, X_val, part3, Y_val))].
Proof.
  intros Hnone H. unfold fit_model_data in H.
  apply bind_inv_Ok in H as ([Xt Yt] & w1 & t1 & t1' & H1 & H & ->).
  assert (Hsplit :
    bind (do (Train_test_split Xt Yt))
      (fun parts : XR * XR * YR * YR =>
         let '(part1, part2, part3, part4) := parts in
         ret_ (Xt, Yt, part2, part4)) w1
    = (Ok (X_train, Y_train, X_val, Y_val), w', t1')).
  { destruct X_test as [xt |], Y_test as [yt |]; try exact H.
    destruct Hnone; discriminate. }
  clear H.
  apply bind_inv_Ok in Hsplit as ([[[p1 p2] p3] p4] & w2 & t2 & t2' & H2 & H & ->).
  apply do_inv in H2 as (H2 & ->).
  apply ret_inv in H as (H & -> & ->). injection H as <- <- <- <-.
  exists w1, p1, p3. split; [exact H2 |].
  exists t1. rewrite app_nil_r. reflexivity.
Qed.

End Track.


(** ** Tables as objects: the caller's tables are left alone *)

Section Untouched.
Context {PO : PyObjects} {RT : Runtime}.

(** The content of the table objects that exist in a state. *)
Context {C : Type} (cell : W -> frame -> option C).

Hypothesis footprint : footprint_respected cell.
Hypothesis reads : reads_respected cell.
Hypothesis returns : returns_respected cell.

(** The tables that existed in [w0] are as they were. *)
Definition kept (w0 w : W) : Prop :=
  forall l, cell w0 l <> None -> cell w l = cell w0 l.

(** [m], started with the tables of [w0] untouched, leaves them untouched
    and returns only values that satisfy [Q]. *)
Definition keeps (w0 : W) {A} (m : M A) (Q : A -> Prop) : Prop :=
  forall w, kept w0 w ->
    kept w0 (world_of (m w)) /\ forall a, result_of (m w) = Ok a -> Q a.

(** A table that did not exist in [w0]. *)
Definition later (w0 : W) (l : frame) : Prop := cell w0 l = None.

Lemma keeps_ret w0 {A} (a : A) (Q : A -> Prop) : Q a -> keeps w0 (ret_ a) Q.
Proof. intros HQ w Hw. split; [exact Hw |]. cbn. intros a' [= <-]. exact HQ. Qed.

Lemma keeps_raise w0 {A} e (Q : A -> Prop) : keeps w0 (raise e) Q.
Proof. intros w Hw. split; [exact Hw |]. cbn. discriminate. Qed.

Lemma keeps_bind w0 {A B} (m : M A) (k : A -> M B) (Q1 : A -> Prop) (Q2 : B -> Prop) :
  keeps w0 m Q1 -> (forall a, Q1 a -> keeps w0 (k a) Q2) -> keeps w0 (bind m k) Q2.
Proof.
  intros Hm Hk w Hw. unfold bind. destruct (Hm w Hw) as [Hw1 HQ1].
  destruct (m w) as [[[a | e] w1] t1]; cbn in *.
  - destruct (Hk a (HQ1 a eq_refl) w1 Hw1) as [Hw2 HQ2].
    destruct (k a w1) as [[r w2] t2]. cbn in *. split; assumption.
  - split; [exact Hw1 | discriminate].
Qed.

(** A call of the chain that is handed later tables only, or only reads. *)
Lemma keeps_do w0 c :
  chain_call c = true ->
  read_only c = true \/ Forall (later w0) (frame_args c) ->
  keeps w0 (do c) (fun r => Forall (later w0) (frame_rets c r)).
Proof.
  intros Hc Hargs w Hw. unfold do.
  destruct (handle c w) as [r w1] eqn:Hh. cbn.
  assert (Hw1 : kept w0 w1).
  { intros l Hl. rewrite <- (Hw l Hl).
    assert (Hlw : cell w l <> None) by (rewrite (Hw l Hl); exact Hl).
    change w1 with (snd (r, w1)). rewrite <- Hh.
    destruct Hargs as [Hro | Hlater].
    - apply reads; assumption.
    - apply footprint; try assumption.
      intros Hin. rewrite List.Forall_forall in Hlater.
      apply Hl. apply Hlater. exact Hin. }
  split; [exact Hw1 |].
  intros a ->. apply List.Forall_forall. intros l Hl.
  destruct (returns c w a l Hc) as [[Hnro Hin] | Hnew].
  - rewrite Hh. reflexivity.
  - exact Hl.
  - destruct Hargs as [Hro | Hlater]; [congruence |].
    rewrite List.Forall_forall in Hlater. apply Hlater. exact Hin.
  - unfold later. destruct (cell w0 l) eqn:Hc0; [| reflexivity].
    assert (Hl0 : cell w0 l <> None) by congruence.
    rewrite <- (Hw l Hl0), Hnew in Hc0. discriminate.
Qed.

Definition later_pair (w0 : W) (xy : XR * YR) : Prop :=
  later w0 (inl (fst xy)) /\ later w0 (inr (snd xy)).

Ltac keeps_call :=
  eapply keeps_bind;
  [ apply keeps_do; [reflexivity | first [left; reflexivity | right; repeat constructor; assumption]]
  | cbn [frame_rets]; intros ? ? ].

Lemma _transform_keeps w0 self b X Y :
  later w0 (inl X) -> later w0 (inr Y) ->
  keeps w0 (_transform self b X Y) (later_pair w0).
Proof.
  intros HX HY. unfold _transform.
  keeps_call. keeps_call.
  match goal with H : Forall _ [inl _] |- _ => apply Forall_inv in H end.
  destruct a0; cbn [negb].
  - apply keeps_ret. split; assumption.
  - keeps_call. destruct a0.
    + keeps_call.
      match goal with H : Forall _ [inr _] |- _ => apply Forall_inv in H end.
      apply keeps_ret. split; assumption.
    + apply keeps_ret. split; assumption.
Qed.

Lemma transform_loop_keeps w0 self bs :
  forall X Y, later w0 (inl X) -> later w0 (inr Y) ->
    keeps w0 (transform_loop self bs X Y) (later_pair w0).
Proof.
  induction bs as [| b bs IH]; intros X Y HX HY; cbn [transform_loop].
  - apply keeps_ret. split; assumption.
  - eapply keeps_bind; [apply _transform_keeps; assumption |].
    intros [X1 Y1] [HX1 HY1]. apply IH; assumption.
Qed.

Lemma fit_transform_loop_keeps w0 self pbar bs :
  forall X Y, later w0 (inl X) -> later w0 (inr Y) ->
    keeps w0 (fit_transform_loop self pbar bs X Y) (later_pair w0).
Proof.
  induction bs as [| b bs IH]; intros X Y HX HY; cbn [fit_transform_loop].
  - apply keeps_ret. split; assumption.
  - keeps_call. keeps_call.
    eapply keeps_bind; [apply _transform_keeps; assumption |].
    intros [X1 Y1] [HX1 HY1]. keeps_call. apply IH; assumption.
Qed.

Lemma transform_keeps w0 self X Y : keeps w0 (transform self X Y) (later_pair w0).
Proof.
  unfold transform. keeps_call. keeps_call.
  repeat match goal with H : Forall _ [_] |- _ => apply Forall_inv in H end.
  apply transform_loop_keeps; assumption.
Qed.

Lemma fit_transform_keeps w0 self X Y estimator_ :
  keeps w0 (fit_transform self X Y estimator_) (later_pair w0).
Proof.
  unfold fit_transform. keeps_call. keeps_call. keeps_call.
  repeat match goal with H : Forall _ [_] |- _ => apply Forall_inv in H end.
  eapply keeps_bind; [apply fit_transform_loop_keeps; assumption |].
  intros [X1 Y1] [HX1 HY1]. cbn [fst snd] in *.
  destruct estimator_.
  - keeps_call. destruct (estimator self) as [est |]; [| apply keeps_raise].
    keeps_call. keeps_call. apply keeps_ret. split; assumption.
  - apply keeps_ret. split; assumption.
Qed.

End Untouched.

(** ** Progress reports of [fit_transform] *)

Section Progress.
Context {PO : PyObjects} {RT : Runtime}.

Lemma transform_calls_no_milestone t :
  Forall (fun e => transform_call (e_call e) = true) t -> omap milestone_of t = [].
Proof.
  induction 1 as [| e t He _ IHt]; [reflexivity |].
  cbn. unfold milestone_of at 1. destruct (e_call e); try discriminate He; exact IHt.
Qed.

Lemma fit_transform_loop_milestones self pbar bs :
  forall X Y w xy w' t,
    fit_transform_loop self pbar bs X Y w = (Ok xy, w', t) ->
    omap milestone_of t = flat_map (fun b => [Stage_fitted b; Progress_reported]) bs /\
    omap progress_total t = [].
Proof.
  induction bs as [| b bs IH]; intros X Y w xy w' t; cbn [fit_transform_loop].
  - intros H. apply ret_inv in H as (_ & _ & ->). split; reflexivity.
  - intros H.
    apply bind_inv_Ok in H as (u & w1 & t1 & t1' & H1 & H & ->).
    apply do_inv in H1 as (_ & ->).
    apply bind_inv_Ok in H as (b' & w2 & t2 & t2' & H2 & H & ->).
    apply do_inv in H2 as (_ & ->).
    apply bind_inv_Ok in H as ([X1 Y1] & w3 & t3 & t3' & H3 & H & ->).
    apply bind_inv_Ok in H as (u' & w4 & t4 & t4' & H4 & H & ->).
    apply do_inv in H4 as (_ & ->).
    apply IH in H as [Hm Hp].
    pose proof (_transform_only self b' X Y w2) as Hcalls.
    rewrite H3 in Hcalls. cbn in Hcalls.
    pose proof (transform_calls_no_milestone _ Hcalls) as Hnone.
    assert (Hnop : omap progress_total t3 = []).
    { clear -Hcalls. induction Hcalls as [| e t He _ IHt]; [reflexivity |].
      cbn. unfold progress_total at 1.
      destruct (e_call e); try discriminate He; exact IHt. }
    cbn. rewrite !omap_app, Hnone, Hnop. cbn. rewrite Hm, Hp. split; reflexivity.
Qed.

(** A completed [fit_transform] creates one progress bar, with one unit per
    stage and one for the estimator when it is trained, and reports progress
    once after each stage's [fit] and transformation and once after the
    estimator's [fit]. *)
Lemma fit_transform_milestones self X Y estimator_ w xy w' t :
  fit_transform self X Y estimator_ w = (Ok xy, w', t) ->
  omap progress_total t = [length (blocks self) + int_of_bool estimator_] /\
  omap milestone_of t
  = flat_map (fun b => [Stage_fitted b; Progress_reported]) (blocks self)
    ++ (if estimator_
        then match estimator self with
             | Some est => [Estimator_fitted est; Progress_reported]
             | None => []
             end
        else []) /\
  length (List.filter reports_progress t)
  = length (blocks self) + int_of_bool estimator_.
Proof.
  intros H.
  assert (Hcount : forall t0,
            length (List.filter reports_progress t0)
            = length (List.filter
                        (fun m => match m with Progress_reported => true | _ => false end)
                        (omap milestone_of t0))).
  { induction t0 as [| e t0 IHt]; [reflexivity |].
    cbn. unfold reports_progress at 1, milestone_of at 1.
    destruct (e_call e); cbn; rewrite ?IHt; reflexivity. }
  assert (Hstages : forall bs : list BR,
            length (List.filter
                      (fun m => match m with Progress_reported => true | _ => false end)
                      (flat_map (fun b => [Stage_fitted b; Progress_reported]) bs))
            = length bs).
  { induction bs as [| b bs IHb]; [reflexivity |]. cbn. rewrite IHb. reflexivity. }
  unfold fit_transform in H.
  apply bind_inv_Ok in H as (X_ & wa & ta & ta' & Ha & H & ->).
  apply do_inv in Ha as (_ & ->).
  apply bind_inv_Ok in H as (Y_ & wb & tb & tb' & Hb & H & ->).
  apply do_inv in Hb as (_ & ->).
  apply bind_inv_Ok in H as (pbar & wc & tc & tc' & Hc & H & ->).
  apply do_inv in Hc as (_ & ->).
  apply bind_inv_Ok in H as ([X1 Y1] & wd & td & td' & Hd & H & ->).
  apply fit_transform_loop_milestones in Hd as [Hm Hp].
  assert (Hend :
    omap milestone_of td'
    = (if estimator_
       then match estimator self with
            | Some est => [Estimator_fitted est; Progress_reported]
            | None => []
            end
       else []) /\ omap progress_total td' = []).
  { destruct estimator_.
    - apply bind_inv_Ok in H as (u & we & te & te' & He & H & ->).
      apply do_inv in He as (_ & ->).
      destruct (estimator self) as [est |]; [| discriminate H].
      apply bind_inv_Ok in H as (u1 & wf & tf & tf' & Hf & H & ->).
      apply do_inv in Hf as (_ & ->).
      apply bind_inv_Ok in H as (u2 & wg & tg & tg' & Hg & H & ->).
      apply do_inv in Hg as (_ & ->).
      apply ret_inv in H as (_ & _ & ->). split; reflexivity.
    - apply ret_inv in H as (_ & _ & ->). split; reflexivity. }
  destruct Hend as [Hem Hep].
  assert (Hall : omap milestone_of
                   ([Entry (Copy_X X) (Ok X_)] ++ [Entry (Copy_Y Y) (Ok Y_)]
                    ++ [Entry (ProgressBar (length (blocks self) + int_of_bool estimator_))
                          (Ok pbar)] ++ td ++ td')
                 = flat_map (fun b => [Stage_fitted b; Progress_reported]) (blocks self)
                   ++ (if estimator_
                       then match estimator self with
                            | Some est => [Estimator_fitted est; Progress_reported]
                            | None => []
                            end
                       else [])).
  { cbn. rewrite omap_app, Hm, Hem. reflexivity. }
  split; [| split].
  - cbn. rewrite omap_app, Hp, Hep. reflexivity.
  - exact Hall.
  - rewrite Hcount, Hall, List.filter_app, length_app, Hstages.
    f_equal. destruct estimator_; [| reflexivity].
    destruct (estimator self); [reflexivity |].
    exfalso. clear -H.
    apply bind_inv_Ok in H as (u & we & te & te' & He & H & ->).
    discriminate H.
Qed.

End Progress.

(** C7. Provided the stages and the estimator change, of the tables that
    exist, only those they are handed, and give back a table they were
    handed or a new one ([copy] giving a new one and, like [Y.empty],
    changing none), [fit_transform] and [transform] leave every table that
    existed before the call as it was, the caller's [X] and [Y] among them:
    they work on copies.  A completed [fit_transform] creates a progress bar
    of one unit per stage plus one for the estimator when it is trained, and
    reports progress exactly once after each stage and once more after the
    estimator's [fit]. *)
Theorem fit_transform_works_on_copies `{RT : Runtime} {C : Type}
    (cell : W -> frame -> option C) (self : Conveyor) (X : XR) (Y : YR)
    (estimator_ : bool) (w : W) :
  footprint_respected cell -> reads_respected cell -> returns_respected cell ->
  cell w (inl X) <> None -> cell w (inr Y) <> None ->
  (forall l, cell w l <> None ->
     cell (world_of (fit_transform self X Y estimator_ w)) l = cell w l) /\
  cell (world_of (fit_transform self X Y estimator_ w)) (inl X) = cell w (inl X) /\
  cell (world_of (fit_transform self X Y estimator_ w)) (inr Y) = cell w (inr Y) /\
  (forall l, cell w l <> None ->
     cell (world_of (transform self X Y w)) l = cell w l) /\
  cell (world_of (transform self X Y w)) (inl X) = cell w (inl X) /\
  cell (world_of (transform self X Y w)) (inr Y) = cell w (inr Y) /\
  (forall xy w' t,
     fit_transform self X Y estimator_ w = (Ok xy, w', t) ->
     omap progress_total t = [length (blocks self) + int_of_bool estimator_] /\
     omap milestone_of t
     = flat_map (fun b => [Stage_fitted b; Progress_reported]) (blocks self)
       ++ (if estimator_
           then match estimator self with
                | Some est => [Estimator_fitted est; Progress_reported]
                | None => []
                end
           else []) /\
     length (List.filter reports_progress t)
     = length (blocks self) + int_of_bool estimator_).
Proof.
  intros Hfoot Hreads Hrets HX HY.
  assert (Hw : kept cell w w) by (intros l _; reflexivity).
  destruct (fit_transform_keeps cell Hfoot Hreads Hrets w self X Y estimator_ w Hw)
    as [Hfit _].
  destruct (transform_keeps cell Hfoot Hreads Hrets w self X Y w Hw) as [Htr _].
  repeat match goal with |- _ /\ _ => split end.
  - exact Hfit.
  - apply Hfit, HX.
  - apply Hfit, HY.
  - exact Htr.
  - apply Htr, HX.
  - apply Htr, HY.
  - intros xy w' t H. apply (fit_transform_milestones _ _ _ _ _ _ _ _ H).
Qed.

(** ** Prediction *)

Section Flow.
Context {PO : PyObjects} {RT : Runtime}.

(** The record of a run that went on after [t1]. *)
Lemma features_flow_app X t1 t2 :
  features_flow X t1 -> features_flow (at_hand X t1) t2 -> features_flow X (t1 ++ t2).
Proof.
  revert X. induction t1 as [| [c a] t1 IH]; intros X H1 H2; [exact H2 |].
  cbn in *.
  destruct c; try (apply IH; assumption).
  - destruct H1 as [-> H1]. split; [reflexivity |].
    destruct a; [apply IH; assumption | exact I].
  - destruct H1 as [-> H1]. split; [reflexivity |].
    destruct a; [apply IH; assumption | exact I].
  - destruct H1 as [-> H1]. split; [reflexivity |]. apply IH; assumption.
Qed.

Lemma at_hand_app X t1 t2 : at_hand X (t1 ++ t2) = at_hand (at_hand X t1) t2.
Proof.
  revert X. induction t1 as [| [c a] t1 IH]; intros X; [reflexivity |].
  cbn. destruct c; try apply IH; destruct a; apply IH.
Qed.

Lemma _transform_flow self b X Y w :
  let r := _transform self b X Y w in
  features_flow X (trace_of r) /\
  forall xy, result_of r = Ok xy -> at_hand X (trace_of r) = fst xy.
Proof.
  cbn zeta. unfold _transform, bind, do, ret_.
  answer_call; [| split; [split; [reflexivity | exact I] | discriminate]].
  answer_call; [| split; [split; [reflexivity | exact I] | discriminate]].
  destruct a0; cbn.
  { split; [split; [reflexivity | exact I] |].
    intros xy Hxy. inversion Hxy. reflexivity. }
  answer_call; [| split; [split; [reflexivity | exact I] | discriminate]].
  destruct a0; cbn.
  - answer_call; (split; [split; [reflexivity | exact I] |]);
      [intros xy Hxy; inversion Hxy; reflexivity | discriminate].
  - split; [split; [reflexivity | exact I] |].
    intros xy Hxy. inversion Hxy. reflexivity.
Qed.

Lemma transform_loop_flow self bs :
  forall X Y w,
    let r := transform_loop self bs X Y w in
    features_flow X (trace_of r) /\
    forall xy, result_of r = Ok xy -> at_hand X (trace_of r) = fst xy.
Proof.
  induction bs as [| b bs IH]; intros X Y w; cbn [transform_loop].
  - cbn. split; [exact I |]. intros xy Hxy. inversion Hxy. reflexivity.
  - pose proof (_transform_flow self b X Y w) as [Hf Hh]. cbn zeta in Hf, Hh.
    unfold bind.
    destruct (_transform self b X Y w) as [[[[X1 Y1] | e] w1] t1]; cbn in *.
    + specialize (IH X1 Y1 w1) as [IHf IHh].
      specialize (Hh (X1, Y1) eq_refl). cbn in Hh.
      destruct (transform_loop self bs X1 Y1 w1) as [[r w2] t2]; cbn in *.
      split.
      * apply features_flow_app; [exact Hf | rewrite Hh; exact IHf].
      * intros xy Hr. rewrite at_hand_app, Hh. apply IHh. exact Hr.
    + split; [exact Hf | discriminate].
Qed.

(** The estimator predicts on the table that [X] became through the two
    copies and the stages' [transform]s. *)
Lemma predict_flow self X w r w' t :
  predict self X w = (r, w', t) ->
  features_flow X t /\
  (forall p, r = Ok p ->
     exists est t0,
       estimator self = Some est /\
       t = t0 ++ [Entry (Est_predict est (at_hand X t0)) (Ok p)]).
Proof.
  unfold predict. destruct (estimator self) as [est |].
  2: { intros H. injection H as <- <- <-. split; [exact I | discriminate]. }
  intros H.
  apply bind_inv in H as [(X0 & w1 & t1 & t1' & H1 & H & ->) | (e & H1 & ->)];
    apply do_inv in H1 as (_ & ->);
    [| split; [split; [reflexivity | exact I] | discriminate]].
  apply bind_inv in H as [([X1 Y1] & w2 & t2 & t2' & H2 & H & ->) | (e & H2 & ->)].
  - apply (do_inv (Est_predict est X1)) in H as (_ & ->).
    unfold transform in H2.
    apply bind_inv_Ok in H2 as (X_ & w3 & t3 & t3' & H3 & H2 & ->).
    apply do_inv in H3 as (_ & ->).
    apply bind_inv_Ok in H2 as (Y_ & w4 & t4 & t4' & H4 & H2 & ->).
    apply do_inv in H4 as (_ & ->).
    pose proof (transform_loop_flow self (blocks self) X_ Y_ w4) as [Hf Hh].
    cbn zeta in Hf, Hh. rewrite H2 in Hf, Hh. cbn in Hf, Hh.
    specialize (Hh (X1, Y1) eq_refl). cbn in Hh.
    split.
    + cbn. split; [reflexivity |]. split; [reflexivity |].
      apply features_flow_app; [exact Hf |]. rewrite Hh. cbn. auto.
    + intros p ->. exists est.
      exists (Entry (Copy_X X) (Ok X0) :: Entry (Copy_X X0) (Ok X_)
              :: Entry (Copy_Y pd_DataFrame) (Ok Y_) :: t4').
      split; [reflexivity |]. cbn. rewrite Hh. reflexivity.
  - split; [| discriminate].
    unfold transform in H2.
    apply bind_inv in H2 as [(X_ & w3 & t3 & t3' & H3 & H2 & ->) | (e3 & H3 & _)];
      apply do_inv in H3 as (_ & ->); [| repeat split].
    apply bind_inv in H2 as [(Y_ & w4 & t4 & t4' & H4 & H2 & ->) | (e4 & H4 & _)];
      apply do_inv in H4 as (_ & ->); [| repeat split].
    pose proof (transform_loop_flow self (blocks self) X_ Y_ w4) as [Hf _].
    cbn zeta in Hf. rewrite H2 in Hf. cbn in Hf.
    cbn. split; [reflexivity |]. split; [reflexivity |]. exact Hf.
Qed.

End Flow.

Section EmptyTarget.
Context {PO : PyObjects} {RT : Runtime}.
Context {C : Type} (cell : W -> frame -> option C) (is_empty : C -> bool).

Hypothesis footprint : footprint_respected cell.
Hypothesis reads : reads_respected cell.
Hypothesis copies : copy_respected cell.
Hypothesis empties : empty_respected cell is_empty.

Lemma empty_at_step c w Y :
  chain_call c = true ->
  read_only c = true \/ ~ In (inr Y) (frame_args c) ->
  empty_at cell is_empty w Y -> empty_at cell is_empty (snd (handle c w)) Y.
Proof.
  intros Hc Hargs (c0 & Hcell & Hemp). exists c0. split; [| exact Hemp].
  rewrite <- Hcell. destruct Hargs as [Hro | Hnot].
  - apply reads; [exact Hro | congruence].
  - apply footprint; [exact Hc | congruence | exact Hnot].
Qed.

(** With an empty target at hand, a stage is asked for its [transform]
    only, and the target stays. *)
Lemma _transform_empty self b X Y w :
  empty_at cell is_empty w Y ->
  let r := _transform self b X Y w in
  empty_at cell is_empty (world_of r) Y /\
  Forall (fun e => stage_features_call (e_call e) = true) (trace_of r) /\
  forall xy, result_of r = Ok xy -> snd xy = Y.
Proof.
  intros HY. cbn zeta. unfold _transform.
  pose proof (empty_at_step (Block_transform b X) w Y eq_refl) as H1.
  assert (HY1 : empty_at cell is_empty (snd (handle (Block_transform b X) w)) Y).
  { apply H1; [| exact HY]. right. cbn. intros [Hin | []]. discriminate Hin. }
  destruct (fst (handle (Block_transform b X) w)) as [X1 | e] eqn:Ht.
  - rewrite (bind_do_Ok _ _ _ _ Ht).
    set (w1 := snd (handle (Block_transform b X) w)) in *.
    destruct HY1 as (c0 & Hcell & Hemp).
    pose proof (empties Y w1 c0 Hcell) as Hans. rewrite Hemp in Hans.
    rewrite (bind_do_Ok _ _ _ _ Hans). cbn.
    split; [| split].
    + apply (empty_at_step (Y_empty Y) w1 Y eq_refl (or_introl eq_refl)).
      exists c0. split; assumption.
    + repeat constructor.
    + intros xy Hxy. inversion Hxy. reflexivity.
  - rewrite (bind_do_Raise _ _ _ _ Ht). cbn.
    split; [exact HY1 | split; [repeat constructor | discriminate]].
Qed.

Lemma transform_loop_empty self bs :
  forall X Y w,
    empty_at cell is_empty w Y ->
    Forall (fun e => stage_features_call (e_call e) = true)
      (trace_of (transform_loop self bs X Y w)).
Proof.
  induction bs as [| b bs IH]; intros X Y w HY; cbn [transform_loop].
  - constructor.
  - destruct (_transform_empty self b X Y w HY) as (HY1 & Hcalls & Hsame).
    unfold bind.
    destruct (_transform self b X Y w) as [[[[X1 Y1] | e] w1] t1]; cbn in *.
    + specialize (Hsame (X1, Y1) eq_refl). cbn in Hsame. subst Y1.
      specialize (IH X1 Y w1 HY1).
      destruct (transform_loop self bs X1 Y w1) as [[r w2] t2]. cbn in *.
      apply Forall_app. split; assumption.
    + exact Hcalls.
Qed.

Lemma stage_features_calls t :
  Forall (fun e => stage_features_call (e_call e) = true) t ->
  Forall (fun e => features_call (e_call e) = true) t /\ omap copied_target t = [].
Proof.
  induction 1 as [| e t He _ [IH1 IH2]]; [split; [constructor | reflexivity] |].
  split.
  - constructor; [| exact IH1]. destruct (e_call e); try discriminate He; reflexivity.
  - cbn. unfold copied_target at 1.
    destruct (e_call e); try discriminate He; exact IH2.
Qed.

(** [predict] hands the stages a copy of the empty default target and so
    never asks for a [target_transform]. *)
Lemma predict_empty self X w r w' t :
  empty_at cell is_empty w pd_DataFrame ->
  predict self X w = (r, w', t) ->
  Forall (fun e => features_call (e_call e) = true) t /\
  omap copied_target t `prefix_of` [pd_DataFrame].
Proof.
  intros HY. unfold predict.
  destruct (estimator self) as [est |].
  2: { intros H. injection H as <- <- <-. split; [constructor | apply prefix_nil]. }
  intros H.
  apply bind_inv in H as [(X0 & w1 & t1 & t1' & H1 & H & ->) | (e & H1 & ->)];
    apply do_inv in H1 as (Hh1 & ->);
    [| split; [repeat constructor | apply prefix_nil]].
  pose proof (empty_at_step (Copy_X X) w _ eq_refl (or_introl eq_refl) HY) as HY1.
  rewrite Hh1 in HY1. cbn in HY1.
  assert (Htr : forall r2 w2 t2,
            transform self X0 pd_DataFrame w1 = (r2, w2, t2) ->
            Forall (fun e => features_call (e_call e) = true) t2 /\
            omap copied_target t2 `prefix_of` [pd_DataFrame]).
  { clear H. intros r2 w2 t2 H2. unfold transform in H2.
    apply bind_inv in H2 as [(X_ & w3 & t3 & t3' & H3 & H2 & ->) | (e3 & H3 & _)];
      apply do_inv in H3 as (Hh3 & ->);
      [| split; [repeat constructor | apply prefix_nil]].
    pose proof (empty_at_step (Copy_X X0) w1 _ eq_refl (or_introl eq_refl) HY1) as HY3.
    rewrite Hh3 in HY3. cbn in HY3.
    apply bind_inv in H2 as [(Y_ & w4 & t4 & t4' & H4 & H2 & ->) | (e4 & H4 & _)];
      apply do_inv in H4 as (Hh4 & ->);
      [| split; [repeat constructor | reflexivity]].
    assert (HY4 : empty_at cell is_empty w4 Y_).
    { destruct HY3 as (c0 & Hcell & Hemp). exists c0. split; [| exact Hemp].
      pose proof (copies pd_DataFrame w3 Y_) as Hc. rewrite Hh4 in Hc.
      cbn in Hc. rewrite (Hc eq_refl). exact Hcell. }
    pose proof (transform_loop_empty self (blocks self) X_ Y_ w4 HY4) as Hloop.
    rewrite H2 in Hloop. cbn in Hloop.
    apply stage_features_calls in Hloop as [Hl1 Hl2].
    split.
    - constructor; [reflexivity |]. constructor; [reflexivity | exact Hl1].
    - cbn. rewrite Hl2. reflexivity. }
  apply bind_inv in H as [([X1 Y1] & w2 & t2 & t2' & H2 & H & ->) | (e & H2 & ->)].
  - apply (do_inv (Est_predict est X1)) in H as (_ & ->).
    destruct (Htr _ _ _ H2) as [Hc Hp].
    split.
    + constructor; [reflexivity |]. apply Forall_app. split; [exact Hc |].
      repeat constructor.
    + cbn. rewrite omap_app. cbn. rewrite app_nil_r. exact Hp.
  - destruct (Htr _ _ _ H2) as [Hc Hp].
    split; [constructor; [reflexivity | exact Hc] | exact Hp].
Qed.

End EmptyTarget.

(** C10. [predict] hands [transform] the empty default target.  Provided
    that default is an empty table, that the copy of a target has the
    target's content, that [Y.empty] tells whether the content is empty,
    and that no call changes a table it is not handed, [predict] makes no
    call other than [copy], a stage's [transform], [Y.empty] and the
    estimator's [predict]: it asks no stage for [target_transform] (nor
    [dir] for it), copies no target but the default, and the estimator
    predicts on the table that [X] became through the copies and the
    stages' [transform]s.  The record of [predict] is [X.copy()], then the
    [transform] of that copy with the default target, following the
    protocol of the stage chain, then the estimator's [predict] on the
    features that [transform] returned; when [predict] returns, the
    [transform] of every stage has been called, in the order of
    [self.blocks]. *)
Theorem predict_needs_no_target `{RT : Runtime} {C : Type}
    (cell : W -> frame -> option C) (is_empty : C -> bool)
    (self : Conveyor) (X : XR) (w : W) :
  footprint_respected cell -> reads_respected cell ->
  copy_respected cell -> empty_respected cell is_empty ->
  empty_at cell is_empty w pd_DataFrame ->
  let t := trace_of (predict self X w) in
  Forall (fun e => features_call (e_call e) = true) t /\
  Forall (fun e => is_target_call (e_call e) = false) t /\
  omap target_transformed t = [] /\
  omap copied_target t `prefix_of` [pd_DataFrame] /\
  features_flow X t /\
  (forall p, result_of (predict self X w) = Ok p ->
     exists est t0,
       estimator self = Some est /\
       t = t0 ++ [Entry (Est_predict est (at_hand X t0)) (Ok p)]) /\
  (forall est,
     estimator self = Some est ->
     predict_protocol (blocks self) est X (result_of (predict self X w)) t) /\
  (forall p, result_of (predict self X w) = Ok p -> omap transformed t = blocks self).
Proof.
  intros Hfoot Hreads Hcopy Hempty Hdefault. cbn zeta.
  assert (Hproto : forall est,
            estimator self = Some est ->
            predict_protocol (blocks self) est X (result_of (predict self X w))
              (trace_of (predict self X w))).
  { intros est Hest. eapply predict_follows_protocol; [exact Hest | apply run_eta]. }
  assert (Hall : forall p, result_of (predict self X w) = Ok p ->
                   omap transformed (trace_of (predict self X w)) = blocks self).
  { intros p Hp. eapply (predict_completed self X w p).
    rewrite (run_eta (predict self X) w) at 1. rewrite Hp. reflexivity. }
  pose proof (run_eta (predict self X) w) as Hrun.
  destruct (predict_empty cell is_empty Hfoot Hreads Hcopy Hempty self X w _ _ _
              Hdefault Hrun) as [Hcalls Hcopied].
  destruct (predict_flow self X w _ _ _ Hrun) as [Hflow Hlast].
  assert (Hnot : Forall (fun e => is_target_call (e_call e) = false)
                   (trace_of (predict self X w))).
  { eapply List.Forall_impl; [| exact Hcalls]. cbn. intros e He.
    destruct (e_call e); try discriminate He; reflexivity. }
  repeat match goal with |- _ /\ _ => split end; try assumption.
  clear -Hnot. induction Hnot as [| e t He _ IHt]; [reflexivity |].
  cbn. unfold target_transformed at 1.
  destruct (e_call e); try discriminate He; exact IHt.
Qed.

(** ** Fitted stages applied again *)

Section Refit.
Context {PO : PyObjects} {RT : Runtime}.

(** The state of a stage object, and what its methods compute from it. *)
Context {S : Type} (state_of : W -> BR -> S).
Context (transform_of : S -> XR -> outcome XR).
Context (target_transform_of : S -> YR -> outcome YR).
Context (dir_of : S -> bool).
Context (empty_of : YR -> bool).

(** What a stage in state [s] makes of [(X, Y)]. *)
Definition apply_stage (s : S) (X : XR) (Y : YR) : outcome (XR * YR) :=
  match transform_of s X with
  | Ok X1 =>
      if negb (empty_of Y) then
        if dir_of s then
          match target_transform_of s Y with
          | Ok Y1 => Ok (X1, Y1)
          | Raise e => Raise e
          end
        else Ok (X1, Y)
      else Ok (X1, Y)
  | Raise e => Raise e
  end.

(** What the stages [bs], in the states [st], make of [(X, Y)]. *)
Fixpoint apply_stages (st : BR -> S) (bs : list BR) (X : XR) (Y : YR)
    : outcome (XR * YR) :=
  match bs with
  | [] => Ok (X, Y)
  | b :: bs' =>
      match apply_stage (st b) X Y with
      | Ok (X1, Y1) => apply_stages st bs' X1 Y1
      | Raise e => Raise e
      end
  end.

Lemma apply_stages_ext st1 st2 bs :
  (forall b, In b bs -> st1 b = st2 b) ->
  forall X Y, apply_stages st1 bs X Y = apply_stages st2 bs X Y.
Proof.
  induction bs as [| b bs IH]; intros Hst X Y; [reflexivity |].
  cbn. rewrite (Hst b (or_introl eq_refl)).
  destruct (apply_stage (st2 b) X Y) as [[X1 Y1] | e]; [| reflexivity].
  apply IH. intros b0 Hb0. apply Hst. right. exact Hb0.
Qed.

Hypothesis values : tables_are_values empty_of.

Lemma _transform_pure self b X Y w :
  pure_stage state_of transform_of target_transform_of dir_of b ->
  result_of (_transform self b X Y w) = apply_stage (state_of w b) X Y /\
  world_of (_transform self b X Y w) = w.
Proof.
  intros (Htr & Htt & Hdir). destruct values as (_ & _ & Hemp).
  unfold _transform, apply_stage, bind, do.
  rewrite Htr. destruct (transform_of (state_of w b) X) as [X1 | e]; cbn; [| auto].
  rewrite Hemp. cbn. destruct (empty_of Y); cbn; [auto |].
  rewrite Hdir. cbn. destruct (dir_of (state_of w b)); cbn; [| auto].
  rewrite Htt. destruct (target_transform_of (state_of w b) Y); cbn; auto.
Qed.

Lemma transform_loop_pure self bs :
  (forall b, In b bs -> pure_stage state_of transform_of target_transform_of dir_of b) ->
  forall X Y w,
    result_of (transform_loop self bs X Y w) = apply_stages (state_of w) bs X Y /\
    world_of (transform_loop self bs X Y w) = w.
Proof.
  induction bs as [| b bs IH]; intros Hpure X Y w; cbn [transform_loop apply_stages].
  - auto.
  - destruct (_transform_pure self b X Y w (Hpure b (or_introl eq_refl))) as [Hr Hw].
    unfold bind.
    destruct (_transform self b X Y w) as [[[[X1 Y1] | e] w1] t1]; cbn in *.
    + subst w1. rewrite <- Hr.
      destruct (IH (fun b0 Hb0 => Hpure b0 (or_intror Hb0)) X1 Y1 w) as [IHr IHw].
      destruct (transform_loop self bs X1 Y1 w) as [[r w2] t2]. cbn in *. auto.
    + rewrite <- Hr. auto.
Qed.

(** After the loop of [fit_transform], the stages of the loop, in the
    states they are left in, make of the input what the loop made of it, and
    the other stages are in the state they were in. *)
Lemma fit_transform_loop_pure self pbar all bs :
  (forall b, In b all -> pure_stage state_of transform_of target_transform_of dir_of b) ->
  (forall b, In b all -> fits_in_place state_of all b) ->
  bystanders state_of all ->
  incl bs all -> NoDup bs ->
  forall X Y w xy w' t,
    fit_transform_loop self pbar bs X Y w = (Ok xy, w', t) ->
    apply_stages (state_of w') bs X Y = Ok xy /\
    forall b, In b all -> ~ In b bs -> state_of w' b = state_of w b.
Proof.
  intros Hpure Hfit Hby.
  induction bs as [| b bs IH]; intros Hincl Hnd X Y w xy w' t;
    cbn [fit_transform_loop apply_stages].
  - intros H. apply ret_inv in H as (H & -> & _). injection H as <-. auto.
  - intros H.
    assert (Hb : In b all) by (apply Hincl; left; reflexivity).
    assert (Hincl' : incl bs all) by (intros b0 Hb0; apply Hincl; right; exact Hb0).
    apply NoDup_cons in Hnd as [Hnotin Hnd].
    rewrite list_elem_of_In in Hnotin.
    apply bind_inv_Ok in H as (u & w1 & t1 & t1' & H1 & H & ->).
    apply do_inv in H1 as (H1 & _).
    apply bind_inv_Ok in H as (b' & w2 & t2 & t2' & H2 & H & ->).
    apply do_inv in H2 as (H2 & _).
    apply bind_inv_Ok in H as ([X1 Y1] & w3 & t3 & t3' & H3 & H & ->).
    apply bind_inv_Ok in H as (u' & w4 & t4 & t4' & H4 & H & ->).
    apply do_inv in H4 as (H4 & _).
    destruct (Hfit b Hb X Y w1 b' w2 H2) as [-> Hothers].
    destruct (_transform_pure self b X Y w2 (Hpure b Hb)) as [Hr Hw].
    rewrite H3 in Hr, Hw. cbn in Hr, Hw. subst w3.
    destruct (IH Hincl' Hnd X1 Y1 w4 xy w' t4' H) as [IHr IHst].
    assert (Hw1 : forall b0, In b0 all -> state_of w1 b0 = state_of w b0).
    { intros b0 Hb0.
      pose proof (Hby (Pbar_set_postfix pbar "transform" (block_class_name b)) w b0
                    eq_refl Hb0) as E.
      rewrite H1 in E. exact E. }
    assert (Hw4 : forall b0, In b0 all -> state_of w4 b0 = state_of w2 b0).
    { intros b0 Hb0.
      pose proof (Hby (Pbar_update pbar) w2 b0 eq_refl Hb0) as E.
      rewrite H4 in E. exact E. }
    split.
    + rewrite (IHst b Hb Hnotin), (Hw4 b Hb).
      rewrite <- Hr. exact IHr.
    + intros b0 Hb0 Hn.
      assert (b0 <> b) by (intros ->; apply Hn; left; reflexivity).
      rewrite (IHst b0 Hb0), (Hw4 b0 Hb0), (Hothers b0 Hb0), (Hw1 b0 Hb0); auto.
      intros Hin. apply Hn. right. exact Hin.
Qed.

End Refit.

(** C8 (as amended). For a pipeline whose stage objects are pairwise
    distinct, whose [fit] returns the stage itself and changes the state of
    no other stage, and whose [transform] and [target_transform] (and the
    declaration of the latter) are functions of the state of the stage,
    tables being values: [transform] on the input of a completed
    [fit_transform] returns what [fit_transform] returned. *)
Theorem transform_repeats_fit_transform `{RT : Runtime} {S : Type}
    (state_of : W -> BR -> S) (transform_of : S -> XR -> outcome XR)
    (target_transform_of : S -> YR -> outcome YR) (dir_of : S -> bool)
    (empty_of : YR -> bool)
    (self : Conveyor) (X : XR) (Y : YR) (estimator_ : bool) (w : W)
    (X' : XR) (Y' : YR) (w' : W) (t : list entry) :
  tables_are_values empty_of ->
  (forall b, In b (blocks self) ->
     pure_stage state_of transform_of target_transform_of dir_of b) ->
  (forall b, In b (blocks self) -> fits_in_place state_of (blocks self) b) ->
  bystanders state_of (blocks self) ->
  NoDup (blocks self) ->
  fit_transform self X Y estimator_ w = (Ok (X', Y'), w', t) ->
  result_of (transform self X Y w') = Ok (X', Y').
Proof.
  intros Hval Hpure Hfit Hby Hnd H.
  pose proof Hval as (HcX & HcY & _).
  unfold fit_transform in H.
  apply bind_inv_Ok in H as (X_ & wa & ta & ta' & Ha & H & ->).
  apply do_inv in Ha as (Ha & _). rewrite HcX in Ha. injection Ha as <- <-.
  apply bind_inv_Ok in H as (Y_ & wb & tb & tb' & Hb & H & ->).
  apply do_inv in Hb as (Hb & _). rewrite HcY in Hb. injection Hb as <- <-.
  apply bind_inv_Ok in H as (pbar & wc & tc & tc' & Hc & H & ->).
  apply do_inv in Hc as (Hc & _).
  apply bind_inv_Ok in H as ([X1 Y1] & wd & td & td' & Hd & H & ->).
  destruct (fit_transform_loop_pure state_of transform_of target_transform_of dir_of
              empty_of Hval self pbar (blocks self) (blocks self) Hpure Hfit Hby
              (incl_refl _) Hnd X Y wc (X1, Y1) wd td Hd) as [Hloop _].
  assert (Hend : (X1, Y1) = (X', Y') /\
                 forall b, In b (blocks self) -> state_of w' b = state_of wd b).
  { destruct estimator_.
    - apply bind_inv_Ok in H as (u & we & te & te' & He & H & ->).
      apply do_inv in He as (He & _).
      destruct (estimator self) as [est |]; [| discriminate H].
      apply bind_inv_Ok in H as (u1 & wf & tf & tf' & Hf & H & ->).
      apply do_inv in Hf as (Hf & _).
      apply bind_inv_Ok in H as (u2 & wg & tg & tg' & Hg & H & ->).
      apply do_inv in Hg as (Hg & _).
      apply ret_inv in H as (H & -> & _). injection H as <- <-.
      split; [reflexivity |]. intros b Hb.
      pose proof (Hby (Pbar_update pbar) wf b eq_refl Hb) as E1.
      rewrite Hg in E1. cbn in E1. rewrite E1.
      pose proof (Hby (Est_fit est X' Y' None None) we b eq_refl Hb) as E2.
      rewrite Hf in E2. cbn in E2. rewrite E2.
      pose proof (Hby (Pbar_set_postfix pbar "transform" (estimator_class_name self))
                    wd b eq_refl Hb) as E3.
      rewrite He in E3. exact E3.
    - apply ret_inv in H as (H & -> & _). injection H as <- <-.
      split; reflexivity. }
  destruct Hend as [Hxy Hst]. injection Hxy as <- <-.
  unfold transform, bind, do. rewrite HcX, HcY. cbn.
  destruct (transform_loop_pure state_of transform_of target_transform_of dir_of
              empty_of Hval self (blocks self) Hpure X Y w') as [Hr _].
  destruct (transform_loop self (blocks self) X Y w') as [[r w2] t2]. cbn in *.
  rewrite Hr, <- Hloop. apply apply_stages_ext. exact Hst.
Qed.

(** * The properties on the concrete environments *)

(** ** Tables as objects *)

Section ShelfFacts.
Import Shelf.

Lemma shelf_lookup_kept {A} (l : list A) (x : A) (i : nat) :
  l !! i <> None -> (l ++ [x]) !! i = l !! i.
Proof.
  intros H. apply lookup_app_l. apply lookup_lt_is_Some.
  destruct (l !! i); [eauto | congruence].
Qed.

Lemma shelf_footprint : footprint_respected cell.
Proof.
  intros c w l Hc Hl Hn.
  destruct c; try discriminate Hc; cbn in *; try reflexivity.
  - destruct (features w !! X); cbn; [| reflexivity].
    destruct l as [x | y]; cbn in *; [| reflexivity].
    apply shelf_lookup_kept. exact Hl.
  - destruct (targets w !! Y); cbn; [| reflexivity].
    destruct l as [x | y]; cbn in *; [reflexivity |].
    apply shelf_lookup_kept. exact Hl.
  - destruct (targets w !! Y); reflexivity.
  - destruct (features w !! X); cbn; [| reflexivity].
    destruct l as [x | y]; cbn in *; [| reflexivity].
    apply list_lookup_insert_ne. intros ->. apply Hn. left. reflexivity.
  - destruct (targets w !! Y); cbn; [| reflexivity].
    destruct l as [x | y]; cbn in *; [reflexivity |].
    apply list_lookup_insert_ne. intros ->. apply Hn. left. reflexivity.
  - destruct (features w !! X); reflexivity.
Qed.

Lemma shelf_reads : reads_respected cell.
Proof.
  intros c w l Hc Hl.
  destruct c; try discriminate Hc; cbn in *.
  - destruct (features w !! X); cbn; [| reflexivity].
    destruct l as [x | y]; cbn in *; [| reflexivity].
    apply shelf_lookup_kept. exact Hl.
  - destruct (targets w !! Y); cbn; [| reflexivity].
    destruct l as [x | y]; cbn in *; [reflexivity |].
    apply shelf_lookup_kept. exact Hl.
  - destruct (targets w !! Y); reflexivity.
Qed.

Lemma shelf_returns : returns_respected cell.
Proof.
  intros c w r l Hc Hr Hl.
  destruct c; try discriminate Hc; cbn in *; try (destruct Hl; fail).
  - destruct (features w !! X); [| discriminate Hr].
    cbn in Hr. injection Hr as <-. destruct Hl as [<- | []].
    right. cbn. apply lookup_ge_None_2. reflexivity.
  - destruct (targets w !! Y); [| discriminate Hr].
    cbn in Hr. injection Hr as <-. destruct Hl as [<- | []].
    right. cbn. apply lookup_ge_None_2. reflexivity.
  - destruct (features w !! X); [| discriminate Hr].
    cbn in Hr. injection Hr as <-. destruct Hl as [<- | []].
    left. split; [reflexivity | left; reflexivity].
  - destruct (targets w !! Y); [| discriminate Hr].
    cbn in Hr. injection Hr as <-. destruct Hl as [<- | []].
    left. split; [reflexivity | left; reflexivity].
Qed.

Lemma shelf_copies : copy_respected cell.
Proof.
  intros Y w Y' H. cbn in *.
  destruct (targets w !! Y) as [content |] eqn:HY; [| discriminate H].
  cbn in *. injection H as <-. apply list_lookup_middle. reflexivity.
Qed.

Lemma shelf_empties : empty_respected cell is_empty.
Proof.
  intros Y w c0 H. cbn in *. rewrite H. reflexivity.
Qed.

End ShelfFacts.

Section ShelfRuns.
Import Shelf.

(** The caller's tables after [fit_transform] on the store: the stages
    changed the copies in place, not the originals. *)
Lemma fit_transform_works_on_copies_witness :
  footprint_respected cell /\ reads_respected cell /\ returns_respected cell /\
  cell w0 (inl 0) <> None /\ cell w0 (inr 1) <> None /\
  result_of (fit_transform pipeline 0 1 true w0) = Ok (1, 2) /\
  cell (world_of (fit_transform pipeline 0 1 true w0)) (inl 0) = Some [3; 5; 8]%Z /\
  cell (world_of (fit_transform pipeline 0 1 true w0)) (inr 1) = Some [1; 0; 1]%Z /\
  cell (world_of (fit_transform pipeline 0 1 true w0)) (inl 1) = Some [6; 8; 11]%Z /\
  cell (world_of (transform pipeline 0 1 w0)) (inl 0) = Some [3; 5; 8]%Z /\
  length (List.filter reports_progress (trace_of (fit_transform pipeline 0 1 true w0)))
  = 3.
Proof.
  assert (HX : cell w0 (inl 0) <> None) by discriminate.
  assert (HY : cell w0 (inr 1) <> None) by discriminate.
  destruct (fit_transform_works_on_copies (RT := runtime) cell pipeline 0 1 true w0
              shelf_footprint shelf_reads shelf_returns HX HY)
    as (_ & HfX & HfY & _ & HtX & _ & Hprogress).
  destruct (Hprogress (1, 2) _ _ eq_refl) as (_ & _ & Hcount).
  split; [exact shelf_footprint |].
  split; [exact shelf_reads |].
  split; [exact shelf_returns |].
  split; [exact HX |].
  split; [exact HY |].
  split; [reflexivity |].
  split; [exact (eq_trans HfX eq_refl) |].
  split; [exact (eq_trans HfY eq_refl) |].
  split; [reflexivity |].
  split; [exact (eq_trans HtX eq_refl) |].
  exact (eq_trans Hcount eq_refl).
Defined.

(** [predict] on the store: the default target is copied, found empty at
    every stage, and no [target_transform] is asked for. *)
Lemma predict_needs_no_target_witness :
  footprint_respected cell /\ reads_respected cell /\
  copy_respected cell /\ empty_respected cell is_empty /\
  empty_at cell is_empty w0 pd_DataFrame /\
  result_of (predict pipeline 0 w0) = Ok [6; 8; 11]%Z /\
  omap target_transformed (trace_of (predict pipeline 0 w0)) = [] /\
  Forall (fun e => features_call (e_call e) = true) (trace_of (predict pipeline 0 w0)) /\
  omap transformed (trace_of (predict pipeline 0 w0)) = blocks pipeline /\
  predict_protocol (blocks pipeline) tt 0 (result_of (predict pipeline 0 w0))
    (trace_of (predict pipeline 0 w0)).
Proof.
  assert (Hdefault : empty_at cell is_empty w0 pd_DataFrame).
  { exists []. split; reflexivity. }
  destruct (predict_needs_no_target (RT := runtime) cell is_empty pipeline 0 w0
              shelf_footprint shelf_reads shelf_copies shelf_empties Hdefault)
    as (Hcalls & _ & Hnone & _ & _ & _ & Hproto & Hall).
  split; [exact shelf_footprint |].
  split; [exact shelf_reads |].
  split; [exact shelf_copies |].
  split; [exact shelf_empties |].
  split; [exact Hdefault |].
  split; [reflexivity |].
  split; [exact Hnone |]. split; [exact Hcalls |].
  split; [exact (Hall _ eq_refl) | exact (Hproto tt eq_refl)].
Defined.

End ShelfRuns.

(** ** Tables as values *)

Section DemoFacts.
Import Demo.
Context (catalog : list (family * unit)).
Local Existing Instance Demo.objects.
Let rt : Runtime := Demo.runtime catalog.
Local Existing Instance rt.

Lemma demo_values : tables_are_values empty_of.
Proof. repeat split. Qed.

Lemma demo_pure b : pure_stage state_of transform_of target_transform_of dir_of b.
Proof.
  destruct b as [k i]. repeat split; cbn.
  intros Y w. destruct k; reflexivity.
Qed.

Lemma demo_fits_in_place b :
  In b (blocks pipeline) -> fits_in_place state_of (blocks pipeline) b.
Proof.
  intros [<- | [<- | []]] X Y w b' w' H; cbn in H; injection H as <- <-.
  - split; [reflexivity |].
    intros b0 [<- | [<- | []]] Hne; [congruence |].
    unfold state_of, offset_of. cbn. rewrite lookup_insert_ne; [reflexivity | lia].
  - split; reflexivity.
Qed.

Lemma demo_bystanders bs : bystanders state_of bs.
Proof.
  intros c w b Hc _. destruct c; try discriminate Hc; reflexivity.
Qed.

End DemoFacts.

Section DemoRuns.
Import Demo.
Local Existing Instance Demo.objects.

(** The pipeline of two stages fitted in place: [transform] repeats
    [fit_transform]. *)
Lemma transform_repeats_fit_transform_witness :
  tables_are_values (RT := runtime []) empty_of /\
  (forall b, In b (blocks pipeline) ->
     pure_stage (RT := runtime []) state_of transform_of target_transform_of dir_of b) /\
  (forall b, In b (blocks pipeline) ->
     fits_in_place (RT := runtime []) state_of (blocks pipeline) b) /\
  bystanders (RT := runtime []) state_of (blocks pipeline) /\
  NoDup (blocks pipeline) /\
  result_of (fit_transform (RT := runtime []) pipeline X10 Y10 true w0) = Ok (X10_, Y10_) /\
  result_of (transform (RT := runtime []) pipeline X10 Y10
               (world_of (fit_transform (RT := runtime []) pipeline X10 Y10 true w0)))
  = Ok (X10_, Y10_).
Proof.
  assert (Hnd : NoDup (blocks pipeline)).
  { repeat constructor; rewrite list_elem_of_In; cbn; intuition congruence. }
  split; [exact (demo_values []) |].
  split; [intros b _; exact (demo_pure [] b) |].
  split; [exact (demo_fits_in_place []) |].
  split; [exact (demo_bystanders [] _) |].
  split; [exact Hnd |].
  split; [reflexivity |].
  exact (transform_repeats_fit_transform (RT := runtime [])
           state_of transform_of target_transform_of dir_of empty_of
           pipeline X10 Y10 true w0 X10_ Y10_ _ _
           (demo_values []) (fun b _ => demo_pure [] b) (demo_fits_in_place [])
           (demo_bystanders [] _) Hnd
           (run_eta (fit_transform (RT := runtime []) pipeline X10 Y10 true) w0)).
Defined.

(** C8, as stated, fails: a stage whose [transform] is a function of its
    state but whose [fit] returns a new fitted object.  [fit_transform]
    transforms with the object that [fit] returned; [transform] then uses
    the object of [self.blocks], which was never fitted. *)
Lemma refitted_copy_is_not_kept :
  tables_are_values (RT := runtime []) empty_of /\
  pure_stage (RT := runtime []) state_of transform_of target_transform_of dir_of
    (Clone_center, 0) /\
  result_of (fit_transform (RT := runtime []) clone_pipeline [3; 5; 8]%Z [1; 0; 1]%Z
               false w0)
  = Ok ([0; 2; 5]%Z, [1; 0; 1]%Z) /\
  result_of (transform (RT := runtime []) clone_pipeline [3; 5; 8]%Z [1; 0; 1]%Z
               (world_of (fit_transform (RT := runtime []) clone_pipeline
                            [3; 5; 8]%Z [1; 0; 1]%Z false w0)))
  = Ok ([3; 5; 8]%Z, [1; 0; 1]%Z) /\
  result_of (transform (RT := runtime []) clone_pipeline [3; 5; 8]%Z [1; 0; 1]%Z
               (world_of (fit_transform (RT := runtime []) clone_pipeline
                            [3; 5; 8]%Z [1; 0; 1]%Z false w0)))
  <> result_of (fit_transform (RT := runtime []) clone_pipeline [3; 5; 8]%Z
                  [1; 0; 1]%Z false w0).
Proof.
  split; [exact (demo_values []) |].
  split; [exact (demo_pure [] _) |].
  split; [reflexivity |].
  split; [reflexivity |].
  vm_compute. discriminate.
Qed.

(** The same stage object twice in a pipeline also breaks it: the second
    [fit] changes the state that the first transformation used. *)
Example shared_stage_is_refitted :
  result_of (fit_transform (RT := runtime [])
               (mkConveyor [(Center, 0); (Center, 0)] None) [3; 5; 8]%Z [1; 0; 1]%Z
               false w0)
  = Ok ([0; 2; 5]%Z, [1; 0; 1]%Z) /\
  result_of (transform (RT := runtime [])
               (mkConveyor [(Center, 0); (Center, 0)] None) [3; 5; 8]%Z [1; 0; 1]%Z
               (world_of (fit_transform (RT := runtime [])
                            (mkConveyor [(Center, 0); (Center, 0)] None)
                            [3; 5; 8]%Z [1; 0; 1]%Z false w0)))
  = Ok ([3; 5; 8]%Z, [1; 0; 1]%Z).
Proof. split; reflexivity. Qed.

(** C9, as stated, fails: the line is not "name = value" but carries the
    label "function - " in front (and a line break at its end). *)
Lemma score_line_carries_a_label :
  result_of (_get_score (RT := runtime []) pipeline r2_score [1]%Z [50]%Z w0)
  = Ok ("function - r2_score = 0.50" +:+ nl) /\
  result_of (_get_score (RT := runtime []) pipeline r2_score [1]%Z [50]%Z w0)
  <> Ok "r2_score = 0.50" /\
  result_of (_get_score (RT := runtime []) pipeline r2_score [1]%Z [50]%Z w0)
  <> Ok ("r2_score = 0.50" +:+ nl) /\
  result_of (_get_score (RT := runtime []) pipeline roc_auc_score [1]%Z [50]%Z w0)
  = Ok ("function - roc_auc_score = ERROR: continuous format is not supported" +:+ nl) /\
  result_of (_get_score (RT := runtime []) pipeline roc_auc_score [1]%Z [50]%Z w0)
  <> Ok "roc_auc_score = ERROR: continuous format is not supported" /\
  result_of (_get_score (RT := runtime []) pipeline roc_auc_score [1]%Z [50]%Z w0)
  <> Ok ("roc_auc_score = ERROR: continuous format is not supported" +:+ nl).
Proof.
  repeat split; try reflexivity; vm_compute; discriminate.
Qed.

(** A report with one metric that returns and one that raises. *)
Example mixed_report :
  result_of (score (RT := runtime []) pipeline X10 Y10 ["r2_score"; "roc_auc_score"] []
               true w0)
  = Ok (Some ("function - r2_score = 0.50" +:+ nl
              +:+ "function - roc_auc_score = ERROR: continuous format is not supported"
              +:+ nl,
              map (fun _ => 50%Z) X10, Y10_)) /\
  error_lines ("function - r2_score = 0.50" +:+ nl
               +:+ "function - roc_auc_score = ERROR: continuous format is not supported"
               +:+ nl)
  = ["function - roc_auc_score = ERROR: continuous format is not supported"] /\
  value_lines ("function - r2_score = 0.50" +:+ nl
               +:+ "function - roc_auc_score = ERROR: continuous format is not supported"
               +:+ nl)
  = ["function - r2_score = 0.50"].
Proof. repeat split; vm_compute; reflexivity. Qed.

(** The line of [r2_score], whose name can be read. *)
Lemma get_score_line_witness :
  metric_name (Runtime := runtime []) r2_score = Ok "r2_score" /\
  result_of (_get_score (RT := runtime []) pipeline r2_score [1]%Z [50]%Z w0)
  = Ok ("function - r2_score = 0.50" +:+ nl).
Proof.
  split; [reflexivity |].
  exact (eq_trans
           (proj1 (get_score_line (RT := runtime []) pipeline r2_score [1]%Z [50]%Z w0
                     "r2_score" eq_refl))
           eq_refl).
Defined.

(** [score] on the demonstration pipeline with a name that resolves to a
    metric that raises, followed by [r2_score]: two lines.  With
    [functools.partial(r2_score)] in front of [r2_score]: the
    AttributeError of its [__name__], whether the report is to be returned
    or printed. *)
Lemma score_isolates_metrics_witness :
  exists w1 t1,
    score_predict (RT := runtime []) pipeline X10 Y10 w0
      = (Ok (Y10_, map (fun _ => 50%Z) X10), w1, t1) /\
    (forall name, In name ["roc_auc_score"] ->
       forall w', exists f,
         fst (handle (Runtime := runtime []) (Eval_name name) w') = Ok f /\
         has_name (RT := runtime []) f) /\
    Forall (has_name (RT := runtime [])) [r2_score] /\
    (exists w2 t2,
       score (RT := runtime []) pipeline X10 Y10 ["roc_auc_score"] [r2_score] true w0
       = (Ok (Some (report_of (RT := runtime []) (omap rating t2),
                    map (fun _ => 50%Z) X10, Y10_)), w2, t1 ++ t2) /\
       length (omap rating t2) = 2) /\
    (forall _return,
       result_of (score (RT := runtime []) pipeline X10 Y10 ["roc_auc_score"]
                    [partial_r2_score; r2_score] _return w0)
       = Raise (Exn "AttributeError"
                  "'functools.partial' object has no attribute '__name__'")).
Proof.
  eexists _, _.
  refine ((fun H1 H2 H3 =>
             conj H1 (conj H2 (conj H3 (conj
               (match proj1 (score_isolates_metrics (RT := runtime []) pipeline X10 Y10
                               ["roc_auc_score"] [r2_score] w0 _ _ _ _ H1 H2) H3
                with
                | ex_intro _ w2 (ex_intro _ t2
                    (conj Hs (conj _ (conj _ (conj _ (conj Hl _)))))) =>
                    ex_intro _ w2 (ex_intro _ t2 (conj Hs Hl))
                end)
               (match proj2 (score_isolates_metrics (RT := runtime []) pipeline X10 Y10
                               ["roc_auc_score"] [partial_r2_score; r2_score] w0
                               _ _ _ _ H1 H2)
                        [] partial_r2_score [r2_score] _ eq_refl (List.Forall_nil _) eq_refl
                with
                | ex_intro _ w2 (ex_intro _ t2 (conj Hs _)) =>
                    fun _return => f_equal result_of (Hs _return)
                end))))) _ _ _).
  - vm_compute. reflexivity.
  - intros name [<- | []] w'. exists roc_auc_score.
    split; [reflexivity | exists "roc_auc_score"; reflexivity].
  - repeat constructor. exists "r2_score". reflexivity.
Defined.

(** C2, at a list with a callable that has no [__name__]: the metric named
    before it raised and has its ERROR line, but [score] raises, and
    [r2_score], which comes after it, is not called. *)
Example nameless_metric_aborts_score :
  result_of (score (RT := runtime []) pipeline X10 Y10 ["roc_auc_score"]
               [partial_r2_score; r2_score] true w0)
  = Raise (Exn "AttributeError"
             "'functools.partial' object has no attribute '__name__'") /\
  map rating_metric
    (omap rating
       (trace_of (score (RT := runtime []) pipeline X10 Y10 ["roc_auc_score"]
                    [partial_r2_score; r2_score] true w0)))
  = [roc_auc_score] /\
  result_of (score (RT := runtime []) pipeline X10 Y10 ["roc_auc_score"]
               [r2_score] true w0)
  = Ok (Some ("function - roc_auc_score = ERROR: continuous format is not supported"
              +:+ nl +:+ "function - r2_score = 0.50" +:+ nl,
              map (fun _ => 50%Z) X10, Y10_)).
Proof. repeat split; vm_compute; reflexivity. Qed.

(** The generic-estimator track scores 0.83 against 0.81: its model becomes
    the estimator. *)
Lemma fit_model_keeps_strictly_better_witness :
  result_of (fit_model (RT := runtime [(Ridge, tt); (Forest, tt)]) pipeline X10 Y10
               None None "r2_score" ∅ [] w0)
  = Ok (mkConveyor (blocks pipeline) (Some Forest), Ok tt) /\
  exists lgb_model lgb_score tpot_model tpot_score,
    Some Forest
    = Some (if v_gt (Runtime := runtime [(Ridge, tt); (Forest, tt)]) tpot_score lgb_score
            then tpot_model else lgb_model).
Proof.
  assert (H : result_of (fit_model (RT := runtime [(Ridge, tt); (Forest, tt)]) pipeline
                           X10 Y10 None None "r2_score" ∅ [] w0)
              = Ok (mkConveyor (blocks pipeline) (Some Forest), Ok tt))
    by (vm_compute; reflexivity).
  split; [exact H |].
  destruct (fit_model_keeps_strictly_better (RT := runtime [(Ridge, tt); (Forest, tt)])
              pipeline X10 Y10 None None "r2_score" ∅ [] w0 _ _ H)
    as (func & X_train & Y_train & X_val & Y_val & w1 & w2 & t2 & lgb_model & lgb_score
        & tpot_model & tpot_score & result_lgb & result_tpot & _ & _ & _ & Hsel & _).
  exists lgb_model, lgb_score, tpot_model, tpot_score. exact Hsel.
Defined.

(** The champion for three catalogs: 0.83 against 0.81 (the
    generic-estimator track wins), a tie at 0.81 and 0.50 against 0.81 (the
    tree-ensemble track is kept). *)
Example champion_of_three_catalogs :
  result_of (fit_model (RT := runtime [(Ridge, tt); (Forest, tt)]) pipeline X10 Y10
               None None "r2_score" ∅ [] w0)
  = Ok (mkConveyor (blocks pipeline) (Some Forest), Ok tt) /\
  result_of (fit_model (RT := runtime [(Tied, tt)]) pipeline X10 Y10
               None None "r2_score" ∅ [] w0)
  = Ok (mkConveyor (blocks pipeline) (Some LGBMRegressor), Ok tt) /\
  result_of (fit_model (RT := runtime [(Ridge, tt)]) pipeline X10 Y10
               None None "r2_score" ∅ [] w0)
  = Ok (mkConveyor (blocks pipeline) (Some LGBMRegressor), Ok tt) /\
  omap rating (trace_of (fit_model (RT := runtime [(Tied, tt)]) pipeline X10 Y10
                           None None "r2_score" ∅ [] w0))
  = [(r2_score, [-1]%Z, [81]%Z, Ok (81 # 100));
     (r2_score, [-1]%Z, [81]%Z, Ok (81 # 100))].
Proof. repeat split; vm_compute; reflexivity. Qed.



(** C4: when every family of the catalog raises, [best_model] stays at its
    placeholder, the builtin [object], and line 218 raises:
    [fit_sklearn_model] raises instead of returning a result. *)
Theorem all_families_failing_raises :
  result_of (fit_sklearn_model (RT := runtime [(Broken, tt); (Broken, tt)])
               pipeline X10_ Y10_ [4]%Z [-1]%Z r2_score ∅ w0)
  = Raise (Exn "AttributeError" "'object' object has no attribute 'fit'") /\
  result_of (sklearn_search (RT := runtime [(Broken, tt); (Broken, tt)])
               X10_ Y10_ [4]%Z [-1]%Z r2_score
               (merge_params (RT := runtime [(Broken, tt); (Broken, tt)]) ∅)
               (mkBest Builtin_object ∅ 0%Q) w0)
  = Ok (mkBest Builtin_object ∅ 0%Q) /\
  result_of (fit_sklearn_model (RT := runtime []) pipeline X10_ Y10_ [4]%Z [-1]%Z
               r2_score ∅ w0)
  = Raise (Exn "AttributeError" "'object' object has no attribute 'fit'").
Proof. repeat split; vm_compute; reflexivity. Qed.

(** C5: without a test set, the tracks are trained on all ten transformed
    rows and validated on the last of them: the validation rows are rows of
    the training data, not held out from it. *)
Theorem validation_rows_are_training_rows :
  result_of (fit_model_data (RT := runtime [(Ridge, tt); (Forest, tt)]) pipeline X10 Y10
               None None w0)
  = Ok (X10_, Y10_, [4]%Z, [-1]%Z) /\
  skipn 9 X10_ = [4]%Z /\ skipn 9 Y10_ = [-1]%Z /\ In 4%Z X10_ /\
  omap optimizer_data
    (calls (trace_of (fit_model (RT := runtime [(Ridge, tt); (Forest, tt)]) pipeline
                        X10 Y10 None None "r2_score" ∅ [] w0)))
  = [(X10_, Y10_, [4]%Z, [-1]%Z); (X10_, Y10_, [4]%Z, [-1]%Z);
     (X10_, Y10_, [4]%Z, [-1]%Z)].
Proof.
  repeat split; try (vm_compute; reflexivity).
  vm_compute. tauto.
Qed.

End DemoRuns.

(** * Further properties *)

(** ** Runs without a handler *)

Section Propagation.
Context {PO : PyObjects} {RT : Runtime}.

(** Every run of [m] ends at the first call that raises. *)
Definition propagates {A} (m : M A) : Prop := forall w, ends_at_failure (m w).

Lemma propagates_ret {A} (a : A) : propagates (ret_ a).
Proof. intros w. constructor. Qed.

Lemma propagates_do c : propagates (do c).
Proof.
  intros w. unfold ends_at_failure, do.
  destruct (handle c w) as [[a | e] w1]; cbn.
  - constructor; [reflexivity | constructor].
  - exists [], c. split; [reflexivity | constructor].
Qed.

Lemma propagates_bind {A B} (m : M A) (k : A -> M B) :
  propagates m -> (forall a, propagates (k a)) -> propagates (bind m k).
Proof.
  intros Hm Hk w. specialize (Hm w). unfold ends_at_failure, bind in *.
  destruct (m w) as [[[a | e] w1] t1]; cbn in *; [| exact Hm].
  specialize (Hk a w1). destruct (k a w1) as [[[b | e] w2] t2]; cbn in *.
  - apply Forall_app. split; assumption.
  - destruct Hk as (t0 & c & -> & H0).
    exists (t1 ++ t0), c. split; [apply app_assoc |].
    apply Forall_app. split; assumption.
Qed.

(** A run that ends at its first failure and all of whose calls returned,
    returned. *)
Lemma answered_returns {A} (r : outcome A * W * list entry) :
  ends_at_failure r ->
  Forall (fun e => answered e = true) (trace_of r) ->
  exists a, result_of r = Ok a.
Proof.
  unfold ends_at_failure. destruct r as [[[a | e] w1] t1]; cbn.
  - intros _ _. exists a. reflexivity.
  - intros (t0 & c & -> & _) H. apply Forall_app in H as [_ H].
    inversion H as [| ? ? Hc _]. discriminate Hc.
Qed.

End Propagation.

Ltac propagation :=
  repeat match goal with
  | |- propagates (bind _ _) => apply propagates_bind; [| intros]
  | |- propagates (do ?c) => apply (propagates_do c)
  | |- propagates (ret_ _) => apply propagates_ret
  | |- propagates (if ?b then _ else _) => destruct b
  | |- propagates (let '(_, _) := ?p in _) => destruct p
  end.

Section ChainPropagation.
Context {PO : PyObjects} {RT : Runtime}.

Lemma _transform_propagates self b X Y : propagates (_transform self b X Y).
Proof. unfold _transform. propagation. Qed.

Lemma transform_loop_propagates self bs :
  forall X Y, propagates (transform_loop self bs X Y).
Proof.
  induction bs as [| b bs IH]; intros X Y; cbn [transform_loop].
  - apply propagates_ret.
  - apply propagates_bind; [apply _transform_propagates |].
    intros [X1 Y1]. apply IH.
Qed.

Lemma transform_propagates self X Y : propagates (transform self X Y).
Proof. unfold transform. propagation. apply transform_loop_propagates. Qed.

Lemma fit_transform_loop_propagates self pbar bs :
  forall X Y, propagates (fit_transform_loop self pbar bs X Y).
Proof.
  induction bs as [| b bs IH]; intros X Y; cbn [fit_transform_loop].
  - apply propagates_ret.
  - propagation; [apply _transform_propagates | apply IH].
Qed.

Lemma fit_transform_propagates self X Y estimator_ :
  estimator_ = false \/ estimator self <> None ->
  propagates (fit_transform self X Y estimator_).
Proof.
  intros Hest. unfold fit_transform.
  propagation; try apply fit_transform_loop_propagates.
  destruct (estimator self) as [est |]; [propagation |].
  destruct Hest as [Hest | Hest]; [discriminate Hest | contradiction].
Qed.

Lemma predict_propagates self X :
  estimator self <> None -> propagates (predict self X).
Proof.
  intros Hest. unfold predict.
  destruct (estimator self) as [est |]; [| contradiction].
  propagation. apply transform_propagates.
Qed.

End ChainPropagation.

(** X1. [transform] and [fit_transform] have no exception handler, and
    neither have [fit] and [predict] of a Conveyor with an estimator: every
    call of a run returned, but for the last one when the run raised, and
    the run raised what that call raised.  So the run stops at the first
    stage or estimator method that raises, and the exception reaches the
    caller unchanged. *)
Theorem chain_stops_at_first_failure `{RT : Runtime} (self : Conveyor) (X : XR)
    (Y : YR) (w : W) :
  ends_at_failure (transform self X Y w) /\
  ends_at_failure (fit_transform self X Y false w) /\
  (estimator self <> None ->
   ends_at_failure (fit_transform self X Y true w) /\
   ends_at_failure (fit self X Y w) /\
   ends_at_failure (predict self X w)).
Proof.
  split; [apply transform_propagates |].
  split; [apply fit_transform_propagates; left; reflexivity |].
  intros Hest.
  split; [apply fit_transform_propagates; right; exact Hest |].
  split; [| apply predict_propagates; exact Hest].
  unfold fit. apply propagates_bind; [| intros; apply propagates_ret].
  apply fit_transform_propagates. right. exact Hest.
Qed.


(** ** A Conveyor without an estimator *)

Section NoEstimator.
Context {PO : PyObjects} {RT : Runtime}.

Lemma answered_app t1 t2 :
  Forall (fun e => answered e = true) (t1 ++ t2) ->
  Forall (fun e => answered e = true) t1 /\ Forall (fun e => answered e = true) t2.
Proof. apply Forall_app. Qed.

Lemma not_answered {c : call} (e : exn) t :
  Forall (fun e => answered e = true) (Entry c (Raise e) :: t) -> False.
Proof. intros H. inversion H as [| ? ? Hc _]. discriminate Hc. Qed.

(** A run that ends at its first failure and raised has a call that did
    not return. *)
Lemma raised_not_answered {A} (r : outcome A * W * list entry) e t :
  ends_at_failure r -> result_of r = Raise e ->
  Forall (fun e => answered e = true) (trace_of r ++ t) -> False.
Proof.
  intros Hends Hr Hall. apply answered_app in Hall as [Hall _].
  destruct (answered_returns r Hends Hall) as [a Ha]. congruence.
Qed.

Lemma transform_calls_no_training t :
  Forall (fun e => transform_call (e_call e) = true) t ->
  omap trained t = [] /\ omap predicted t = [].
Proof.
  induction 1 as [| e t He _ [IH1 IH2]]; [split; reflexivity |].
  cbn. unfold trained at 1, predicted at 1.
  destruct (e_call e); try discriminate He; split; assumption.
Qed.

Lemma fit_transform_loop_no_training self pbar bs :
  forall X Y w, omap trained (trace_of (fit_transform_loop self pbar bs X Y w)) = [].
Proof.
  induction bs as [| b bs IH]; intros X Y w; cbn [fit_transform_loop]; [reflexivity |].
  unfold bind at 1, do. answer_call; [| reflexivity].
  unfold bind at 1, do. answer_call; [| reflexivity].
  unfold bind at 1.
  pose proof (_transform_only self a0 X Y w1) as Hcalls.
  apply transform_calls_no_training in Hcalls as [Hcalls _].
  destruct (_transform self a0 X Y w1) as [[[[X1 Y1] | e] w2] t2]; cbn in *;
    [| exact Hcalls].
  unfold bind at 1, do. answer_call; [| rewrite omap_app, Hcalls; reflexivity].
  specialize (IH X1 Y1 w3).
  destruct (fit_transform_loop self pbar bs X1 Y1 w3) as [[r w4] t4]; cbn in *.
  rewrite omap_app, Hcalls. cbn. exact IH.
Qed.

End NoEstimator.

(** X2. [fit] on a Conveyor without an estimator never returns and trains
    nothing.  When no call of the run raises, it raises the AttributeError
    of [None.fit], and does so only at the end: every stage has been
    fitted, in order, and progress has been reported once per stage. *)
Theorem fit_without_estimator `{RT : Runtime} (self : Conveyor) (X : XR) (Y : YR)
    (w : W) :
  estimator self = None ->
  (forall u, result_of (fit self X Y w) <> Ok u) /\
  omap trained (trace_of (fit self X Y w)) = [] /\
  (Forall (fun e => answered e = true) (trace_of (fit self X Y w)) ->
   result_of (fit self X Y w) = Raise (NoneType_has_no "fit") /\
   omap milestone_of (trace_of (fit self X Y w))
   = flat_map (fun b => [Stage_fitted b; Progress_reported]) (blocks self)).
Proof.
  intros Hnone.
  destruct (fit self X Y w) as [[r w'] t] eqn:Hrun. cbn.
  unfold fit in Hrun.
  apply bind_inv in Hrun as [(xy & w1 & t1 & t2 & H & _) | (e & H & ->)];
    unfold fit_transform in H.
  { exfalso.
    apply bind_inv_Ok in H as (X_ & wa & ta & ta' & Ha & H & ->).
    apply bind_inv_Ok in H as (Y_ & wb & tb & tb' & Hb & H & ->).
    apply bind_inv_Ok in H as (pbar & wc & tc & tc' & Hc & H & ->).
    apply bind_inv_Ok in H as ([X1 Y1] & wd & td & td' & Hd & H & ->).
    apply bind_inv_Ok in H as (u & we & te & te' & He & H & ->).
    rewrite Hnone in H. discriminate H. }
  split; [discriminate |].
  apply bind_inv in H as [(X_ & wa & ta & ta' & Ha & H & ->) | (e0 & Ha & He)];
    apply do_inv in Ha as (_ & ->);
    [| split; [reflexivity | intros Hall; destruct (not_answered _ _ Hall)]].
  apply bind_inv in H as [(Y_ & wb & tb & tb' & Hb & H & ->) | (e0 & Hb & He)];
    apply do_inv in Hb as (_ & ->);
    [| split; [reflexivity | intros Hall; apply answered_app in Hall as [_ Hall];
                             destruct (not_answered _ _ Hall)]].
  apply bind_inv in H as [(pbar & wc & tc & tc' & Hc & H & ->) | (e0 & Hc & He)];
    apply do_inv in Hc as (_ & ->);
    [| split; [reflexivity | intros Hall; do 2 apply answered_app in Hall as [_ Hall];
                             destruct (not_answered _ _ Hall)]].
  pose proof (fit_transform_loop_no_training self pbar (blocks self) X_ Y_ wc) as Htr.
  pose proof (fit_transform_loop_propagates self pbar (blocks self) X_ Y_ wc) as Hends.
  apply bind_inv in H as [([X1 Y1] & wd & td & td' & Hd & H & ->) | (e0 & Hd & He)];
    rewrite Hd in Htr, Hends; cbn in Htr.
  2: { split; [exact Htr |]. intros Hall. exfalso.
       do 3 apply answered_app in Hall as [_ Hall].
       apply (raised_not_answered _ e0 [] Hends eq_refl).
       cbn. rewrite app_nil_r. exact Hall. }
  apply fit_transform_loop_milestones in Hd as [Hm _].
  apply bind_inv in H as [(u & we & te & te' & He & H & ->) | (e0 & He & Hr)];
    apply do_inv in He as (_ & ->).
  2: { split; [cbn; rewrite omap_app, Htr; reflexivity |].
       intros Hall. exfalso.
       do 4 apply answered_app in Hall as [_ Hall].
       destruct (not_answered _ _ Hall). }
  rewrite Hnone in H. injection H as <- <- <-.
  split; [cbn; rewrite omap_app, Htr; reflexivity |].
  intros _. split; [reflexivity |].
  cbn. rewrite omap_app, Hm. cbn. apply app_nil_r.
Qed.

Section NoPrediction.
Context {PO : PyObjects} {RT : Runtime}.

(** A completed [transform] went through every stage. *)
Lemma transform_completed self X Y w xy w' t :
  transform self X Y w = (Ok xy, w', t) -> omap transformed t = blocks self.
Proof.
  unfold transform. intros H.
  apply bind_inv_Ok in H as (X_ & wa & ta & ta' & Ha & H & ->).
  apply do_inv in Ha as (_ & ->).
  apply bind_inv_Ok in H as (Y_ & wb & tb & tb' & Hb & H & ->).
  apply do_inv in Hb as (_ & ->).
  pose proof (transform_loop_record self (blocks self) X_ Y_ wb) as (_ & Hall & _).
  cbn zeta in Hall. rewrite H in Hall. exact (Hall xy eq_refl).
Qed.

End NoPrediction.

(** X3. On a Conveyor without an estimator, [predict] raises the
    AttributeError of [None.predict] at once: it calls nothing and changes
    nothing.  [score] never returns either, evaluates no metric and prints
    nothing; but it raises only after the transformation: when no call of
    the run raises, it has copied the tables and called [transform] on
    every stage before it raises the AttributeError. *)
Theorem no_estimator_no_prediction `{RT : Runtime} (self : Conveyor) (X : XR) (Y : YR)
    (sklearn_function : list string) (precision_function : list FR)
    (_return : bool) (w : W) :
  estimator self = None ->
  predict self X w = (Raise (NoneType_has_no "predict"), w, []) /\
  (forall u,
     result_of (score self X Y sklearn_function precision_function _return w) <> Ok u) /\
  Forall (fun e => transform_call (e_call e) = true)
    (trace_of (score self X Y sklearn_function precision_function _return w)) /\
  (Forall (fun e => answered e = true)
     (trace_of (score self X Y sklearn_function precision_function _return w)) ->
   result_of (score self X Y sklearn_function precision_function _return w)
   = Raise (NoneType_has_no "predict") /\
   omap transformed
     (trace_of (score self X Y sklearn_function precision_function _return w))
   = blocks self).
Proof.
  intros Hnone.
  split; [unfold predict; rewrite Hnone; reflexivity |].
  destruct (score self X Y sklearn_function precision_function _return w)
    as [[r w'] t] eqn:Hrun. cbn.
  unfold score in Hrun.
  apply bind_inv in Hrun as [([Y_ result] & w1 & t1 & t2 & H & _) | (e & H & ->)];
    unfold score_predict in H.
  { exfalso.
    apply bind_inv_Ok in H as (X0 & wa & ta & ta' & Ha & H & ->).
    apply bind_inv_Ok in H as (Y0 & wb & tb & tb' & Hb & H & ->).
    apply bind_inv_Ok in H as ([X1 Y1] & wc & tc & tc' & Hc & H & ->).
    rewrite Hnone in H. discriminate H. }
  split; [discriminate |].
  apply bind_inv in H as [(X0 & wa & ta & ta' & Ha & H & ->) | (e0 & Ha & He)];
    apply do_inv in Ha as (_ & ->).
  2: { split; [repeat constructor |].
       intros Hall. destruct (not_answered _ _ Hall). }
  apply bind_inv in H as [(Y0 & wb & tb & tb' & Hb & H & ->) | (e0 & Hb & He)];
    apply do_inv in Hb as (_ & ->).
  2: { split; [repeat constructor |].
       intros Hall. apply answered_app in Hall as [_ Hall].
       destruct (not_answered _ _ Hall). }
  pose proof (transform_only self X0 Y0 wb) as Honly.
  pose proof (transform_propagates self X0 Y0 wb) as Hends.
  apply bind_inv in H as [([X1 Y1] & wc & tc & tc' & Hc & H & ->) | (e0 & Hc & He)];
    rewrite Hc in Honly, Hends; cbn in Honly.
  2: { split; [repeat constructor; exact Honly |].
       intros Hall. exfalso.
       do 2 apply answered_app in Hall as [_ Hall].
       apply (raised_not_answered _ e0 [] Hends eq_refl).
       cbn. rewrite app_nil_r. exact Hall. }
  rewrite Hnone in H. injection H as <- <- <-.
  split.
  { repeat constructor. rewrite app_nil_r. exact Honly. }
  intros _. split; [reflexivity |].
  apply transform_completed in Hc. cbn. rewrite app_nil_r. exact Hc.
Qed.

(** ** What [fit_transform] hands over *)

Section Coupled.
Context {PO : PyObjects} {RT : Runtime}.

Lemma coupled_app t1 : forall X Y stage t2,
  coupled X Y stage t1 ->
  (let '(X1, Y1, stage1) := hand_after X Y stage t1 in coupled X1 Y1 stage1 t2) ->
  coupled X Y stage (t1 ++ t2).
Proof.
  induction t1 as [| [c a] t1 IH]; intros X Y stage t2 H1 H2; [exact H2 |].
  cbn in *.
  destruct c; try (apply IH; assumption);
    repeat match goal with
    | H : _ /\ _ |- _ => destruct H
    | |- _ /\ _ => split; [assumption |]
    end;
    try (destruct a; [apply IH; assumption | exact I]);
    apply IH; assumption.
Qed.

Lemma hand_after_app t1 : forall X Y stage t2,
  hand_after X Y stage (t1 ++ t2)
  = let '(X1, Y1, stage1) := hand_after X Y stage t1 in hand_after X1 Y1 stage1 t2.
Proof.
  induction t1 as [| [c a] t1 IH]; intros X Y stage t2; [reflexivity |].
  cbn. destruct c; try apply IH; destruct a; apply IH.
Qed.

Lemma _transform_coupled self b X Y w :
  let r := _transform self b X Y w in
  coupled X Y (Some b) (trace_of r) /\
  forall X1 Y1, result_of r = Ok (X1, Y1) ->
    hand_after X Y (Some b) (trace_of r) = (X1, Y1, Some b).
Proof.
  cbn zeta. unfold _transform, bind, do, ret_.
  answer_call; [| split; [repeat split | discriminate]].
  answer_call; [| split; [repeat split | discriminate]].
  destruct a0; cbn.
  { split; [repeat split |]. intros X1 Y1 [= <- <-]. reflexivity. }
  answer_call; [| split; [repeat split | discriminate]].
  destruct a0; cbn.
  - answer_call; (split; [repeat split |]);
      [intros X1 Y1 [= <- <-]; reflexivity | discriminate].
  - split; [repeat split |]. intros X1 Y1 [= <- <-]. reflexivity.
Qed.

Lemma fit_transform_loop_coupled self pbar bs :
  forall X Y stage w r w' t,
    fit_transform_loop self pbar bs X Y w = (r, w', t) ->
    coupled X Y stage t /\
    forall X1 Y1, r = Ok (X1, Y1) ->
      exists stage1, hand_after X Y stage t = (X1, Y1, stage1).
Proof.
  induction bs as [| b bs IH]; intros X Y stage w r w' t H; cbn [fit_transform_loop] in H.
  - apply ret_inv in H as (-> & _ & ->).
    split; [exact I |]. intros X1 Y1 [= <- <-]. exists stage. reflexivity.
  - apply bind_inv in H as [(u & w1 & t1 & t1' & H1 & H & ->) | (e & H1 & ->)];
      apply do_inv in H1 as (_ & ->); [| split; [exact I | discriminate]].
    apply bind_inv in H as [(b' & w2 & t2 & t2' & H2 & H & ->) | (e & H2 & ->)];
      apply do_inv in H2 as (_ & ->); [| split; [repeat split | discriminate]].
    change (ret (Block_fit b X Y)) with BR in *.
    pose proof (_transform_coupled self b' X Y w2) as [Hc Hh]. cbn zeta in Hc, Hh.
    apply bind_inv in H as [([X1 Y1] & w3 & t3 & t3' & H3 & H & ->) | (e & H3 & ->)];
      rewrite H3 in Hc, Hh; cbn in Hc, Hh;
      [| split; [repeat split; exact Hc | discriminate]].
    specialize (Hh X1 Y1 eq_refl).
    apply bind_inv in H as [(u' & w4 & t4 & t4' & H4 & H & ->) | (e & H4 & ->)];
      apply do_inv in H4 as (_ & ->).
    2: { split; [| discriminate]. repeat split.
         apply (coupled_app t3); [exact Hc |]. cbn [ret]. rewrite Hh. exact I. }
    apply (IH X1 Y1 (Some b')) in H as [IHc IHh].
    split.
    + repeat split. apply (coupled_app t3); [exact Hc |]. cbn [ret]. rewrite Hh. exact IHc.
    + intros X2 Y2 Hr. cbn. rewrite hand_after_app. cbn [ret]. rewrite Hh. cbn. apply IHh. exact Hr.
Qed.

End Coupled.

(** X4. In every run of [fit_transform], each stage's [fit] is handed the
    tables at hand: the copies of [X] and [Y] for the first stage, and for
    each later stage what the stages before it made of them.  The
    [transform] and the [target_transform] that follow a [fit] are called
    on the object that this [fit] returned, with the same tables at hand;
    the estimator's [fit] is handed the tables that the last stage left;
    and these are the tables that [fit_transform] returns. *)
Theorem fit_transform_hands_over_the_tables_at_hand `{RT : Runtime} (self : Conveyor)
    (X : XR) (Y : YR) (estimator_ : bool) (w : W) :
  coupled X Y None (trace_of (fit_transform self X Y estimator_ w)) /\
  forall X_ Y_,
    result_of (fit_transform self X Y estimator_ w) = Ok (X_, Y_) ->
    exists stage,
      hand_after X Y None (trace_of (fit_transform self X Y estimator_ w))
      = (X_, Y_, stage).
Proof.
  destruct (fit_transform self X Y estimator_ w) as [[r w'] t] eqn:H. cbn.
  unfold fit_transform in H.
  apply bind_inv in H as [(X0 & wa & ta & ta' & Ha & H & ->) | (e & Ha & ->)];
    apply do_inv in Ha as (_ & ->); [| split; [repeat split | discriminate]].
  apply bind_inv in H as [(Y0 & wb & tb & tb' & Hb & H & ->) | (e & Hb & ->)];
    apply do_inv in Hb as (_ & ->); [| split; [repeat split | discriminate]].
  apply bind_inv in H as [(pbar & wc & tc & tc' & Hc & H & ->) | (e & Hc & ->)];
    apply do_inv in Hc as (_ & ->); [| split; [repeat split | discriminate]].
  apply bind_inv in H as [([X1 Y1] & wd & td & td' & Hd & H & ->) | (e & Hd & ->)];
    apply (fit_transform_loop_coupled _ _ _ _ _ None) in Hd as [Hflow Hh];
    [| split; [repeat split; exact Hflow | discriminate]].
  destruct (Hh X1 Y1 eq_refl) as [stage1 Hstage].
  assert (Hrest : coupled X1 Y1 stage1 td' /\
                  forall X_ Y_, r = Ok (X_, Y_) ->
                    hand_after X1 Y1 stage1 td' = (X_, Y_, stage1)).
  { destruct estimator_.
    - apply bind_inv in H as [(u & we & te & te' & He & H & ->) | (e & He & ->)];
        apply do_inv in He as (_ & ->); [| split; [exact I | discriminate]].
      destruct (estimator self) as [est |].
      2: { injection H as <- <- <-. split; [exact I | discriminate]. }
      apply bind_inv in H as [(m & wf & tf & tf' & Hf & H & ->) | (e & Hf & ->)];
        apply do_inv in Hf as (_ & ->); [| split; [repeat split | discriminate]].
      apply bind_inv in H as [(u' & wg & tg & tg' & Hg & H & ->) | (e & Hg & ->)];
        apply do_inv in Hg as (_ & ->); [| split; [repeat split | discriminate]].
      apply ret_inv in H as (-> & _ & ->).
      split; [repeat split |]. intros X_ Y_ [= <- <-]. reflexivity.
    - apply ret_inv in H as (-> & _ & ->).
      split; [exact I |]. intros X_ Y_ [= <- <-]. reflexivity. }
  destruct Hrest as [Hrc Hrh].
  split.
  - repeat split. apply (coupled_app td); [exact Hflow |]. rewrite Hstage. exact Hrc.
  - intros X_ Y_ Hr. exists stage1. cbn. rewrite hand_after_app, Hstage.
    apply Hrh. exact Hr.
Qed.

(** X5. A completed [fit_transform(X, Y, estimator=True)] has fitted the
    estimator of the Conveyor exactly once, on the very tables it returns,
    without validation set or keyword argument; [fit] is that run, with
    [None] for result.  Without the flag, [fit_transform] never calls the
    estimator's [fit], whatever happens. *)
Theorem fit_trains_on_the_returned_tables `{RT : Runtime} (self : Conveyor) (X : XR)
    (Y : YR) (w : W) (X_ : XR) (Y_ : YR) (w' : W) (t : list entry) :
  fit_transform self X Y true w = (Ok (X_, Y_), w', t) ->
  (exists est,
     estimator self = Some est /\
     omap trained t = [(est, X_, Y_, None, None)]) /\
  fit self X Y w = (Ok tt, w', t) /\
  forall w0, omap trained (trace_of (fit_transform self X Y false w0)) = [].
Proof.
  intros H. split; [| split].
  - unfold fit_transform in H.
    apply bind_inv_Ok in H as (X0 & wa & ta & ta' & Ha & H & ->).
    apply do_inv in Ha as (_ & ->).
    apply bind_inv_Ok in H as (Y0 & wb & tb & tb' & Hb & H & ->).
    apply do_inv in Hb as (_ & ->).
    apply bind_inv_Ok in H as (pbar & wc & tc & tc' & Hc & H & ->).
    apply do_inv in Hc as (_ & ->).
    pose proof (fit_transform_loop_no_training self pbar (blocks self) X0 Y0 wc) as Htr.
    apply bind_inv_Ok in H as ([X1 Y1] & wd & td & td' & Hd & H & ->).
    rewrite Hd in Htr. cbn in Htr.
    apply bind_inv_Ok in H as (u & we & te & te' & He & H & ->).
    apply do_inv in He as (_ & ->).
    destruct (estimator self) as [est |]; [| discriminate H].
    apply bind_inv_Ok in H as (m & wf & tf & tf' & Hf & H & ->).
    apply do_inv in Hf as (_ & ->).
    apply bind_inv_Ok in H as (u' & wg & tg & tg' & Hg & H & ->).
    apply do_inv in Hg as (_ & ->).
    apply ret_inv in H as (H & _ & ->). injection H as <- <-.
    exists est. split; [reflexivity |].
    cbn. rewrite omap_app, Htr. reflexivity.
  - unfold fit. rewrite (bind_Ok _ _ _ _ _ _ H). cbn. rewrite app_nil_r. reflexivity.
  - intros w0. clear H.
    destruct (fit_transform self X Y false w0) as [[r w1] t1] eqn:H. cbn.
    unfold fit_transform in H.
    apply bind_inv in H as [(X0 & wa & ta & ta' & Ha & H & ->) | (e & Ha & _)];
      apply do_inv in Ha as (_ & ->); [| reflexivity].
    apply bind_inv in H as [(Y0 & wb & tb & tb' & Hb & H & ->) | (e & Hb & _)];
      apply do_inv in Hb as (_ & ->); [| reflexivity].
    apply bind_inv in H as [(pbar & wc & tc & tc' & Hc & H & ->) | (e & Hc & _)];
      apply do_inv in Hc as (_ & ->); [| reflexivity].
    pose proof (fit_transform_loop_no_training self pbar (blocks self) X0 Y0 wc) as Htr.
    apply bind_inv in H as [([X1 Y1] & wd & td & td' & Hd & H & ->) | (e & Hd & _)];
      rewrite Hd in Htr; cbn in Htr; [| exact Htr].
    apply ret_inv in H as (_ & _ & ->).
    cbn. rewrite omap_app, Htr. reflexivity.
Qed.

(** ** The data of [fit_model] *)

Section Data.
Context {PO : PyObjects} {RT : Runtime}.

Lemma fit_transform_loop_chain self pbar bs :
  forall X Y, only chain_call (fit_transform_loop self pbar bs X Y).
Proof.
  induction bs as [| b bs IH]; intros X Y; cbn [fit_transform_loop].
  - apply only_ret.
  - only_calls; [| apply IH].
    intros w. eapply List.Forall_impl; [| apply _transform_only].
    cbn. intros e He. destruct (e_call e); try discriminate He; reflexivity.
Qed.

Lemma fit_transform_chain self X Y estimator_ :
  only chain_call (fit_transform self X Y estimator_).
Proof.
  unfold fit_transform. only_calls; apply fit_transform_loop_chain.
Qed.

Lemma fit_transform_completed self X Y estimator_ w xy w' t :
  fit_transform self X Y estimator_ w = (Ok xy, w', t) -> omap fitted t = blocks self.
Proof.
  intros H. apply fit_transform_milestones in H as (_ & H & _).
  assert (Hf : forall t0 : list entry, omap fitted t0
                 = omap (fun m => match m with Stage_fitted b => Some b | _ => None end)
                     (omap milestone_of t0)).
  { induction t0 as [| e t0 IHt]; [reflexivity |].
    cbn. unfold fitted at 1, milestone_of at 1.
    destruct (e_call e); cbn; rewrite ?IHt; reflexivity. }
  rewrite Hf, H, omap_app.
  assert (Hb : forall bs : list BR,
            omap (fun m => match m with Stage_fitted b => Some b | _ => None end)
              (flat_map (fun b => [Stage_fitted b; Progress_reported]) bs) = bs).
  { induction bs as [| b bs IHb]; [reflexivity |]. cbn. rewrite IHb. reflexivity. }
  rewrite Hb.
  destruct estimator_; [| apply app_nil_r].
  destruct (estimator self); apply app_nil_r.
Qed.

End Data.

(** X6. When [fit_model] is given both [X_test] and [Y_test], its data
    phase is [fit_transform(X, Y)] followed by [transform(X_test, Y_test)]:
    every stage is fitted once, in order, on the training data, before the
    test set is touched; the test set only goes through the [transform] of
    every stage, and [train_test_split] is not called.  A test set given in
    part ([X_test] without [Y_test], or the converse) is ignored: the phase
    is the one of a call without test set. *)
Theorem explicit_test_set_is_only_transformed `{RT : Runtime} (self : Conveyor)
    (X : XR) (Y : YR) (X_test : XR) (Y_test : YR) (w : W)
    (X_train : XR) (Y_train : YR) (X_val : XR) (Y_val : YR) (w' : W) (t : list entry) :
  fit_model_data self X Y (Some X_test) (Some Y_test) w
    = (Ok (X_train, Y_train, X_val, Y_val), w', t) ->
  (exists w1 t1 t2,
     fit_transform self X Y false w = (Ok (X_train, Y_train), w1, t1) /\
     transform self X_test Y_test w1 = (Ok (X_val, Y_val), w', t2) /\
     t = t1 ++ t2 /\
     omap fitted t1 = blocks self /\
     omap fitted t2 = [] /\
     omap transformed t2 = blocks self) /\
  Forall (fun e => chain_call (e_call e) = true) t /\
  (forall w0,
     fit_model_data self X Y (Some X_test) None w0 = fit_model_data self X Y None None w0 /\
     fit_model_data self X Y None (Some Y_test) w0 = fit_model_data self X Y None None w0).
Proof.
  intros H. unfold fit_model_data in H.
  apply bind_inv_Ok in H as ([Xt Yt] & w1 & t1 & t1' & H1 & H & ->).
  apply bind_inv_Ok in H as ([Xv Yv] & w2 & t2 & t2' & H2 & H & ->).
  apply ret_inv in H as (H & -> & ->). injection H as <- <- <- <-.
  rewrite app_nil_r.
  pose proof (transform_only self X_test Y_test w1) as Honly.
  rewrite H2 in Honly. cbn in Honly.
  split; [| split].
  - exists w1, t1, t2.
    split; [exact H1 |]. split; [exact H2 |]. split; [reflexivity |].
    split; [exact (fit_transform_completed _ _ _ _ _ _ _ _ H1) |].
    split; [exact (transform_calls_not_fitted _ Honly) |].
    exact (transform_completed _ _ _ _ _ _ _ H2).
  - apply Forall_app. split.
    + pose proof (fit_transform_chain self X Y false w) as Hc.
      rewrite H1 in Hc. exact Hc.
    + eapply List.Forall_impl; [| exact Honly].
      cbn. intros e He. destruct (e_call e); try discriminate He; reflexivity.
  - intros w0. split; reflexivity.
Qed.

(** ** The tree-ensemble track: [fit_lgbm_model] *)

Section Always.
Context {PO : PyObjects} {RT : Runtime}.

(** Every call of [m], in every state, satisfies [P]. *)
Definition always (P : call -> Prop) {A} (m : M A) : Prop :=
  forall w, Forall (fun e => P (e_call e)) (trace_of (m w)).

Lemma always_ret P {A} (a : A) : always P (ret_ a).
Proof. intros w. constructor. Qed.

Lemma always_raise P {A} e : always P (@raise _ _ A e).
Proof. intros w. constructor. Qed.

Lemma always_lift P {A} (r : outcome A) : always P (lift r).
Proof. destruct r; [apply always_ret | apply always_raise]. Qed.

Lemma always_do (P : call -> Prop) c : P c -> always P (do c).
Proof.
  intros H w. unfold do. destruct (handle c w) as [r w1]. cbn.
  constructor; [exact H | constructor].
Qed.

Lemma always_bind P {A B} (m : M A) (k : A -> M B) :
  always P m -> (forall a, always P (k a)) -> always P (bind m k).
Proof.
  intros Hm Hk w. unfold bind. specialize (Hm w).
  destruct (m w) as [[[a | e] w1] t1]; cbn in *; [| assumption].
  specialize (Hk a w1). destruct (k a w1) as [[r w2] t2]. cbn in *.
  apply Forall_app; split; assumption.
Qed.

Lemma str_in_In col names : str_in col names = true <-> In col names.
Proof.
  unfold str_in. rewrite existsb_exists. split.
  - intros (x & Hx & Heq). apply String.eqb_eq in Heq. subst x. exact Hx.
  - intros H. exists col. split; [exact H | apply String.eqb_refl].
Qed.

Lemma handed_all (Q : params_columns -> Prop) t :
  Forall (fun e => forall kw, handed_columns (e_call e) = Some kw -> Q kw) t ->
  Forall Q (omap handed_columns (calls t)).
Proof.
  induction 1 as [| e t He _ IHt]; [constructor |].
  cbn. destruct (handed_columns (e_call e)) as [kw |] eqn:Hkw; [| exact IHt].
  constructor; [apply He; reflexivity | exact IHt].
Qed.

End Always.

(** X7. In [fit_lgbm_model], once [X.columns] is read, every
    [params_columns] handed over (to the optimizer, and to the [fit] of the
    final model) has these columns as [feature_name], 300 early-stopping
    rounds, no verbosity, and as [categorical_feature] the columns of
    [categorical_columns] that are columns of [X], in their order: a
    categorical column that [X] does not have is dropped without an
    error.  A completed run hands them over exactly twice. *)
Theorem lgbm_keeps_the_categorical_columns_of_X `{RT : Runtime} (self : Conveyor)
    (X : XR) (Y : YR) (X_test : XR) (Y_test : YR) (rating_func : FR)
    (params : gmap string PV) (categorical_columns : list string) (w : W)
    (columns : list string) :
  fst (handle (Columns X) w) = Ok columns ->
  let r := fit_lgbm_model self X Y X_test Y_test rating_func params
             categorical_columns w in
  let handed := omap handed_columns (calls (trace_of r)) in
  Forall (fun kw =>
            feature_name kw = columns /\
            early_stopping_rounds kw = 300%Z /\
            verbose kw = false /\
            categorical_feature kw
            = List.filter (fun col => str_in col columns) categorical_columns /\
            forall col, In col (categorical_feature kw) <->
                        In col categorical_columns /\ In col columns) handed /\
  (forall mr, result_of r = Ok mr -> length handed = 2).
Proof.
  intros Hcols. cbn zeta.
  set (pc := mkParamsColumns columns 300 false
               (List.filter (fun col => str_in col columns) categorical_columns)).
  assert (Hpc : forall kw, kw = pc ->
            feature_name kw = columns /\
            early_stopping_rounds kw = 300%Z /\
            verbose kw = false /\
            categorical_feature kw
            = List.filter (fun col => str_in col columns) categorical_columns /\
            forall col, In col (categorical_feature kw) <->
                        In col categorical_columns /\ In col columns).
  { intros kw ->.
    split; [reflexivity | split; [reflexivity | split; [reflexivity |
      split; [reflexivity |]]]].
    intros col. cbn. rewrite filter_In, str_in_In. reflexivity. }
  unfold fit_lgbm_model. rewrite (bind_do_Ok _ _ _ _ Hcols).
  cbn [result_of trace_of fst snd calls map e_call omap handed_columns].
  fold pc.
  match goal with
  | |- context [trace_of (?m ?w1)] => set (rest := m); set (wr := w1)
  end.
  split.
  - eapply List.Forall_impl; [exact Hpc |].
    apply handed_all.
    assert (Hrest : always (fun c => forall kw, handed_columns c = Some kw -> kw = pc)
                      rest).
    { subst rest. unfold _repr_dict_model.
      repeat first
        [ apply always_bind; [| intros]
        | apply always_lift
        | apply always_ret
        | match goal with
          | |- always ?P (do ?c) => apply (always_do P c)
          end;
          intros kw Hkw; cbn in Hkw;
          first [discriminate Hkw | injection Hkw as <-; reflexivity] ]. }
    apply Hrest.
  - intros mr Hr.
    destruct (rest wr) as [[r0 w0] t0] eqn:Hrun. cbn in Hr. subst r0. cbn.
    subst rest.
    apply bind_inv_Ok in Hrun as (n & w1 & t1 & t1' & H1 & Hk & ->).
    assert (Ht1 : t1 = []).
    { destruct (getitem (merge_params params) "n_trials"); cbn in H1;
        injection H1 as _ _ <-; reflexivity. }
    subst t1.
    apply bind_inv_Ok in Hk as (pb & w2 & t2 & t2' & H2 & Hk & ->).
    apply do_inv in H2 as (_ & ->).
    apply bind_inv_Ok in Hk as (u3 & w3 & t3 & t3' & H3 & Hk & ->).
    apply do_inv in H3 as (_ & ->).
    apply bind_inv_Ok in Hk as (study & w4 & t4 & t4' & H4 & Hk & ->).
    apply do_inv in H4 as (_ & ->).
    apply bind_inv_Ok in Hk as (ob & w5 & t5 & t5' & H5 & Hk & ->).
    apply do_inv in H5 as (_ & ->).
    apply bind_inv_Ok in Hk as (u6 & w6 & t6 & t6' & H6 & Hk & ->).
    apply do_inv in H6 as (_ & ->).
    apply bind_inv_Ok in Hk as (bp & w7 & t7 & t7' & H7 & Hk & ->).
    apply do_inv in H7 as (_ & ->).
    apply bind_inv_Ok in Hk as (m & w8 & t8 & t8' & H8 & Hk & ->).
    apply do_inv in H8 as (_ & ->).
    apply bind_inv_Ok in Hk as (m' & w9 & t9 & t9' & H9 & Hk & ->).
    apply do_inv in H9 as (_ & ->).
    apply bind_inv_Ok in Hk as (res & w10 & t10 & t10' & H10 & Hk & ->).
    apply do_inv in H10 as (_ & ->).
    apply bind_inv_Ok in Hk as (bp' & w11 & t11 & t11' & H11 & Hk & ->).
    apply do_inv in H11 as (_ & ->).
    apply bind_inv_Ok in Hk as (bv & w12 & t12 & t12' & H12 & Hk & ->).
    apply do_inv in H12 as (_ & ->).
    apply bind_inv_Ok in Hk as (u13 & w13 & t13 & t13' & H13 & Hk & ->).
    unfold _repr_dict_model in H13. apply (do_inv (Print _)) in H13 as (_ & ->).
    apply ret_inv in Hk as (_ & _ & ->).
    reflexivity.
Qed.

(** ** The parameters of the search *)

Section Params.
Context {PO : PyObjects} {RT : Runtime}.

Lemma merge_params_lookup (params : gmap string PV) (key : string) :
  merge_params params !! key
  = match params !! key with
    | Some v => Some v
    | None => default_params !! key
    end.
Proof.
  unfold merge_params. rewrite lookup_union.
  destruct (params !! key) as [v |], (default_params !! key) as [d |]; reflexivity.
Qed.

End Params.

(** What the two tracks hand to optuna and to their progress bars. *)
Section Handed.
Context {PO : PyObjects} {RT : Runtime}.
Variable params : gmap string PV.

Lemma getitem_n_trials :
  getitem (merge_params params) "n_trials" = Ok (merged_n_trials params).
Proof.
  unfold getitem, merged_n_trials. rewrite merge_params_lookup.
  destruct (params !! "n_trials"); reflexivity.
Qed.

Lemma always_bind_ret P {A B} (a : A) (k : A -> M B) :
  always P (k a) -> always P (bind (ret_ a) k).
Proof.
  intros Hk w. specialize (Hk w). unfold bind, ret_.
  destruct (k a w) as [[r w1] t1]. exact Hk.
Qed.

Lemma always_reify P {A} (m : M A) : always P m -> always P (reify m).
Proof.
  intros Hm w. unfold reify. specialize (Hm w).
  destruct (m w) as [[r w1] t1]. exact Hm.
Qed.

(** What a call hands over is the merged parameters, and the total of a
    progress bar it creates is [total]. *)
Definition hands_merged (total : PV -> Prop) (c : call) : Prop :=
  (forall kw, optimize_kw c = Some kw -> kw = merge_params params) /\
  (forall n, bar_total c = Some n -> total n).

Ltac hands_over :=
  repeat first
    [ apply always_bind; [| intros]
    | apply always_lift
    | apply always_ret
    | apply always_raise
    | match goal with
      | |- always ?P (do ?c) => apply (always_do P c)
      end;
      split; intros ? Hc; cbn in Hc;
      first [discriminate Hc | injection Hc as <-; reflexivity] ].

Lemma fit_lgbm_model_hands self X Y X_test Y_test rating_func cats :
  always (hands_merged (fun n => n = merged_n_trials params))
    (fit_lgbm_model self X Y X_test Y_test rating_func params cats).
Proof.
  unfold fit_lgbm_model, _repr_dict_model.
  apply always_bind.
  { apply (always_do _ (Columns X)). split; intros ? Hc; discriminate Hc. }
  intros columns. rewrite getitem_n_trials. cbn [lift].
  apply always_bind_ret. hands_over.
Qed.

Lemma sklearn_family_step_hands total X Y X_test Y_test rating_func pb family best :
  always (hands_merged total)
    (sklearn_family_step X Y X_test Y_test rating_func (merge_params params) pb
       family best).
Proof.
  unfold sklearn_family_step. destruct family as [model space].
  hands_over. destruct (v_gt _ _); apply always_ret.
Qed.

Lemma sklearn_search_loop_hands total X Y X_test Y_test rating_func pb catalog :
  forall best,
    always (hands_merged total)
      (sklearn_search_loop X Y X_test Y_test rating_func (merge_params params) pb
         catalog best).
Proof.
  induction catalog as [| family rest IH]; intros best; cbn [sklearn_search_loop].
  - apply always_ret.
  - apply always_bind; [apply always_reify, sklearn_family_step_hands |].
    intros [best' | e]; [apply IH | apply always_ret].
Qed.

Lemma fit_sklearn_model_hands self X Y X_test Y_test rating_func :
  always (hands_merged
            (fun n => pv_times_len (merged_n_trials params) (length sklearn_models) = Ok n))
    (fit_sklearn_model self X Y X_test Y_test rating_func params).
Proof.
  unfold fit_sklearn_model, sklearn_search, refit_best, _repr_dict_model.
  apply always_bind.
  - apply always_bind.
    + apply always_reify. rewrite getitem_n_trials. cbn [lift].
      apply always_bind_ret.
      destruct (pv_times_len (merged_n_trials params) (length sklearn_models))
        as [total | e] eqn:Htotal; cbn [lift].
      * apply always_bind_ret.
        apply (always_do _ (ProgressFitModel total)).
        split; intros ? Hc; cbn in Hc; [discriminate Hc |].
        injection Hc as <-. reflexivity.
      * intros w. constructor.
    + intros [pb | e]; [apply sklearn_search_loop_hands | apply always_ret].
  - intros best. apply always_bind.
    + destruct (bm_model best); [destruct (decide _); apply always_raise |].
      hands_over.
    + intros model. hands_over.
Qed.

Lemma hands_merged_all total t :
  Forall (fun e => hands_merged total (e_call e)) t ->
  Forall (fun kw => kw = merge_params params) (omap optimize_kw (calls t)) /\
  Forall total (omap bar_total (calls t)).
Proof.
  induction 1 as [| e t [Hkw Hn] _ [IH1 IH2]]; [split; constructor |].
  cbn. split.
  - destruct (optimize_kw (e_call e)) as [kw |] eqn:Hc; [| exact IH1].
    constructor; [apply Hkw; reflexivity | exact IH1].
  - destruct (bar_total (e_call e)) as [n |] eqn:Hc; [| exact IH2].
    constructor; [apply Hn; reflexivity | exact IH2].
Qed.

End Handed.

(** X8. In every run of the two tracks, the keyword arguments handed to
    [study.optimize] have the caller's value for every key the caller gave
    and the default for every other key ([n_trials] 100, [n_jobs] -1,
    [show_progress_bar] False, and nothing else).  The progress bar of the
    tree-ensemble track is created with that [n_trials] as its total, the
    one of the generic-estimator track with that [n_trials] times the size
    of the catalog.  So [params['n_trials']] raises no KeyError: once
    [X.columns] is read, the tree-ensemble track goes on to create its
    progress bar. *)
Theorem merged_params_let_the_caller_win `{RT : Runtime} (self : Conveyor) (X : XR)
    (Y : YR) (X_test : XR) (Y_test : YR) (rating_func : FR)
    (params : gmap string PV) (categorical_columns : list string) (w : W) :
  let lgbm := fit_lgbm_model self X Y X_test Y_test rating_func params
                categorical_columns w in
  let generic := fit_sklearn_model self X Y X_test Y_test rating_func params w in
  Forall (caller_wins params) (omap optimize_kw (calls (trace_of lgbm))) /\
  Forall (caller_wins params) (omap optimize_kw (calls (trace_of generic))) /\
  Forall (fun n => n = merged_n_trials params) (omap bar_total (calls (trace_of lgbm))) /\
  Forall (fun n => pv_times_len (merged_n_trials params) (length sklearn_models) = Ok n)
    (omap bar_total (calls (trace_of generic))) /\
  (forall v, params !! "n_trials" = Some v -> merged_n_trials params = v) /\
  (params !! "n_trials" = None -> merged_n_trials params = pv_int 100) /\
  default_params !! "n_trials" = Some (pv_int 100) /\
  default_params !! "n_jobs" = Some (pv_int (-1)) /\
  default_params !! "show_progress_bar" = Some (pv_bool false) /\
  (forall key, key <> "n_trials" -> key <> "n_jobs" -> key <> "show_progress_bar" ->
     default_params !! key = None) /\
  (forall columns,
     fst (handle (Columns X) w) = Ok columns ->
     exists a t',
       trace_of lgbm
       = Entry (Columns X) (Ok columns)
         :: Entry (ProgressFitModel (merged_n_trials params)) a :: t') /\
  (forall mr, result_of lgbm = Ok mr ->
     length (omap optimize_kw (calls (trace_of lgbm))) = 1).
Proof.
  cbn zeta.
  assert (Hwins : forall kw, kw = merge_params params -> caller_wins params kw).
  { intros kw -> key. apply merge_params_lookup. }
  destruct (hands_merged_all params _ _
              (fit_lgbm_model_hands params self X Y X_test Y_test rating_func
                 categorical_columns w)) as [Hl1 Hl2].
  destruct (hands_merged_all params _ _
              (fit_sklearn_model_hands params self X Y X_test Y_test rating_func w))
    as [Hs1 Hs2].
  split; [eapply List.Forall_impl; [exact Hwins | exact Hl1] |].
  split; [eapply List.Forall_impl; [exact Hwins | exact Hs1] |].
  split; [exact Hl2 |]. split; [exact Hs2 |].
  split; [intros v Hv; unfold merged_n_trials; rewrite Hv; reflexivity |].
  split; [intros Hv; unfold merged_n_trials; rewrite Hv; reflexivity |].
  split; [reflexivity |]. split; [reflexivity |]. split; [reflexivity |].
  split.
  { intros key H1 H2 H3. unfold default_params.
    rewrite !lookup_insert_ne by congruence. apply lookup_empty. }
  split.
  - intros columns Hcols.
    destruct (fit_lgbm_model self X Y X_test Y_test rating_func params
                categorical_columns w) as [[r0 w0] t0] eqn:Hrun.
    cbn. unfold fit_lgbm_model in Hrun.
    apply bind_inv in Hrun as [(cols & wc & tc & tc' & Hc & Hk & ->) | (e & Hc & _)];
      apply do_inv in Hc as (Hc & ->); rewrite Hc in Hcols; cbn in Hcols;
      [| discriminate Hcols].
    injection Hcols as ->.
    rewrite getitem_n_trials in Hk. cbn [lift] in Hk.
    apply bind_inv in Hk as [(n & w1 & t1 & t1' & H1 & Hk & ->) | (e & H1 & _)];
      apply ret_inv in H1 as (Hn & _ & ->); [| discriminate Hn].
    injection Hn as <-.
    apply bind_inv in Hk as [(pb & w2 & t2 & t2' & H2 & Hk & ->) | (e & H2 & _)];
      apply do_inv in H2 as (_ & ->); eexists _, _; reflexivity.
  - intros mr Hr.
    destruct (fit_lgbm_model self X Y X_test Y_test rating_func params
                categorical_columns w) as [[r0 w0] t0] eqn:Hrun.
    cbn in Hr. subst r0. cbn. unfold fit_lgbm_model in Hrun.
    apply bind_inv_Ok in Hrun as (columns & wc & tc & tc' & Hc & Hk & ->).
    apply do_inv in Hc as (_ & ->).
    apply bind_inv_Ok in Hk as (n & w1 & t1 & t1' & H1 & Hk & ->).
    assert (Ht1 : t1 = []).
    { destruct (getitem (merge_params params) "n_trials"); cbn in H1;
        injection H1 as _ _ <-; reflexivity. }
    subst t1.
    apply bind_inv_Ok in Hk as (pb & w2 & t2 & t2' & H2 & Hk & ->).
    apply do_inv in H2 as (_ & ->).
    apply bind_inv_Ok in Hk as (u3 & w3 & t3 & t3' & H3 & Hk & ->).
    apply do_inv in H3 as (_ & ->).
    apply bind_inv_Ok in Hk as (study & w4 & t4 & t4' & H4 & Hk & ->).
    apply do_inv in H4 as (_ & ->).
    apply bind_inv_Ok in Hk as (ob & w5 & t5 & t5' & H5 & Hk & ->).
    apply do_inv in H5 as (_ & ->).
    apply bind_inv_Ok in Hk as (u6 & w6 & t6 & t6' & H6 & Hk & ->).
    apply do_inv in H6 as (_ & ->).
    apply bind_inv_Ok in Hk as (bp & w7 & t7 & t7' & H7 & Hk & ->).
    apply do_inv in H7 as (_ & ->).
    apply bind_inv_Ok in Hk as (m & w8 & t8 & t8' & H8 & Hk & ->).
    apply do_inv in H8 as (_ & ->).
    apply bind_inv_Ok in Hk as (m' & w9 & t9 & t9' & H9 & Hk & ->).
    apply do_inv in H9 as (_ & ->).
    apply bind_inv_Ok in Hk as (res & w10 & t10 & t10' & H10 & Hk & ->).
    apply do_inv in H10 as (_ & ->).
    apply bind_inv_Ok in Hk as (bp' & w11 & t11 & t11' & H11 & Hk & ->).
    apply do_inv in H11 as (_ & ->).
    apply bind_inv_Ok in Hk as (bv & w12 & t12 & t12' & H12 & Hk & ->).
    apply do_inv in H12 as (_ & ->).
    apply bind_inv_Ok in Hk as (u13 & w13 & t13 & t13' & H13 & Hk & ->).
    unfold _repr_dict_model in H13. apply (do_inv (Print _)) in H13 as (_ & ->).
    apply ret_inv in Hk as (_ & _ & ->).
    reflexivity.
Qed.

(** ** The generic-estimator track: what the search keeps *)

Section Kept.
Context {PO : PyObjects} {RT : Runtime}.

Lemma sklearn_family_step_optuna X Y X_test Y_test rating_func params pb family best :
  only optuna_call
    (sklearn_family_step X Y X_test Y_test rating_func params pb family best).
Proof. unfold sklearn_family_step. destruct family. only_calls. Qed.

Lemma sklearn_search_loop_optuna X Y X_test Y_test rating_func params pb catalog :
  forall best,
    only optuna_call
      (sklearn_search_loop X Y X_test Y_test rating_func params pb catalog best).
Proof.
  induction catalog as [| family rest IH]; intros best; cbn [sklearn_search_loop].
  - apply only_ret.
  - apply only_bind; [apply only_reify, sklearn_family_step_optuna |].
    intros [best' | e]; [apply IH | apply only_ret].
Qed.

Lemma sklearn_search_optuna X Y X_test Y_test rating_func params best :
  only optuna_call (sklearn_search X Y X_test Y_test rating_func params best).
Proof.
  unfold sklearn_search. only_calls. apply sklearn_search_loop_optuna.
Qed.

Lemma optuna_calls_fit_nothing t :
  Forall (fun e => optuna_call (e_call e) = true) t ->
  omap constructed t = [] /\ omap trained t = [] /\ omap predicted t = [] /\
  omap printed t = [].
Proof.
  induction 1 as [| e t He _ (IH1 & IH2 & IH3 & IH4)]; [repeat split |].
  cbn. unfold constructed at 1, trained at 1, predicted at 1, printed at 1.
  destruct (e_call e); try discriminate He; repeat split; assumption.
Qed.

(** The record of a completed iteration: the best value is read twice; the
    second reading decides, the first is stored. *)
Lemma sklearn_family_step_reads X Y X_test Y_test rating_func params pb family
    best w best' w' t :
  sklearn_family_step X Y X_test Y_test rating_func params pb family best w
    = (Ok best', w', t) ->
  exists study stored decisive best_params w1 w2,
    handle (Best_value study) w1 = (Ok stored, w2) /\
    handle (Best_value study) w2 = (Ok decisive, w') /\
    omap value_read t = [stored; decisive] /\
    ((v_gt decisive (bm_best_value best) = false /\ best' = best) \/
     (v_gt decisive (bm_best_value best) = true /\
      best' = mkBest (Model_class (fst family)) best_params stored)).
Proof.
  unfold sklearn_family_step. destruct family as [model space]. intros H.
  apply bind_inv_Ok in H as (u1 & w1 & t1 & t1' & H1 & H & ->).
  apply do_inv in H1 as (_ & ->).
  apply bind_inv_Ok in H as (study & w2 & t2 & t2' & H2 & H & ->).
  apply do_inv in H2 as (_ & ->).
  apply bind_inv_Ok in H as (ob & w3 & t3 & t3' & H3 & H & ->).
  apply do_inv in H3 as (_ & ->).
  apply bind_inv_Ok in H as (u4 & w4 & t4 & t4' & H4 & H & ->).
  apply do_inv in H4 as (_ & ->).
  apply bind_inv_Ok in H as (bp & w5 & t5 & t5' & H5 & H & ->).
  apply do_inv in H5 as (_ & ->).
  apply bind_inv_Ok in H as (bv & w6 & t6 & t6' & H6 & H & ->).
  apply do_inv in H6 as (H6 & ->).
  apply bind_inv_Ok in H as (bv' & w7 & t7 & t7' & H7 & H & ->).
  apply do_inv in H7 as (H7 & ->).
  destruct (v_gt bv' (bm_best_value best)) eqn:Hgt;
    apply ret_inv in H as (H & -> & ->); injection H as ->;
    exists study, bv, bv', bp, w5, w6;
    (split; [exact H6 | split; [exact H7 | split; [reflexivity |]]]).
  - right. split; [exact Hgt | reflexivity].
  - left. split; [exact Hgt | reflexivity].
Qed.

(** While no value read is greater than the one of [best_model], the
    search leaves [best_model] as it is. *)
Lemma sklearn_search_loop_unbeaten X Y X_test Y_test rating_func params pb catalog :
  forall best w r w' t,
    sklearn_search_loop X Y X_test Y_test rating_func params pb catalog best w
      = (r, w', t) ->
    Forall (fun v => v_gt v (bm_best_value best) = false) (omap value_read t) ->
    r = Ok best.
Proof.
  induction catalog as [| family rest IH]; intros best w r w' t H Hall;
    cbn [sklearn_search_loop] in H.
  - apply ret_inv in H as (-> & _). reflexivity.
  - apply bind_inv in H as [(r1 & w1 & t1 & t2 & H1 & H & ->) | (e & H1 & _)];
      apply reify_inv in H1 as (r0 & Hr0 & H1); [| discriminate Hr0].
    injection Hr0 as ->.
    destruct r0 as [b1 | e].
    + rewrite omap_app in Hall. apply Forall_app in Hall as [Hall1 Hall2].
      apply sklearn_family_step_reads in H1
        as (study & stored & decisive & bp & wa & wb & _ & _ & Hreads & Hcase).
      rewrite Hreads in Hall1.
      assert (Hd : v_gt decisive (bm_best_value best) = false).
      { inversion Hall1 as [| ? ? _ Hall1']. inversion Hall1' as [| ? ? Hd _]. exact Hd. }
      destruct Hcase as [[_ ->] | [Hgt _]]; [| congruence].
      eapply IH; eassumption.
    + apply ret_inv in H as (-> & _). reflexivity.
Qed.

Lemma sklearn_search_unbeaten X Y X_test Y_test rating_func params best w r w' t :
  sklearn_search X Y X_test Y_test rating_func params best w = (r, w', t) ->
  Forall (fun v => v_gt v (bm_best_value best) = false) (omap value_read t) ->
  r = Ok best.
Proof.
  unfold sklearn_search. intros H Hall.
  apply bind_inv in H as [(r1 & w1 & t1 & t2 & H1 & H & ->) | (e & H1 & _)];
    apply reify_inv in H1 as (r0 & Hr0 & H1); [| discriminate Hr0].
  injection Hr0 as ->.
  destruct r0 as [pb | e].
  - rewrite omap_app in Hall. apply Forall_app in Hall as [_ Hall].
    eapply sklearn_search_loop_unbeaten; eassumption.
  - apply ret_inv in H as (-> & _). reflexivity.
Qed.

End Kept.

(** X9. When no best value read during the search of [fit_sklearn_model]
    is greater than 0 (the value of the placeholder), [best_model] stays the
    placeholder although no family failed: no model is instantiated or
    fitted, nothing is printed, and [fit_sklearn_model] raises the
    AttributeError of [object().fit]. *)
Theorem no_value_above_zero_no_model `{RT : Runtime} (self : Conveyor) (X : XR)
    (Y : YR) (X_test : XR) (Y_test : YR) (rating_func : FR)
    (params : gmap string PV) (w : W) :
  Forall (fun v => v_gt v v_zero = false)
    (omap value_read
       (trace_of (fit_sklearn_model self X Y X_test Y_test rating_func params w))) ->
  result_of (fit_sklearn_model self X Y X_test Y_test rating_func params w)
  = Raise (Exn "AttributeError" "'object' object has no attribute 'fit'") /\
  omap constructed
    (trace_of (fit_sklearn_model self X Y X_test Y_test rating_func params w)) = [] /\
  omap trained
    (trace_of (fit_sklearn_model self X Y X_test Y_test rating_func params w)) = [] /\
  omap printed
    (trace_of (fit_sklearn_model self X Y X_test Y_test rating_func params w)) = [].
Proof.
  intros Hall.
  pose proof (sklearn_search_optuna X Y X_test Y_test rating_func (merge_params params)
                (mkBest Builtin_object ∅ v_zero) w) as Honly.
  destruct (sklearn_search X Y X_test Y_test rating_func (merge_params params)
              (mkBest Builtin_object ∅ v_zero) w) as [[r w1] t1] eqn:Hs.
  cbn in Honly.
  assert (Hr : r = Ok (mkBest Builtin_object ∅ v_zero)).
  { eapply sklearn_search_unbeaten; [exact Hs |]. cbn.
    unfold fit_sklearn_model in Hall. unfold bind at 1 in Hall.
    rewrite Hs in Hall.
    destruct r as [b |]; [| exact Hall].
    destruct (bind (refit_best b X Y) _ w1) as [[r2 w2] t2]. cbn in Hall.
    rewrite omap_app in Hall. apply Forall_app in Hall as [Hall _]. exact Hall. }
  subst r.
  rewrite (fit_sklearn_model_placeholder self _ _ _ _ _ _ _ _ _ Hs). cbn.
  apply optuna_calls_fit_nothing in Honly as (H1 & H2 & _ & H4).
  repeat split; assumption.
Qed.

Section Greatest.
Context {PO : PyObjects} {RT : Runtime}.

Lemma sklearn_for_loop_greatest X Y X_test Y_test rating_func params pb catalog :
  gt_asymmetric -> gt_negatively_transitive -> best_value_stable ->
  forall best w best' w' t,
    sklearn_for_loop X Y X_test Y_test rating_func params pb catalog best w
      = (Ok best', w', t) ->
    Forall (fun v => v_gt v (bm_best_value best') = false) (omap value_read t) /\
    v_gt (bm_best_value best) (bm_best_value best') = false /\
    (best' = best \/
     (v_gt (bm_best_value best') (bm_best_value best) = true /\
      In (bm_best_value best') (omap value_read t) /\
      exists family, In family catalog /\ bm_model best' = Model_class (fst family))).
Proof.
  intros Hasym Hneg Hstable.
  assert (Hirr : forall a : V, v_gt a a = false).
  { intros a. destruct (v_gt a a) eqn:Ha; [| reflexivity].
    rewrite (Hasym a a Ha) in Ha. discriminate Ha. }
  assert (Htrans : forall a b c : V,
            v_gt a b = true -> v_gt b c = true -> v_gt a c = true).
  { intros a b c Hab Hbc. destruct (Hneg a c b Hab) as [Hac | Hcb]; [exact Hac |].
    rewrite (Hasym b c Hbc) in Hcb. discriminate Hcb. }
  induction catalog as [| family rest IH]; intros best w best' w' t H;
    cbn [sklearn_for_loop] in H.
  - apply ret_inv in H as (H & _ & ->). injection H as <-.
    split; [constructor |]. split; [apply Hirr | left; reflexivity].
  - apply bind_inv_Ok in H as (b1 & w1 & t1 & t2 & H1 & H & ->).
    apply sklearn_family_step_reads in H1
      as (study & stored & decisive & bp & wa & wb & Hs & Hd & Hreads & Hcase).
    pose proof (Hstable _ _ _ _ _ _ Hs Hd) as ->.
    apply IH in H as (IHall & IHge & IHkept).
    rewrite omap_app, Hreads.
    destruct Hcase as [[Hle ->] | [Hgt ->]]; cbn [bm_best_value] in *.
    + assert (Hv : v_gt stored (bm_best_value best') = false).
      { destruct (v_gt stored (bm_best_value best')) eqn:Hv; [| reflexivity].
        destruct (Hneg _ (bm_best_value best) _ Hv) as [Hx | Hx]; congruence. }
      split; [repeat constructor; assumption |].
      split; [exact IHge |].
      destruct IHkept as [-> | (Hbeat & Hin & fam & Hfam & Hmodel)]; [left; reflexivity |].
      right. split; [exact Hbeat |].
      split; [right; right; exact Hin |].
      exists fam. split; [right; exact Hfam | exact Hmodel].
    + split; [repeat constructor; assumption |].
      assert (Hge : v_gt (bm_best_value best) (bm_best_value best') = false).
      { destruct (v_gt (bm_best_value best) (bm_best_value best')) eqn:Hb; [| reflexivity].
        rewrite (Htrans _ _ _ Hgt Hb) in IHge. discriminate IHge. }
      split; [exact Hge |].
      right.
      destruct IHkept as [-> | (Hbeat & Hin & fam & Hfam & Hmodel)]; cbn.
      * split; [exact Hgt |]. split; [left; reflexivity |].
        exists family. split; [left; reflexivity | reflexivity].
      * split; [exact (Htrans _ _ _ Hbeat Hgt) |].
        split; [right; right; exact Hin |].
        exists fam. split; [right; exact Hfam | exact Hmodel].
Qed.

End Greatest.

(** X10. Let [>] on best values be a strict weak order, and let a study
    give the same best value when it is read twice in a row.  When the loop
    of [fit_sklearn_model] goes through a catalog without a failure, no best
    value read in it is greater than the one of the [best_model] it leaves,
    and neither is the value it started with; [best_model] is the one it
    started with, or holds a class of the catalog with a value that was
    read and is greater than the starting one. *)
Theorem search_keeps_a_greatest_value `{RT : Runtime} (X : XR) (Y : YR) (X_test : XR)
    (Y_test : YR) (rating_func : FR) (params : gmap string PV) (pb : PB)
    (catalog : list (FAM * SP)) (best : best_model_dict) (w : W)
    (best' : best_model_dict) (w' : W) (t : list entry) :
  gt_asymmetric -> gt_negatively_transitive -> best_value_stable ->
  sklearn_for_loop X Y X_test Y_test rating_func params pb catalog best w
    = (Ok best', w', t) ->
  Forall (fun v => v_gt v (bm_best_value best') = false) (omap value_read t) /\
  v_gt (bm_best_value best) (bm_best_value best') = false /\
  (best' = best \/
   (v_gt (bm_best_value best') (bm_best_value best) = true /\
    In (bm_best_value best') (omap value_read t) /\
    exists family, In family catalog /\ bm_model best' = Model_class (fst family))) /\
  sklearn_search_loop X Y X_test Y_test rating_func params pb catalog best w
    = (Ok best', w', t).
Proof.
  intros Hasym Hneg Hstable H.
  destruct (sklearn_for_loop_greatest _ _ _ _ _ _ _ _ Hasym Hneg Hstable _ _ _ _ _ H)
    as (H1 & H2 & H3).
  split; [exact H1 |]. split; [exact H2 |]. split; [exact H3 |].
  apply sklearn_search_loop_no_failure. exact H.
Qed.

(** ** Names that [score] cannot resolve *)

Section Names.
Context {PO : PyObjects} {RT : Runtime}.

Lemma score_predict_only self X Y : only predict_call (score_predict self X Y).
Proof.
  unfold score_predict. only_calls.
  intros w. eapply List.Forall_impl; [| apply transform_only].
  cbn. intros e He. unfold predict_call. rewrite He.
  destruct (e_call e); reflexivity.
Qed.

Lemma predict_calls_rate_nothing t :
  Forall (fun e => predict_call (e_call e) = true) t ->
  omap rating t = [] /\ omap printed t = [] /\ omap resolved t = [] /\
  omap evaluated t = [].
Proof.
  induction 1 as [| [c a] t He _ (IH1 & IH2 & IH3 & IH4)]; [repeat split |].
  cbn in *. unfold printed at 1, evaluated at 1. cbn.
  destruct c; try discriminate He; repeat split; assumption.
Qed.

Lemma score_sklearn_loop_unresolved self pre bad post Y_ result e :
  (forall name, In name pre ->
     forall w, exists f, fst (handle (Eval_name name) w) = Ok f /\ has_name f) ->
  (forall w, fst (handle (Eval_name bad) w) = Raise e) ->
  forall score w, exists w' t,
    score_sklearn_loop self (pre ++ bad :: post) Y_ result score w = (Raise e, w', t) /\
    omap evaluated t = pre ++ [bad] /\
    map rating_metric (omap rating t) = omap resolved t /\
    length (omap resolved t) = length pre /\
    rated_on Y_ result (omap rating t) /\
    omap printed t = [].
Proof.
  intros Hpre Hbad.
  induction pre as [| name pre IH]; intros score w; cbn [score_sklearn_loop app].
  - rewrite (bind_do_Raise _ _ _ _ (Hbad w)).
    eexists _, _. split; [reflexivity |].
    split; [reflexivity |]. split; [reflexivity |]. split; [reflexivity |].
    split; [constructor | reflexivity].
  - destruct (Hpre name (or_introl eq_refl) w) as (f & Hf & Hnamed).
    rewrite (bind_do_Ok _ _ _ _ Hf).
    destruct (IH (fun n Hn => Hpre n (or_intror Hn))
                (score +:+ report_line (metric_label f)
                             (fst (handle (Metric_call f Y_ result)
                                     (snd (handle (Eval_name name) w)))))
                (snd (handle (Metric_call f Y_ result)
                        (snd (handle (Eval_name name) w)))))
      as (w' & t & Hrun & Hev & Hmet & Hlen & Hon & Hprint).
    rewrite (bind_Ok _ _ _ _ _ _ (_get_score_run self f Y_ result _ Hnamed)).
    rewrite Hrun. cbn.
    eexists _, _. split; [reflexivity |].
    cbn. rewrite Hev, Hmet, Hlen, Hprint.
    split; [reflexivity |]. split; [reflexivity |]. split; [reflexivity |].
    split; [| reflexivity].
    constructor; [split; reflexivity | exact Hon].
Qed.

End Names.

(** X11. A name of [sklearn_function] that [eval] cannot resolve is not
    isolated as the failure of a metric is: [score] raises what [eval]
    raised.  When the names before it resolve to functions that have a
    name, [eval] has been handed these names and the unresolved one, in
    order, and none of the names after it; the metrics called are the
    functions these names resolved to, once each and in order, on the
    transformed target and the predictions; no function of
    [precision_function] has been called, and nothing is printed or
    returned. *)
Theorem unresolved_name_aborts_score `{RT : Runtime} (self : Conveyor) (X : XR)
    (Y : YR) (pre : list string) (bad : string) (post : list string)
    (precision_function : list FR) (_return : bool) (w : W) (Y_ : YR) (result : PR)
    (w1 : W) (t1 : list entry) (e : exn) :
  score_predict self X Y w = (Ok (Y_, result), w1, t1) ->
  (forall name, In name pre ->
     forall w', exists f, fst (handle (Eval_name name) w') = Ok f /\ has_name f) ->
  (forall w', fst (handle (Eval_name bad) w') = Raise e) ->
  let r := score self X Y (pre ++ bad :: post) precision_function _return w in
  result_of r = Raise e /\
  omap evaluated (trace_of r) = pre ++ [bad] /\
  map rating_metric (omap rating (trace_of r)) = omap resolved (trace_of r) /\
  length (omap resolved (trace_of r)) = length pre /\
  rated_on Y_ result (omap rating (trace_of r)) /\
  omap printed (trace_of r) = [].
Proof.
  intros Hrun Hpre Hbad. cbn zeta.
  destruct (score_sklearn_loop_unresolved self pre bad post Y_ result e Hpre Hbad "" w1)
    as (w' & t & Hloop & Hev & Hmet & Hlen & Hon & Hprint).
  pose proof (score_predict_only self X Y w) as Honly.
  rewrite Hrun in Honly. cbn in Honly.
  apply predict_calls_rate_nothing in Honly as (Hr & Hp & Hres & Hev1).
  unfold score.
  rewrite (bind_Ok _ _ _ _ _ _ Hrun). cbn.
  rewrite (bind_Raise _ _ _ _ _ _ Hloop). cbn.
  rewrite !omap_app, Hr, Hp, Hres, Hev1, Hprint. cbn.
  split; [reflexivity |]. split; [exact Hev |]. split; [exact Hmet |].
  split; [exact Hlen |]. split; [exact Hon | reflexivity].
Qed.

(** ** Failures and the two tracks *)

Section Tracks.
Context {PO : PyObjects} {RT : Runtime}.

Lemma only_weaken (P Q : call -> bool) {A} (m : M A) :
  (forall c, P c = true -> Q c = true) -> only P m -> only Q m.
Proof.
  intros HPQ Hm w. eapply List.Forall_impl; [| apply Hm].
  cbn. intros e He. apply HPQ. exact He.
Qed.

Lemma fit_lgbm_model_propagates self X Y X_test Y_test rating_func params cats :
  propagates (fit_lgbm_model self X Y X_test Y_test rating_func params cats).
Proof.
  unfold fit_lgbm_model, _repr_dict_model, getitem.
  rewrite merge_params_lookup.
  assert (Hn : exists n,
            match params !! "n_trials" with
            | Some v => Some v
            | None => default_params !! "n_trials"
            end = Some n).
  { destruct (params !! "n_trials") as [v |]; [exists v; reflexivity |].
    exists (pv_int 100). reflexivity. }
  destruct Hn as [n ->]. cbn [lift].
  propagation.
Qed.

Lemma fit_lgbm_model_calls self X Y X_test Y_test rating_func params cats :
  only lgbm_call (fit_lgbm_model self X Y X_test Y_test rating_func params cats).
Proof. unfold fit_lgbm_model, _repr_dict_model. only_calls. Qed.

Lemma lgbm_calls_quiet t :
  Forall (fun e => lgbm_call (e_call e) = true) t ->
  omap optimized (calls t) = [] /\ omap slept t = [].
Proof.
  induction 1 as [| e t He _ [IH1 IH2]]; [split; reflexivity |].
  cbn. unfold slept at 1.
  destruct (e_call e); try discriminate He; split; assumption.
Qed.

End Tracks.

(** X12. The tree-ensemble track has no exception handler: every call of a
    run of [fit_lgbm_model] returned, but for the last one when the run
    raised, and the run raised what that call raised (the lookup of
    [n_trials] cannot fail).  Such a failure is also the failure of the two
    tracks of [fit_model]: the generic-estimator track is not started, no
    family of the catalog being optimized, and [fit_model] does not
    sleep. *)
Theorem lgbm_failure_is_not_swallowed `{RT : Runtime} (self : Conveyor) (X : XR)
    (Y : YR) (X_test : XR) (Y_test : YR) (rating_func : FR)
    (params : gmap string PV) (categorical_columns : list string) (w : W) :
  ends_at_failure (fit_lgbm_model self X Y X_test Y_test rating_func params
                     categorical_columns w) /\
  forall e,
    result_of (fit_lgbm_model self X Y X_test Y_test rating_func params
                 categorical_columns w) = Raise e ->
    let r := fit_model_tracks self X Y X_test Y_test rating_func params
               categorical_columns w in
    result_of r = Raise e /\
    omap optimized (calls (trace_of r)) = [] /\
    omap slept (trace_of r) = [].
Proof.
  split; [apply fit_lgbm_model_propagates |].
  intros e He. cbn zeta.
  pose proof (fit_lgbm_model_calls self X Y X_test Y_test rating_func params
                categorical_columns w) as Hcalls.
  destruct (fit_lgbm_model self X Y X_test Y_test rating_func params
              categorical_columns w) as [[r w1] t1] eqn:Hrun.
  cbn in He, Hcalls. subst r.
  unfold fit_model_tracks. rewrite (bind_Raise _ _ _ _ _ _ Hrun). cbn.
  apply lgbm_calls_quiet in Hcalls as [H1 H2].
  split; [reflexivity |]. split; assumption.
Qed.

(** ** What [fit_model] leaves behind *)

Section Saved.
Context {PO : PyObjects} {RT : Runtime}.

Lemma fit_model_data_calls self X Y X_test Y_test :
  only search_call (fit_model_data self X Y X_test Y_test).
Proof.
  unfold fit_model_data.
  apply only_bind.
  { apply (only_weaken chain_call); [| apply fit_transform_chain].
    intros c Hc. destruct c; try discriminate Hc; reflexivity. }
  intros [X_train Y_train].
  assert (Hsplit : only search_call
            (bind (do (Train_test_split X_train Y_train))
               (fun parts : XR * XR * YR * YR =>
                  let '(part1, part2, part3, part4) := parts in
                  ret_ (X_train, Y_train, part2, part4)))).
  { apply only_bind; [apply (only_do _ (Train_test_split _ _)); reflexivity |].
    intros [[[p1 p2] p3] p4]. apply only_ret. }
  destruct X_test as [xt |], Y_test as [yt |]; try exact Hsplit.
  apply only_bind; [| intros [xv yv]; apply only_ret].
  apply (only_weaken transform_call); [| apply transform_only].
  intros c Hc. destruct c; try discriminate Hc; reflexivity.
Qed.

Lemma fit_sklearn_model_calls self X Y X_test Y_test rating_func params :
  only search_call (fit_sklearn_model self X Y X_test Y_test rating_func params).
Proof.
  unfold fit_sklearn_model, refit_best, _repr_dict_model.
  apply only_bind.
  { apply (only_weaken optuna_call); [| apply sklearn_search_optuna].
    intros c Hc. destruct c; try discriminate Hc; reflexivity. }
  intros best. only_calls.
  all: destruct (bm_model best); only_calls.
  all: destruct (decide _); only_calls.
Qed.

Lemma fit_model_tracks_calls self X_train Y_train X_test Y_test rating_func params cats
    w found w' t :
  fit_model_tracks self X_train Y_train X_test Y_test rating_func params cats w
    = (Ok found, w', t) ->
  omap slept t = [1%Z] /\ omap stamped t = [] /\ omap pickled t = [].
Proof.
  assert (Hquiet : forall t0,
            Forall (fun e => search_call (e_call e) = true) t0 ->
            omap slept t0 = [] /\ omap stamped t0 = [] /\ omap pickled t0 = []).
  { induction 1 as [| [c a] t0 He _ (IH1 & IH2 & IH3)]; [repeat split |].
    cbn in *. unfold slept at 1, pickled at 1. cbn.
    destruct c; try discriminate He; repeat split; assumption. }
  unfold fit_model_tracks. intros H.
  apply bind_inv_Ok in H as ([m1 r1] & w1 & t1 & t1' & H1 & H & ->).
  apply bind_inv_Ok in H as (s1 & w2 & t2 & t2' & H2 & H & ->).
  apply do_inv in H2 as (_ & ->).
  apply bind_inv_Ok in H as (u & w3 & t3 & t3' & H3 & H & ->).
  apply do_inv in H3 as (_ & ->).
  apply bind_inv_Ok in H as ([m2 r2] & w4 & t4 & t4' & H4 & H & ->).
  apply bind_inv_Ok in H as (s2 & w5 & t5 & t5' & H5 & H & ->).
  apply do_inv in H5 as (_ & ->).
  apply ret_inv in H as (_ & _ & ->).
  pose proof (only_weaken lgbm_call search_call _
                (fun c Hc => ltac:(destruct c; try discriminate Hc; reflexivity))
                (fit_lgbm_model_calls self X_train Y_train X_test Y_test rating_func
                   params cats) w) as Hl.
  rewrite H1 in Hl. cbn in Hl. apply Hquiet in Hl as (Hl1 & Hl2 & Hl3).
  pose proof (fit_sklearn_model_calls self X_train Y_train X_test Y_test rating_func
                params w3) as Hs.
  rewrite H4 in Hs. cbn in Hs. apply Hquiet in Hs as (Hs1 & Hs2 & Hs3).
  rewrite !omap_app, Hl1, Hl2, Hl3, Hs1, Hs2, Hs3.
  repeat split.
Qed.

End Saved.

(** X13. A completed [fit_model] ends with three calls: it prints the line
    of stars and "Best model = " with the estimator it chose, reads the
    clock, and pickles the Conveyor, with its stages as they were and the
    chosen estimator in place, into the file "model_" followed by the time
    stamp.  Before that it wrote no file and did not read the clock, and it
    slept exactly once, for one second. *)
Theorem fit_model_saves_the_chosen_estimator `{RT : Runtime} (self : Conveyor)
    (X : XR) (Y : YR) (X_test : option XR) (Y_test : option YR)
    (rating_func : string) (optuna_params : gmap string PV)
    (categorical_columns : list string) (w : W) (self' : Conveyor) (w' : W)
    (t : list entry) :
  fit_model self X Y X_test Y_test rating_func optuna_params categorical_columns w
    = (Ok (self', Ok tt), w', t) ->
  blocks self' = blocks self /\
  exists stamp t0,
    t = t0 ++ [Entry (Print [str_repeat "*" 100;
                             nl +:+ "Best model = " +:+ estimator_repr self'])
                 (Ok tt);
               Entry (Now_strftime "%Y_%m_%d_m%M") (Ok stamp);
               Entry (Pickle_dump ("model_" +:+ stamp) self') (Ok tt)] /\
    omap slept t0 = [1%Z] /\ omap stamped t0 = [] /\ omap pickled t0 = [].
Proof.
  assert (Hquiet : forall t0,
            Forall (fun e => search_call (e_call e) = true) t0 ->
            omap slept t0 = [] /\ omap stamped t0 = [] /\ omap pickled t0 = []).
  { induction 1 as [| [c a] t0 He _ (IH1 & IH2 & IH3)]; [repeat split |].
    cbn in *. unfold slept at 1, pickled at 1. cbn.
    destruct c; try discriminate He; repeat split; assumption. }
  unfold fit_model. intros H.
  apply bind_inv_Ok in H as (f & w1 & t1 & t1' & H1 & H & ->).
  apply do_inv in H1 as (_ & ->).
  apply bind_inv_Ok in H as ([[[Xtr Ytr] Xv] Yv] & w2 & t2 & t2' & H2 & H & ->).
  apply bind_inv_Ok in H as ([[[lm ls] tm] ts] & w3 & t3 & t3' & H3 & H & ->).
  apply bind_inv_Ok in H as (saved & w4 & t4 & t4' & H4 & H & ->).
  apply ret_inv in H as (H & _ & ->). injection H as -> <-.
  apply reify_inv in H4 as (r0 & Hr0 & H4). injection Hr0 as <-.
  unfold fit_model_save in H4.
  apply bind_inv_Ok in H4 as ([] & w5 & t5 & t5' & H5 & H4 & ->).
  apply do_inv in H5 as (_ & ->).
  apply bind_inv_Ok in H4 as (stamp & w6 & t6 & t6' & H6 & H4 & ->).
  apply do_inv in H6 as (_ & ->).
  apply (do_inv (Pickle_dump _ _)) in H4 as (_ & ->).
  split; [reflexivity |].
  pose proof (fit_model_data_calls self X Y X_test Y_test w1) as Hd.
  rewrite H2 in Hd. cbn in Hd. apply Hquiet in Hd as (Hd1 & Hd2 & Hd3).
  apply fit_model_tracks_calls in H3 as (Ht1 & Ht2 & Ht3).
  exists stamp, ([Entry (Eval_name rating_func) (Ok f)] ++ t2 ++ t3).
  split; [rewrite app_nil_r, <- !app_assoc; reflexivity |].
  cbn. rewrite !omap_app, Hd1, Hd2, Hd3, Ht1, Ht2, Ht3. repeat split.
Qed.

(** ** Printed forms *)

Lemma len_app (a b : string) : len (a +:+ b) = len a + len b.
Proof.
  induction a as [| x a IH]; cbn [append len]; [reflexivity |].
  rewrite IH. apply Nat.add_assoc.
Qed.

(** A name of eight Cyrillic letters: sixteen bytes, eight characters. *)
Example len_counts_characters :
  len "Конвейер" = 8 /\ String.length "Конвейер" = 16 /\ len "Conveyor" = 8.
Proof. repeat split; reflexivity. Qed.

Lemma str_repeat_space_single n : single_line (str_repeat " " n).
Proof. unfold single_line. induction n as [| n IH]; [reflexivity | exact IH]. Qed.

Lemma single_line_app (a b : string) :
  single_line a -> single_line b -> single_line (a +:+ b).
Proof. unfold single_line. intros Ha Hb. rewrite has_char_app, Ha, Hb. reflexivity. Qed.

(** A string without line break that is not empty is its only line. *)
Lemma split_lines_single (s : string) :
  single_line s -> s <> "" -> split_lines s = [s].
Proof.
  unfold single_line. induction s as [| c s IH]; [congruence |].
  cbn. intros H _. apply orb_false_iff in H as [Hc Hs]. rewrite Hc.
  destruct s as [| d s]; [reflexivity |].
  rewrite (IH Hs) by discriminate. reflexivity.
Qed.

(** Replacing [c] leaves no [c], and adds no character that neither the
    string nor the replacement has. *)
Lemma str_replace_char_gone c by_ s :
  has_char c by_ = false -> has_char c (str_replace_char c by_ s) = false.
Proof.
  intros Hby. induction s as [| a s IH]; cbn; [reflexivity |].
  destruct (Ascii.eqb a c) eqn:Hac.
  - rewrite has_char_app, Hby, IH. reflexivity.
  - cbn. rewrite Hac, IH. reflexivity.
Qed.

Lemma str_replace_char_adds_nothing d c by_ s :
  has_char d by_ = false -> has_char d s = false ->
  has_char d (str_replace_char c by_ s) = false.
Proof.
  intros Hby. induction s as [| a s IH]; cbn; [reflexivity |].
  intros H. apply orb_false_iff in H as [Had Hs].
  destruct (Ascii.eqb a c).
  - rewrite has_char_app, Hby, (IH Hs). reflexivity.
  - cbn. rewrite Had, (IH Hs). reflexivity.
Qed.

Section PrintedFacts.
Context {PO : PyObjects}.
Variable class_name : string.
Variable repr_block : BR -> string.
Variable repr_est : ER -> string.

Lemma __repr__loop_app indent bs : forall _repr,
  __repr__loop repr_block indent bs _repr
  = _repr +:+ __repr__loop repr_block indent bs "".
Proof.
  induction bs as [| b bs IH]; intros _repr; cbn [__repr__loop].
  - symmetry. apply str_app_empty_r.
  - rewrite IH, (IH ("" +:+ _)). cbn [append]. rewrite !str_app_assoc. reflexivity.
Qed.

Lemma __repr__loop_lines indent bs rest :
  single_line indent ->
  Forall (fun b => single_line (repr_block b)) bs ->
  split_lines (__repr__loop repr_block indent bs "" +:+ rest)
  = map (fun b => indent +:+ repr_block b +:+ ", ") bs ++ split_lines rest.
Proof.
  intros Hindent Hbs. induction Hbs as [| b bs Hb _ IH]; [reflexivity |].
  cbn [__repr__loop map app]. rewrite <- IH.
  assert (E : __repr__loop repr_block indent bs
                ("" +:+ indent +:+ repr_block b +:+ ", " +:+ nl) +:+ rest
              = (indent +:+ repr_block b +:+ ", ") +:+ nl
                +:+ (__repr__loop repr_block indent bs "" +:+ rest)).
  { rewrite __repr__loop_app, !str_app_assoc. reflexivity. }
  rewrite E.
  apply split_lines_first.
  apply single_line_app; [exact Hindent |].
  apply single_line_app; [exact Hb | reflexivity].
Qed.

End PrintedFacts.

(** X14. When the name of the class and the [repr] of every stage and of
    the estimator have no line break, [repr] of a Conveyor has one line for
    the name of the class, followed by "= (", then one line per stage, in
    order, with the [repr] of the stage followed by ", ", then a line
    "estimator = " with the [repr] of the estimator ("None" when there is
    none) and a closing line; all lines but the first are indented by the
    number of characters of the name plus three. *)
Theorem repr_lists_the_stages_in_order `{PO : PyObjects} (class_name : string)
    (repr_block : BR -> string) (repr_est : ER -> string) (self : Conveyor) :
  single_line class_name ->
  Forall (fun b => single_line (repr_block b)) (blocks self) ->
  single_line (repr_estimator repr_est self) ->
  let indent := str_repeat " " (len class_name + 3) in
  split_lines (__repr__ class_name repr_block repr_est self)
  = (class_name +:+ "= (")
    :: map (fun b => indent +:+ repr_block b +:+ ", ") (blocks self)
    ++ [indent +:+ "estimator = " +:+ repr_estimator repr_est self;
        indent +:+ " )"].
Proof.
  intros Hname Hblocks Hest. cbn zeta. unfold __repr__.
  assert (Hlen : len (class_name +:+ "= (" +:+ nl) - 1 = len class_name + 3).
  { rewrite len_app.
    replace (len ("= (" +:+ nl)) with 4 by (vm_compute; reflexivity). lia. }
  rewrite Hlen. set (indent := str_repeat " " (len class_name + 3)).
  assert (Hindent : single_line indent) by apply str_repeat_space_single.
  rewrite __repr__loop_app.
  replace (((class_name +:+ "= (" +:+ nl)
            +:+ __repr__loop repr_block indent (blocks self) "")
           +:+ indent +:+ "estimator = " +:+ repr_estimator repr_est self +:+ nl
           +:+ indent +:+ " )")
    with ((class_name +:+ "= (") +:+ nl
          +:+ (__repr__loop repr_block indent (blocks self) ""
               +:+ (indent +:+ "estimator = " +:+ repr_estimator repr_est self)
               +:+ nl +:+ (indent +:+ " )")))
    by (rewrite !str_app_assoc; reflexivity).
  rewrite split_lines_first
    by (apply single_line_app; [exact Hname | reflexivity]).
  f_equal.
  rewrite (__repr__loop_lines _ _ _ _ Hindent Hblocks). f_equal.
  rewrite split_lines_first.
  2: { apply single_line_app; [exact Hindent |].
       apply single_line_app; [reflexivity | exact Hest]. }
  f_equal. apply split_lines_single.
  - apply single_line_app; [exact Hindent | reflexivity].
  - destruct indent; discriminate.
Qed.

(** X15. [_repr_dict_model] makes one call, a [print] of two lines: the
    name of the class with the parameters in brackets, and
    "best_value = " with the value.  The parameters are [str] of the dict
    without its first and last character, with " =" for every colon and
    without single quotes: whatever the dict, no colon and no single quote
    is left in them, and for an empty dict they are empty. *)
Theorem repr_dict_model_shows_no_quote_or_colon `{RT : Runtime} (self : Conveyor)
    (model : best_model_dict) (w : W) :
  let params :=
    str_replace_char "'" ""
      (str_replace_char ":" " =" (str_slice_1_m1 (str_params (bm_params model)))) in
  _repr_dict_model self model w
  = (fst (handle (Print [model_slot_name (bm_model model) +:+ "(" +:+ params +:+ ")"
                          +:+ nl +:+ "best_value = "
                          +:+ format_value (bm_best_value model)]) w),
     snd (handle (Print [model_slot_name (bm_model model) +:+ "(" +:+ params +:+ ")"
                          +:+ nl +:+ "best_value = "
                          +:+ format_value (bm_best_value model)]) w),
     [Entry (Print [model_slot_name (bm_model model) +:+ "(" +:+ params +:+ ")"
                     +:+ nl +:+ "best_value = "
                     +:+ format_value (bm_best_value model)])
        (fst (handle (Print [model_slot_name (bm_model model) +:+ "(" +:+ params
                              +:+ ")" +:+ nl +:+ "best_value = "
                              +:+ format_value (bm_best_value model)]) w))]) /\
  has_char "'" params = false /\
  has_char ":" params = false /\
  (str_params (bm_params model) = "{}" -> params = "").
Proof.
  cbn zeta. split; [| split; [| split]].
  - unfold _repr_dict_model, do.
    destruct (handle _ w) as [r w1]. reflexivity.
  - apply str_replace_char_gone. reflexivity.
  - apply str_replace_char_adds_nothing; [reflexivity |].
    apply str_replace_char_gone. reflexivity.
  - intros ->. reflexivity.
Qed.

(** ** The models that the tracks return *)

Section Returned.
Context {PO : PyObjects} {RT : Runtime}.

(** The search leaves in [best_model] the class it started with or a class
    of the catalog. *)
Lemma sklearn_search_loop_class X Y X_test Y_test rating_func params pb catalog :
  forall best w r w' t,
    sklearn_search_loop X Y X_test Y_test rating_func params pb catalog best w
      = (r, w', t) ->
    exists best',
      r = Ok best' /\
      (bm_model best' = bm_model best \/
       exists family, In family catalog /\ bm_model best' = Model_class (fst family)).
Proof.
  induction catalog as [| family rest IH]; intros best w r w' t H;
    cbn [sklearn_search_loop] in H.
  - apply ret_inv in H as (-> & _). exists best. split; [reflexivity | left; reflexivity].
  - apply bind_inv in H as [(r1 & w1 & t1 & t2 & H1 & H & ->) | (e & H1 & _)];
      apply reify_inv in H1 as (r0 & Hr0 & H1); [| discriminate Hr0].
    injection Hr0 as ->.
    destruct r0 as [b1 | e].
    + apply IH in H as (best' & -> & Hcls). exists best'. split; [reflexivity |].
      apply sklearn_family_step_keeps in H1
        as (study & value & wv & _ & [[_ ->] | [_ Hb1]]).
      * destruct Hcls as [Hcls | (fam & Hfam & Hcls)]; [left; exact Hcls |].
        right. exists fam. split; [right; exact Hfam | exact Hcls].
      * right. destruct Hcls as [Hcls | (fam & Hfam & Hcls)].
        -- exists family. split; [left; reflexivity | congruence].
        -- exists fam. split; [right; exact Hfam | exact Hcls].
    + apply ret_inv in H as (-> & _). exists best.
      split; [reflexivity | left; reflexivity].
Qed.

Lemma sklearn_search_class X Y X_test Y_test rating_func params best w r w' t :
  sklearn_search X Y X_test Y_test rating_func params best w = (r, w', t) ->
  exists best',
    r = Ok best' /\
    (bm_model best' = bm_model best \/
     exists family, In family sklearn_models /\ bm_model best' = Model_class (fst family)).
Proof.
  unfold sklearn_search. intros H.
  apply bind_inv in H as [(r1 & w1 & t1 & t2 & H1 & H & ->) | (e & H1 & _)];
    apply reify_inv in H1 as (r0 & Hr0 & H1); [| discriminate Hr0].
  injection Hr0 as ->.
  destruct r0 as [pb | e].
  - eapply sklearn_search_loop_class. exact H.
  - apply ret_inv in H as (-> & _). exists best.
    split; [reflexivity | left; reflexivity].
Qed.

End Returned.

(** X16. When [fit_sklearn_model] returns, it has instantiated exactly one
    class, a class of the catalog, and fitted that instance once, on the
    training data, without validation set or keyword argument.  The model it
    returns is what that [fit] returned, and the predictions it returns are
    the ones this model made, in its only call of [predict], on [X_test].
    It has printed once. *)
Theorem sklearn_track_returns_the_refitted_model `{RT : Runtime} (self : Conveyor)
    (X : XR) (Y : YR) (X_test : XR) (Y_test : YR) (rating_func : FR)
    (params : gmap string PV) (w : W) (model : ER) (result : PR) (w' : W)
    (t : list entry) :
  fit_sklearn_model self X Y X_test Y_test rating_func params w
    = (Ok (model, result), w', t) ->
  exists family instance t0 line,
    In family sklearn_models /\
    omap constructed t = [fst family] /\
    omap trained t = [(instance, X, Y, None, None)] /\
    omap predicted t = [(model, X_test)] /\
    omap printed t = [line] /\
    t = t0 ++ [Entry (Est_fit instance X Y None None) (Ok model);
               Entry (Est_predict model X_test) (Ok result);
               Entry (Print line) (Ok tt)].
Proof.
  unfold fit_sklearn_model. intros H.
  apply bind_inv_Ok in H as (best & w1 & t1 & t1' & H1 & H & ->).
  pose proof (sklearn_search_optuna X Y X_test Y_test rating_func (merge_params params)
                (mkBest Builtin_object ∅ v_zero) w) as Honly.
  rewrite H1 in Honly. cbn in Honly.
  apply optuna_calls_fit_nothing in Honly as (Hc & Ht & Hp & Hpr).
  apply sklearn_search_class in H1 as (best' & Hb & Hcls). injection Hb as <-.
  apply bind_inv_Ok in H as (m & w2 & t2 & t2' & H2 & H & ->).
  unfold refit_best in H2.
  destruct (bm_model best) as [| cls] eqn:Hmodel.
  { destruct (decide _); discriminate H2. }
  destruct Hcls as [Hcls | (family & Hfam & Hcls)]; [discriminate Hcls |].
  injection Hcls as ->.
  apply bind_inv_Ok in H2 as (instance & w3 & t3 & t3' & H3 & H2 & ->).
  apply do_inv in H3 as (_ & ->).
  apply (do_inv (Est_fit instance X Y None None)) in H2 as (_ & ->).
  apply bind_inv_Ok in H as (res & w4 & t4 & t4' & H4 & H & ->).
  apply do_inv in H4 as (_ & ->).
  apply bind_inv_Ok in H as ([] & w5 & t5 & t5' & H5 & H & ->).
  unfold _repr_dict_model in H5. apply (do_inv (Print _)) in H5 as (_ & ->).
  apply ret_inv in H as (H & _ & ->). injection H as <- <-.
  eexists family, instance, (t1 ++ [Entry (Construct (fst family) (bm_params best))
                                      (Ok instance)]), _.
  split; [exact Hfam |].
  rewrite !omap_app, Hc, Ht, Hp, Hpr. cbn.
  repeat split. rewrite <- !app_assoc. reflexivity.
Qed.

(** X17. When [fit_lgbm_model] returns, it has instantiated the
    tree-ensemble class once and fitted that instance once, on the training
    data, with [(X_test, Y_test)] as validation set and the column
    parameters as keyword arguments: unlike the model of the
    generic-estimator track, this one sees the validation data while it is
    fitted.  The model returned is what that [fit] returned, and the
    predictions returned are its predictions on [X_test]. *)
Theorem lgbm_track_fits_with_the_validation_set `{RT : Runtime} (self : Conveyor)
    (X : XR) (Y : YR) (X_test : XR) (Y_test : YR) (rating_func : FR)
    (params : gmap string PV) (categorical_columns : list string) (w : W)
    (model : ER) (result : PR) (w' : W) (t : list entry) :
  fit_lgbm_model self X Y X_test Y_test rating_func params categorical_columns w
    = (Ok (model, result), w', t) ->
  exists instance kw,
    omap constructed t = [fst lightgbm_models] /\
    omap trained t = [(instance, X, Y, Some (X_test, Y_test), Some kw)] /\
    omap predicted t = [(model, X_test)] /\
    In (Entry (Est_fit instance X Y (Some (X_test, Y_test)) (Some kw)) (Ok model)) t /\
    In (Entry (Est_predict model X_test) (Ok result)) t /\
    length (omap printed t) = 1.
Proof.
  unfold fit_lgbm_model. intros H.
  apply bind_inv_Ok in H as (columns & w0 & t0 & t0' & H0 & H & ->).
  apply do_inv in H0 as (_ & ->).
  apply bind_inv_Ok in H as (n & w1 & t1 & t1' & H1 & H & ->).
  assert (Ht1 : t1 = []).
  { destruct (getitem (merge_params params) "n_trials"); cbn in H1;
      injection H1 as _ _ <-; reflexivity. }
  subst t1.
  apply bind_inv_Ok in H as (pb & w2 & t2 & t2' & H2 & H & ->).
  apply do_inv in H2 as (_ & ->).
  apply bind_inv_Ok in H as (u3 & w3 & t3 & t3' & H3 & H & ->).
  apply do_inv in H3 as (_ & ->).
  apply bind_inv_Ok in H as (study & w4 & t4 & t4' & H4 & H & ->).
  apply do_inv in H4 as (_ & ->).
  apply bind_inv_Ok in H as (ob & w5 & t5 & t5' & H5 & H & ->).
  apply do_inv in H5 as (_ & ->).
  apply bind_inv_Ok in H as (u6 & w6 & t6 & t6' & H6 & H & ->).
  apply do_inv in H6 as (_ & ->).
  apply bind_inv_Ok in H as (bp & w7 & t7 & t7' & H7 & H & ->).
  apply do_inv in H7 as (_ & ->).
  apply bind_inv_Ok in H as (m & w8 & t8 & t8' & H8 & H & ->).
  apply do_inv in H8 as (_ & ->).
  apply bind_inv_Ok in H as (m' & w9 & t9 & t9' & H9 & H & ->).
  apply do_inv in H9 as (_ & ->).
  apply bind_inv_Ok in H as (res & w10 & t10 & t10' & H10 & H & ->).
  apply do_inv in H10 as (_ & ->).
  apply bind_inv_Ok in H as (bp' & w11 & t11 & t11' & H11 & H & ->).
  apply do_inv in H11 as (_ & ->).
  apply bind_inv_Ok in H as (bv & w12 & t12 & t12' & H12 & H & ->).
  apply do_inv in H12 as (_ & ->).
  apply bind_inv_Ok in H as (u13 & w13 & t13 & t13' & H13 & H & ->).
  unfold _repr_dict_model in H13. apply (do_inv (Print _)) in H13 as (_ & ->).
  apply ret_inv in H as (H & _ & ->). injection H as <- <-.
  eexists m, _.
  split; [reflexivity |]. split; [reflexivity |]. split; [reflexivity |].
  split; [cbn; tauto |]. split; [cbn; tauto | reflexivity].
Qed.

(** ** What [score] prints *)

Section Silent.
Context {PO : PyObjects} {RT : Runtime}.

Lemma score_predict_silent self X Y : only silent_call (score_predict self X Y).
Proof.
  apply (only_weaken predict_call); [| apply score_predict_only].
  intros c Hc. destruct c; try discriminate Hc; reflexivity.
Qed.

Lemma _get_score_silent self f y result : only silent_call (_get_score self f y result).
Proof. unfold _get_score. only_calls. Qed.

Lemma score_sklearn_loop_silent self names Y_ result :
  forall score, only silent_call (score_sklearn_loop self names Y_ result score).
Proof.
  induction names as [| name names IH]; intros score; cbn [score_sklearn_loop].
  - apply only_ret.
  - only_calls; [apply _get_score_silent | apply IH].
Qed.

Lemma score_precision_loop_silent self funcs Y_ result :
  forall score, only silent_call (score_precision_loop self funcs Y_ result score).
Proof.
  induction funcs as [| f funcs IH]; intros score; cbn [score_precision_loop].
  - apply only_ret.
  - only_calls; [apply _get_score_silent | apply IH].
Qed.

Lemma silent_calls_print_nothing t :
  Forall (fun e => silent_call (e_call e) = true) t -> omap printed t = [].
Proof.
  induction 1 as [| e t He _ IH]; [reflexivity |].
  cbn. unfold printed at 1. destruct (e_call e); try discriminate He; exact IH.
Qed.

(** With [_return] set, [score] prints nothing. *)
Lemma score_silent self X Y sklearn_function precision_function :
  only silent_call (score self X Y sklearn_function precision_function true).
Proof.
  unfold score.
  apply only_bind; [apply score_predict_silent |]. intros [Y_ result].
  apply only_bind; [apply score_sklearn_loop_silent |]. intros s1.
  apply only_bind; [apply score_precision_loop_silent |]. intros s2.
  apply only_ret.
Qed.

End Silent.

(** X18. With [_return] set, [score] prints nothing, in any run from any
    state, completed or not.  Without it, a completed [score] returns
    [None] and has printed once, as its last call: the very report, and
    after the very calls, that the same call with [_return] set returns and
    makes. *)
Theorem score_prints_what_it_would_return `{RT : Runtime} (self : Conveyor) (X : XR)
    (Y : YR) (sklearn_function : list string) (precision_function : list FR) :
  (forall w,
     omap printed
       (trace_of (score self X Y sklearn_function precision_function true w)) = []) /\
  (forall w r w' t,
     score self X Y sklearn_function precision_function false w = (Ok r, w', t) ->
     r = None /\
     exists report result Y_ w0 t0,
       score self X Y sklearn_function precision_function true w
         = (Ok (Some (report, result, Y_)), w0, t0) /\
       t = t0 ++ [Entry (Print [report]) (Ok tt)] /\
       omap printed t = [[report]]).
Proof.
  assert (Hsilent : forall w,
            omap printed
              (trace_of (score self X Y sklearn_function precision_function true w))
            = []).
  { intros w. apply silent_calls_print_nothing. apply score_silent. }
  split; [exact Hsilent |].
  intros w r w' t H.
  pose proof (Hsilent w) as Hs. revert Hs.
  unfold score in *.
  apply bind_inv_Ok in H as ([Y_ result] & w1 & t1 & t1' & H1 & H & ->).
  apply bind_inv_Ok in H as (s1 & w2 & t2 & t2' & H2 & H & ->).
  apply bind_inv_Ok in H as (s2 & w3 & t3 & t3' & H3 & H & ->).
  apply bind_inv_Ok in H as ([] & w4 & t4 & t4' & H4 & H & ->).
  apply do_inv in H4 as (_ & ->).
  apply ret_inv in H as (H & _ & ->). injection H as <-.
  rewrite (bind_Ok _ _ _ _ _ _ H1). cbn.
  rewrite (bind_Ok _ _ _ _ _ _ H2). cbn.
  rewrite (bind_Ok _ _ _ _ _ _ H3). cbn.
  rewrite app_nil_r. intros Hs.
  split; [reflexivity |].
  exists s2, result, Y_, w3, (t1 ++ t2 ++ t3).
  split; [reflexivity |].
  split; [rewrite <- !app_assoc; reflexivity |].
  rewrite !app_assoc, omap_app, <- !app_assoc, Hs. reflexivity.
Qed.

(** X19. The [try] of [fit_sklearn_model] also covers the creation of the
    progress bar.  When the product [n_trials * len(sklearn_models)] or the
    creation of the bar raises, the exception is swallowed, no family is
    optimized, and [fit_sklearn_model] raises the AttributeError of
    [object().fit] instead of the exception that was raised. *)
Theorem failure_before_the_search_is_swallowed `{RT : Runtime} (self : Conveyor)
    (X : XR) (Y : YR) (X_test : XR) (Y_test : YR) (rating_func : FR)
    (params : gmap string PV) (w : W) (n_trials : PV) (e : exn) :
  getitem (merge_params params) "n_trials" = Ok n_trials ->
  pv_times_len n_trials (length sklearn_models) = Raise e \/
  (exists total,
     pv_times_len n_trials (length sklearn_models) = Ok total /\
     fst (handle (ProgressFitModel total) w) = Raise e) ->
  let r := fit_sklearn_model self X Y X_test Y_test rating_func params w in
  result_of r = Raise (Exn "AttributeError" "'object' object has no attribute 'fit'") /\
  omap optimized (calls (trace_of r)) = [] /\
  length (trace_of r) <= 1.
Proof.
  intros Hn Hfail. cbn zeta.
  assert (Hsearch : exists w1 t1,
            sklearn_search X Y X_test Y_test rating_func (merge_params params)
              (mkBest Builtin_object ∅ v_zero) w
            = (Ok (mkBest Builtin_object ∅ v_zero), w1, t1) /\
            omap optimized (calls t1) = [] /\ length t1 <= 1).
  { unfold sklearn_search, bind, reify, lift, ret_, raise, do. rewrite Hn.
    destruct Hfail as [Hlen | (total & Hlen & Hpb)]; rewrite Hlen.
    - eexists _, _. split; [reflexivity |]. split; [reflexivity | cbn; lia].
    - destruct (handle (ProgressFitModel total) w) as [r w1]. cbn in Hpb. subst r.
      eexists _, _. split; [reflexivity |]. split; [reflexivity | cbn; lia]. }
  destruct Hsearch as (w1 & t1 & Hs & Hopt & Hlen).
  rewrite (fit_sklearn_model_placeholder self _ _ _ _ _ _ _ _ _ Hs). cbn.
  split; [reflexivity |]. split; assumption.
Qed.

(** * The further properties on the concrete environments *)

Section DemoOrder.
Import Demo.
Local Existing Instance Demo.objects.
Variable catalog : list (family * unit).

Lemma demo_gt_lt (a b : Q) : v_gt (Runtime := runtime catalog) a b = true <-> (b < a)%Q.
Proof.
  cbn. rewrite negb_true_iff. split.
  - intros H. apply Qnot_le_lt. intros Hle. apply Qle_bool_iff in Hle. congruence.
  - intros H. destruct (Qle_bool a b) eqn:Hle; [| reflexivity].
    apply Qle_bool_iff in Hle. exfalso. exact (Qlt_not_le _ _ H Hle).
Qed.

Lemma demo_gt_asymmetric : gt_asymmetric (RT := runtime catalog).
Proof.
  intros a b H. apply demo_gt_lt in H.
  destruct (v_gt (Runtime := runtime catalog) b a) eqn:Hba; [| reflexivity].
  apply demo_gt_lt in Hba. exfalso.
  exact (Qlt_irrefl _ (Qlt_trans _ _ _ H Hba)).
Qed.

Lemma demo_gt_negatively_transitive : gt_negatively_transitive (RT := runtime catalog).
Proof.
  intros a b c H. apply demo_gt_lt in H.
  destruct (Qlt_le_dec b a) as [Hba | Hab].
  - left. apply demo_gt_lt. exact Hba.
  - right. apply demo_gt_lt. exact (Qlt_le_trans _ _ _ H Hab).
Qed.

Lemma demo_best_value_stable : best_value_stable (RT := runtime catalog).
Proof.
  intros study w v w1 v' w2. cbn.
  intros H1.
  match type of H1 with
  | context [match ?x with _ => _ end] => destruct x as [m |] eqn:Hm
  end; [| discriminate H1].
  injection H1 as Hv Hw. subst w1. rewrite Hm.
  intros H2. injection H2 as Hv' _. rewrite <- Hv, <- Hv'. reflexivity.
Qed.

End DemoOrder.

Section MoreRuns.
Import Demo.
Local Existing Instance Demo.objects.

(** [fit] on the pipeline without estimator: its stage is fitted, then the
    AttributeError. *)
Lemma fit_without_estimator_witness :
  estimator clone_pipeline = None /\
  result_of (fit (RT := runtime []) clone_pipeline X10 Y10 w0)
  = Raise (NoneType_has_no "fit") /\
  omap milestone_of (trace_of (fit (RT := runtime []) clone_pipeline X10 Y10 w0))
  = [Stage_fitted (Clone_center, 0); Progress_reported].
Proof.
  split; [reflexivity |].
  destruct (fit_without_estimator (RT := runtime []) clone_pipeline X10 Y10 w0 eq_refl)
    as (_ & _ & H).
  apply H. vm_compute. repeat constructor.
Defined.

(** [predict] and [score] on the pipeline without estimator. *)
Lemma no_estimator_no_prediction_witness :
  estimator clone_pipeline = None /\
  predict (RT := runtime []) clone_pipeline X10 w0
  = (Raise (NoneType_has_no "predict"), w0, []) /\
  result_of (score (RT := runtime []) clone_pipeline X10 Y10 ["r2_score"] [] false w0)
  = Raise (NoneType_has_no "predict") /\
  omap transformed
    (trace_of (score (RT := runtime []) clone_pipeline X10 Y10 ["r2_score"] [] false w0))
  = [(Clone_center, 0)].
Proof.
  split; [reflexivity |].
  destruct (no_estimator_no_prediction (RT := runtime []) clone_pipeline X10 Y10
              ["r2_score"] [] false w0 eq_refl) as (Hp & _ & _ & H).
  split; [exact Hp |].
  apply H. vm_compute. repeat constructor.
Defined.

(** A run that returned, with its final state and its record. *)
Lemma run_eta_Ok `{RT : Runtime} {A} (m : M A) (w : W) (a : A) :
  result_of (m w) = Ok a -> m w = (Ok a, world_of (m w), trace_of (m w)).
Proof. intros H. rewrite (run_eta m w) at 1. rewrite H. reflexivity. Qed.

(** [fit] on the pipeline of two stages: Ridge is fitted on the
    transformed rows. *)
Lemma fit_trains_on_the_returned_tables_witness :
  result_of (fit_transform (RT := runtime []) pipeline X10 Y10 true w0)
  = Ok (X10_, Y10_) /\
  (exists est,
     estimator pipeline = Some est /\
     omap trained (trace_of (fit_transform (RT := runtime []) pipeline X10 Y10 true w0))
     = [(est, X10_, Y10_, None, None)]) /\
  result_of (fit (RT := runtime []) pipeline X10 Y10 w0) = Ok tt.
Proof.
  assert (H : result_of (fit_transform (RT := runtime []) pipeline X10 Y10 true w0)
              = Ok (X10_, Y10_)) by (vm_compute; reflexivity).
  split; [exact H |].
  destruct (fit_trains_on_the_returned_tables (RT := runtime []) pipeline X10 Y10 w0
              X10_ Y10_ _ _ (run_eta_Ok _ _ _ H)) as (Htr & Hfit & _).
  split; [exact Htr |]. rewrite Hfit. reflexivity.
Defined.

(** [fit_model] with a test set of two rows: they are transformed by the
    stages fitted on the ten training rows. *)
Lemma explicit_test_set_is_only_transformed_witness :
  result_of (fit_model_data (RT := runtime []) pipeline X10 Y10
               (Some [4; 6]%Z) (Some [1; 0]%Z) w0)
  = Ok (X10_, Y10_, [1; 3]%Z, [-1; 0]%Z) /\
  Forall (fun e => chain_call (e_call e) = true)
    (trace_of (fit_model_data (RT := runtime []) pipeline X10 Y10
                 (Some [4; 6]%Z) (Some [1; 0]%Z) w0)).
Proof.
  assert (H : result_of (fit_model_data (RT := runtime []) pipeline X10 Y10
                           (Some [4; 6]%Z) (Some [1; 0]%Z) w0)
              = Ok (X10_, Y10_, [1; 3]%Z, [-1; 0]%Z)) by (vm_compute; reflexivity).
  split; [exact H |].
  destruct (explicit_test_set_is_only_transformed (RT := runtime []) pipeline
              X10 Y10 [4; 6]%Z [1; 0]%Z w0 X10_ Y10_ [1; 3]%Z [-1; 0]%Z _ _
              (run_eta_Ok _ _ _ H)) as (_ & Hchain & _).
  exact Hchain.
Defined.

(** Of the categorical columns "y", "x" and "z", the table has "x". *)
Lemma lgbm_keeps_the_categorical_columns_of_X_witness :
  fst (handle (Runtime := runtime []) (Columns X10_) w0) = Ok ["x"] /\
  Forall (fun kw => categorical_feature kw = ["x"])
    (omap handed_columns
       (calls (trace_of (fit_lgbm_model (RT := runtime []) pipeline X10_ Y10_ [4]%Z
                           [-1]%Z r2_score ∅ ["y"; "x"; "z"] w0)))).
Proof.
  split; [reflexivity |].
  destruct (lgbm_keeps_the_categorical_columns_of_X (RT := runtime []) pipeline
              X10_ Y10_ [4]%Z [-1]%Z r2_score ∅ ["y"; "x"; "z"] w0 ["x"] eq_refl)
    as [H _].
  eapply List.Forall_impl; [| exact H].
  cbn beta. intros kw (_ & _ & _ & Hcat & _). exact Hcat.
Defined.

(** Two families, neither failing, both with a negative best value. *)
Lemma no_value_above_zero_no_model_witness :
  omap value_read
    (trace_of (fit_sklearn_model (RT := Sour.runtime [(Ridge, tt); (Forest, tt)])
                 pipeline X10_ Y10_ [4]%Z [-1]%Z r2_score ∅ w0))
  = [(-50 # 100)%Q; (-50 # 100)%Q; (-83 # 100)%Q; (-83 # 100)%Q] /\
  result_of (fit_sklearn_model (RT := Sour.runtime [(Ridge, tt); (Forest, tt)])
               pipeline X10_ Y10_ [4]%Z [-1]%Z r2_score ∅ w0)
  = Raise (Exn "AttributeError" "'object' object has no attribute 'fit'").
Proof.
  split; [vm_compute; reflexivity |].
  apply (no_value_above_zero_no_model (RT := Sour.runtime [(Ridge, tt); (Forest, tt)])).
  vm_compute. repeat constructor.
Defined.

(** Three families with the best values 0.50, 0.83 and 0.81. *)
Lemma search_keeps_a_greatest_value_witness :
  gt_asymmetric (RT := runtime [(Ridge, tt); (Forest, tt); (Tied, tt)]) /\
  gt_negatively_transitive (RT := runtime [(Ridge, tt); (Forest, tt); (Tied, tt)]) /\
  best_value_stable (RT := runtime [(Ridge, tt); (Forest, tt); (Tied, tt)]) /\
  result_of (sklearn_for_loop (RT := runtime [(Ridge, tt); (Forest, tt); (Tied, tt)])
               X10_ Y10_ [4]%Z [-1]%Z r2_score ∅ tt
               [(Ridge, tt); (Forest, tt); (Tied, tt)] (mkBest Builtin_object ∅ 0%Q) w0)
  = Ok (mkBest (Model_class Forest) ∅ (83 # 100)%Q) /\
  Forall (fun v => v_gt (Runtime := runtime [(Ridge, tt); (Forest, tt); (Tied, tt)])
                     v (83 # 100)%Q = false)
    (omap value_read
       (trace_of (sklearn_for_loop
                    (RT := runtime [(Ridge, tt); (Forest, tt); (Tied, tt)])
                    X10_ Y10_ [4]%Z [-1]%Z r2_score ∅ tt
                    [(Ridge, tt); (Forest, tt); (Tied, tt)]
                    (mkBest Builtin_object ∅ 0%Q) w0))).
Proof.
  assert (H : result_of (sklearn_for_loop
                           (RT := runtime [(Ridge, tt); (Forest, tt); (Tied, tt)])
                           X10_ Y10_ [4]%Z [-1]%Z r2_score ∅ tt
                           [(Ridge, tt); (Forest, tt); (Tied, tt)]
                           (mkBest Builtin_object ∅ 0%Q) w0)
              = Ok (mkBest (Model_class Forest) ∅ (83 # 100)%Q))
    by (vm_compute; reflexivity).
  split; [apply demo_gt_asymmetric |].
  split; [apply demo_gt_negatively_transitive |].
  split; [apply demo_best_value_stable |].
  split; [exact H |].
  destruct (search_keeps_a_greatest_value
              (RT := runtime [(Ridge, tt); (Forest, tt); (Tied, tt)])
              X10_ Y10_ [4]%Z [-1]%Z r2_score ∅ tt
              [(Ridge, tt); (Forest, tt); (Tied, tt)] _ w0 _ _ _
              (demo_gt_asymmetric _) (demo_gt_negatively_transitive _)
              (demo_best_value_stable _) (run_eta_Ok _ _ _ H)) as (Hall & _).
  exact Hall.
Defined.

(** "rmse" is no name that [eval] knows: the metric named before it is
    called, the one named after it is not. *)
Lemma unresolved_name_aborts_score_witness :
  result_of (score_predict (RT := runtime []) pipeline X10 Y10 w0)
  = Ok (Y10_, map (fun _ => 50%Z) X10) /\
  result_of (score (RT := runtime []) pipeline X10 Y10
               (["r2_score"] ++ "rmse" :: ["accuracy_score"]) [] true w0)
  = Raise (Exn "NameError" "name 'rmse' is not defined") /\
  omap evaluated
    (trace_of (score (RT := runtime []) pipeline X10 Y10
                 (["r2_score"] ++ "rmse" :: ["accuracy_score"]) [] true w0))
  = ["r2_score"; "rmse"].
Proof.
  assert (H : result_of (score_predict (RT := runtime []) pipeline X10 Y10 w0)
              = Ok (Y10_, map (fun _ => 50%Z) X10)) by (vm_compute; reflexivity).
  split; [exact H |].
  destruct (unresolved_name_aborts_score (RT := runtime []) pipeline X10 Y10
              ["r2_score"] "rmse" ["accuracy_score"] [] true w0 _ _ _ _
              (Exn "NameError" "name 'rmse' is not defined") (run_eta_Ok _ _ _ H))
    as (H1 & H2 & _).
  - intros name [<- | []] w'. exists r2_score.
    split; [reflexivity | exists "r2_score"; reflexivity].
  - intros w'. reflexivity.
  - split; [exact H1 | exact H2].
Defined.

(** The run of [fit_model] in which the generic-estimator track wins. *)
Lemma fit_model_saves_the_chosen_estimator_witness :
  result_of (fit_model (RT := runtime [(Ridge, tt); (Forest, tt)]) pipeline X10 Y10
               None None "r2_score" ∅ [] w0)
  = Ok (mkConveyor (blocks pipeline) (Some Forest), Ok tt) /\
  exists stamp t0,
    trace_of (fit_model (RT := runtime [(Ridge, tt); (Forest, tt)]) pipeline X10 Y10
                None None "r2_score" ∅ [] w0)
    = t0 ++ [Entry (Print [str_repeat "*" 100;
                           nl +:+ "Best model = "
                           +:+ estimator_repr
                                 (RT := runtime [(Ridge, tt); (Forest, tt)])
                                 (mkConveyor (blocks pipeline) (Some Forest))])
               (Ok tt);
             Entry (Now_strftime "%Y_%m_%d_m%M") (Ok stamp);
             Entry (Pickle_dump ("model_" +:+ stamp)
                      (mkConveyor (blocks pipeline) (Some Forest))) (Ok tt)] /\
    omap slept t0 = [1%Z] /\ omap stamped t0 = [] /\ omap pickled t0 = [].
Proof.
  assert (H : result_of (fit_model (RT := runtime [(Ridge, tt); (Forest, tt)]) pipeline
                           X10 Y10 None None "r2_score" ∅ [] w0)
              = Ok (mkConveyor (blocks pipeline) (Some Forest), Ok tt))
    by (vm_compute; reflexivity).
  split; [exact H |].
  destruct (fit_model_saves_the_chosen_estimator
              (RT := runtime [(Ridge, tt); (Forest, tt)]) pipeline X10 Y10
              None None "r2_score" ∅ [] w0 _ _ _ (run_eta_Ok _ _ _ H)) as (_ & Hsaved).
  exact Hsaved.
Defined.

(** The printed form of the pipeline of two stages, and that of a
    Conveyor of a subclass with a name of eight Cyrillic letters: the indent
    counts its characters, not its bytes. *)
Lemma repr_lists_the_stages_in_order_witness :
  split_lines (__repr__ "Conveyor" (fun b => kind_name (fst b) +:+ "()")
                 (fun m => name_of_family m +:+ "()") pipeline)
  = ["Conveyor= (";
     "           Center(), ";
     "           NegateTarget(), ";
     "           estimator = Ridge()";
     "            )"] /\
  split_lines (__repr__ "Конвейер" (fun b => kind_name (fst b) +:+ "()")
                 (fun m => name_of_family m +:+ "()") clone_pipeline)
  = ["Конвейер= (";
     "           CloneCenter(), ";
     "           estimator = None";
     "            )"].
Proof.
  split.
  - refine (eq_trans
              (repr_lists_the_stages_in_order "Conveyor"
                 (fun b => kind_name (fst b) +:+ "()")
                 (fun m => name_of_family m +:+ "()") pipeline _ _ _) _).
    + reflexivity.
    + repeat constructor.
    + reflexivity.
    + reflexivity.
  - refine (eq_trans
              (repr_lists_the_stages_in_order "Конвейер"
                 (fun b => kind_name (fst b) +:+ "()")
                 (fun m => name_of_family m +:+ "()") clone_pipeline _ _ _) _).
    + reflexivity.
    + repeat constructor.
    + reflexivity.
    + reflexivity.
Defined.

(** The generic-estimator track on two families: the forest is refitted. *)
Lemma sklearn_track_returns_the_refitted_model_witness :
  result_of (fit_sklearn_model (RT := runtime [(Ridge, tt); (Forest, tt)]) pipeline
               X10_ Y10_ [4]%Z [-1]%Z r2_score ∅ w0)
  = Ok (Forest, [83]%Z) /\
  omap predicted
    (trace_of (fit_sklearn_model (RT := runtime [(Ridge, tt); (Forest, tt)]) pipeline
                 X10_ Y10_ [4]%Z [-1]%Z r2_score ∅ w0))
  = [(Forest, [4]%Z)].
Proof.
  assert (H : result_of (fit_sklearn_model (RT := runtime [(Ridge, tt); (Forest, tt)])
                           pipeline X10_ Y10_ [4]%Z [-1]%Z r2_score ∅ w0)
              = Ok (Forest, [83]%Z)) by (vm_compute; reflexivity).
  split; [exact H |].
  destruct (sklearn_track_returns_the_refitted_model
              (RT := runtime [(Ridge, tt); (Forest, tt)]) pipeline X10_ Y10_
              [4]%Z [-1]%Z r2_score ∅ w0 Forest [83]%Z _ _ (run_eta_Ok _ _ _ H))
    as (family & instance & t0 & line & _ & _ & _ & Hpredicted & _).
  exact Hpredicted.
Defined.

(** The tree-ensemble track: the model is fitted with the validation row. *)
Lemma lgbm_track_fits_with_the_validation_set_witness :
  result_of (fit_lgbm_model (RT := runtime []) pipeline X10_ Y10_ [4]%Z [-1]%Z
               r2_score ∅ ["x"] w0)
  = Ok (LGBMRegressor, [81]%Z) /\
  omap predicted
    (trace_of (fit_lgbm_model (RT := runtime []) pipeline X10_ Y10_ [4]%Z [-1]%Z
                 r2_score ∅ ["x"] w0))
  = [(LGBMRegressor, [4]%Z)].
Proof.
  assert (H : result_of (fit_lgbm_model (RT := runtime []) pipeline X10_ Y10_ [4]%Z
                           [-1]%Z r2_score ∅ ["x"] w0)
              = Ok (LGBMRegressor, [81]%Z)) by (vm_compute; reflexivity).
  split; [exact H |].
  destruct (lgbm_track_fits_with_the_validation_set (RT := runtime [])
              pipeline X10_ Y10_ [4]%Z [-1]%Z r2_score ∅ ["x"] w0
              LGBMRegressor [81]%Z _ _ (run_eta_Ok _ _ _ H))
    as (instance & kw & _ & _ & Hpredicted & _).
  exact Hpredicted.
Defined.

(** [score] without [_return]: the report of one line is printed. *)
Lemma score_prints_what_it_would_return_witness :
  result_of (score (RT := runtime []) pipeline X10 Y10 ["r2_score"] [] false w0)
  = Ok None /\
  exists report result Y_,
    result_of (score (RT := runtime []) pipeline X10 Y10 ["r2_score"] [] true w0)
    = Ok (Some (report, result, Y_)) /\
    omap printed
      (trace_of (score (RT := runtime []) pipeline X10 Y10 ["r2_score"] [] false w0))
    = [[report]].
Proof.
  assert (H : result_of (score (RT := runtime []) pipeline X10 Y10 ["r2_score"] []
                           false w0) = Ok None) by (vm_compute; reflexivity).
  split; [exact H |].
  destruct (proj2 (score_prints_what_it_would_return (RT := runtime []) pipeline
                     X10 Y10 ["r2_score"] []) w0 None _ _ (run_eta_Ok _ _ _ H))
    as (_ & report & result & Y_ & w1 & t1 & Hrun & _ & Hprinted).
  exists report, result, Y_.
  split; [rewrite Hrun; reflexivity | exact Hprinted].
Defined.

End MoreRuns.

Section MoreShelfRuns.
Import Shelf.

(** In the environment with tables as objects, no progress bar of the
    search can be created. *)
Lemma failure_before_the_search_is_swallowed_witness :
  getitem (merge_params (RT := runtime) ∅) "n_trials" = Ok tt /\
  fst (handle (Runtime := runtime) (ProgressFitModel tt) w0) = Raise not_modelled /\
  result_of (fit_sklearn_model (RT := runtime) pipeline 0 1 0 1 tt ∅ w0)
  = Raise (Exn "AttributeError" "'object' object has no attribute 'fit'").
Proof.
  assert (Hn : getitem (merge_params (RT := runtime) ∅) "n_trials" = Ok tt)
    by reflexivity.
  split; [exact Hn |]. split; [reflexivity |].
  apply (failure_before_the_search_is_swallowed (RT := runtime) pipeline 0 1 0 1 tt ∅
           w0 tt not_modelled Hn).
  right. exists tt. split; reflexivity.
Defined.

End MoreShelfRuns.

